(** * Blackjack simulator: cards, hands, shoe, strategies and the round controller

    A shallow embedding of [src/card.py], [src/hand.py], [src/deck.py],
    [src/strategies.py], [src/player.py], [src/dealer.py] and [src/game.py].

    Python integers are unbounded, so they are [Z].  A Python list is a Rocq
    list in the same order (index 0 is the head); [append] adds at the end and
    [pop()] removes the last element.  Python's [None] is [None] of an
    [option]: [Deck.deal] returns [Optional[Card]] and the callers append what
    they get to a hand without looking at it, so a hand is a list of
    [option Card.t].  A raised exception is a value of its own; the state reached
    before the exception stays as it is, as in Python. *)

From Stdlib Require Import ZArith List Bool Lia Permutation.
From Stdlib Require String.
Import String.StringSyntax.
Delimit Scope string_scope with string.
Import ListNotations.
Open Scope Z_scope.

(** ** Exceptions and outcomes *)

Inductive exn : Type :=
| AttributeError   (* an attribute of [None] was read *)
| TypeError        (* an object that is not callable was called *)
| IndexError       (* list index out of range *)
| ValueError       (* raised by [Deck.__init__] *)
| OverflowError.   (* an integer too large for a float, or [int] of infinity *)

(** What evaluating an expression that changes no state gives: its value or
    the exception it raised. *)
Inductive result (A : Type) : Type :=
| Ok (a : A)
| Err (e : exn).

Arguments Ok {A} a.
Arguments Err {A} e.

Definition rbind {A B : Type} (m : result A) (k : A -> result B) : result B :=
  match m with
  | Ok a => k a
  | Err e => Err e
  end.

(** What running a method of the round controller gives.  [OutOfFuel] is not
    a Python outcome: it marks a run of a [while] loop of the model that was
    given too small an iteration bound.  The bound [Game.play_auto] uses is
    proved sufficient below. *)
Inductive outcome (A : Type) : Type :=
| Return (a : A)
| Raise (e : exn)
| OutOfFuel.

Arguments Return {A} a.
Arguments Raise {A} e.
Arguments OutOfFuel {A}.

Definition outcome_of {A : Type} (r : result A) : outcome A :=
  match r with
  | Ok a => Return a
  | Err e => Raise e
  end.

Declare Scope result_scope.
Delimit Scope result_scope with res.
Notation "'let?' x ':=' m 'in' k" := (rbind m (fun x => k))
  (at level 10, x name, m at level 100, k at level 200) : result_scope.

(** ** card.py *)

Inductive Suit : Type := SPADES | HEARTS | DIAMONDS | CLUBS.

Inductive Rank : Type :=
| TWO | THREE | FOUR | FIVE | SIX | SEVEN | EIGHT | NINE | TEN
| JACK | QUEEN | KING | ACE.

Definition Rank_eqb (a b : Rank) : bool :=
  match a, b with
  | TWO, TWO | THREE, THREE | FOUR, FOUR | FIVE, FIVE | SIX, SIX
  | SEVEN, SEVEN | EIGHT, EIGHT | NINE, NINE | TEN, TEN
  | JACK, JACK | QUEEN, QUEEN | KING, KING | ACE, ACE => true
  | _, _ => false
  end.

Definition Suit_eqb (a b : Suit) : bool :=
  match a, b with
  | SPADES, SPADES | HEARTS, HEARTS | DIAMONDS, DIAMONDS | CLUBS, CLUBS => true
  | _, _ => false
  end.

(** [Rank.numeric_value]: the second component of the enum member's tuple. *)
Definition numeric_value (r : Rank) : Z :=
  match r with
  | TWO => 2 | THREE => 3 | FOUR => 4 | FIVE => 5 | SIX => 6
  | SEVEN => 7 | EIGHT => 8 | NINE => 9 | TEN => 10
  | JACK => 10 | QUEEN => 10 | KING => 10
  | ACE => 11
  end.

(** Iteration order of [for suit in Suit] and [for rank in Rank]. *)
Definition all_suits : list Suit := [SPADES; HEARTS; DIAMONDS; CLUBS].
Definition all_ranks : list Rank :=
  [TWO; THREE; FOUR; FIVE; SIX; SEVEN; EIGHT; NINE; TEN; JACK; QUEEN; KING; ACE].

Module Card.
Record t : Type := mk { rank : Rank; suit : Suit }.

Definition value (c : t) : Z := numeric_value (rank c).
Definition is_ace (c : t) : bool := Rank_eqb (rank c) ACE.
Definition is_face_card (c : t) : bool :=
  match rank c with JACK | QUEEN | KING => true | _ => false end.
Definition is_ten_value (c : t) : bool := value c =? 10.

(** [__eq__] on two cards and [__lt__]. *)
Definition eqb (a b : t) : bool :=
  Rank_eqb (rank a) (rank b) && Suit_eqb (suit a) (suit b).
Definition ltb (a b : t) : bool := value a <? value b.
End Card.

(** Reading attribute [attr] of an object that may be [None]. *)
Definition getattr {A : Type} (o : option Card.t) (attr : Card.t -> A) : result A :=
  match o with
  | Some c => Ok (attr c)
  | None => Err AttributeError
  end.

(** ** hand.py *)

Module Hand.
Local Open Scope result_scope.

Record t : Type := mk {
  _cards : list (option Card.t);
  _is_split : bool;
  _is_doubled : bool;
  _is_surrendered : bool
}.

(** [Hand()] *)
Definition empty : t := mk [] false false false.

Definition add_card (h : t) (card : option Card.t) : t :=
  mk (_cards h ++ [card]) (_is_split h) (_is_doubled h) (_is_surrendered h).

Definition clear (h : t) : t := empty.

Definition cards (h : t) : list (option Card.t) := _cards h.

(** The [for] loop of [value]: the running [value] and [num_aces]. *)
Fixpoint sum_loop (cs : list (option Card.t)) (value : Z) (num_aces : nat)
  : result (Z * nat) :=
  match cs with
  | [] => Ok (value, num_aces)
  | card :: rest =>
      let? v := getattr card Card.value in
      let? a := getattr card Card.is_ace in
      sum_loop rest (value + v) (if a then S num_aces else num_aces)
  end.

(** The [while value > 21 and num_aces > 0] loop of [value]; it ends
    because [num_aces] decreases. *)
Fixpoint demote_loop (num_aces : nat) (value : Z) : Z :=
  match num_aces with
  | O => value
  | S n => if 21 <? value then demote_loop n (value - 10) else value
  end.

Definition value (h : t) : result Z :=
  let? r := sum_loop (_cards h) 0 0%nat in
  Ok (demote_loop (snd r) (fst r)).

(** [any(p(card) for card in cards)]: stops at the first hit. *)
Fixpoint any (p : Card.t -> bool) (cs : list (option Card.t)) : result bool :=
  match cs with
  | [] => Ok false
  | card :: rest =>
      let? b := getattr card p in
      if b then Ok true else any p rest
  end.

(** [sum(card.value for card in cards)] *)
Fixpoint sum_values (cs : list (option Card.t)) : result Z :=
  match cs with
  | [] => Ok 0
  | card :: rest =>
      let? v := getattr card Card.value in
      let? s := sum_values rest in
      Ok (v + s)
  end.

Definition is_blackjack (h : t) : result bool :=
  if negb (length (_cards h) =? 2)%nat then Ok false
  else
    let? has_ace := any Card.is_ace (_cards h) in
    let? has_ten := any Card.is_ten_value (_cards h) in
    Ok (has_ace && has_ten).

Definition is_bust (h : t) : result bool :=
  let? v := value h in Ok (21 <? v).

Definition is_soft (h : t) : result bool :=
  let? has_ace := any Card.is_ace (_cards h) in
  if negb has_ace then Ok false
  else
    let? v := sum_values (_cards h) in
    Ok (v <=? 21).

Definition is_pair (h : t) : result bool :=
  match _cards h with
  | [c0; c1] =>
      let? r0 := getattr c0 Card.rank in
      let? r1 := getattr c1 Card.rank in
      Ok (Rank_eqb r0 r1)
  | _ => Ok false
  end.

Definition can_split (h : t) : result bool :=
  let? p := is_pair h in Ok (p && negb (_is_split h)).

Definition can_double_down (h : t) : bool :=
  (length (_cards h) =? 2)%nat && negb (_is_doubled h).

(** A hand that holds the cards [cs] and no [None]. *)
Definition of_cards (cs : list Card.t) (sp db su : bool) : t :=
  mk (map Some cs) sp db su.

(** [Hand(cards)]: [cards if cards else []], so [None] and the empty list
    both give the empty hand. *)
Definition init (cards : option (list (option Card.t))) : t :=
  match cards with
  | Some (c :: rest) => mk (c :: rest) false false false
  | _ => empty
  end.

Definition mark_split (h : t) : t :=
  mk (_cards h) true (_is_doubled h) (_is_surrendered h).
Definition mark_doubled (h : t) : t :=
  mk (_cards h) (_is_split h) true (_is_surrendered h).
Definition mark_surrendered (h : t) : t :=
  mk (_cards h) (_is_split h) (_is_doubled h) true.

(** [__len__] *)
Definition len (h : t) : Z := Z.of_nat (length (_cards h)).
End Hand.

(** ** deck.py *)

(** [list.pop()]: the last element and the list without it; [None] stands
    for the empty list, which the callers test before they pop. *)
Definition pop {A : Type} (l : list A) : option (list A * A) :=
  match rev l with
  | [] => None
  | x :: r => Some (rev r, x)
  end.

Module Deck.
Record t : Type := mk {
  num_decks : Z;
  _cards : list Card.t;
  _dealt_cards : list Card.t
}.

(** One pass of [for suit in Suit: for rank in Rank: append(Card(rank, suit))]. *)
Definition one_deck : list Card.t :=
  flat_map (fun s => map (fun r => Card.mk r s) all_ranks) all_suits.

(** [for _ in range(num_decks)]; [range] of a number below 1 is empty. *)
Fixpoint fill (n : nat) : list Card.t :=
  match n with
  | O => []
  | S k => one_deck ++ fill k
  end.

Definition reset (d : t) : t :=
  mk (num_decks d) (fill (Z.to_nat (num_decks d))) [].

Section Shuffle.
(** [random.shuffle] rearranges the list in place; which arrangement it
    picks is the random source's business. *)
Variable rng : list Card.t -> list Card.t.

Definition shuffle (d : t) : t :=
  mk (num_decks d) (rng (_cards d)) (_dealt_cards d).

(** [Deck(num_decks, shuffle_on_init)] *)
Definition init (n : Z) (shuffle_on_init : bool) : result t :=
  if n <? 1 then Err ValueError
  else
    let d := reset (mk n [] []) in
    Ok (if shuffle_on_init then shuffle d else d).
End Shuffle.

Definition deal (d : t) : option Card.t * t :=
  match pop (_cards d) with
  | None => (None, d)
  | Some (rest, card) =>
      (Some card, mk (num_decks d) rest (_dealt_cards d ++ [card]))
  end.

(** [deal_multiple]; [n] is the [count] of [range(count)]. *)
Fixpoint deal_multiple_loop (n : nat) (cards : list Card.t) (d : t)
  : list Card.t * t :=
  match n with
  | O => (cards, d)
  | S k =>
      match deal d with
      | (None, d') => (cards, d')
      | (Some card, d') => deal_multiple_loop k (cards ++ [card]) d'
      end
  end.

Definition deal_multiple (count : Z) (d : t) : list Card.t * t :=
  deal_multiple_loop (Z.to_nat count) [] d.

Definition remaining (d : t) : Z := Z.of_nat (length (_cards d)).
Definition dealt_count (d : t) : Z := Z.of_nat (length (_dealt_cards d)).
Definition total_cards (d : t) : Z := num_decks d * 52.

(** The state of the shoe after [k] calls of [deal]. *)
Fixpoint deals (k : nat) (d : t) : t :=
  match k with
  | O => d
  | S k' => deals k' (snd (deal d))
  end.
End Deck.

(** ** strategies.py *)

Inductive Action : Type :=
| HIT | STAND | DOUBLE_DOWN | SPLIT | SURRENDER | INSURANCE.

Definition rank_in (r : Rank) (l : list Rank) : bool := existsb (Rank_eqb r) l.
Definition Z_in (z : Z) (l : list Z) : bool := existsb (Z.eqb z) l.

Module BasicStrategy.
Local Open Scope result_scope.

(** The pair block of [decide]; [None] means that no [return] was reached
    and control falls through to the soft and hard tables.  [r] is
    [hand.cards[0].rank]. *)
Definition pair_rule (r : Rank) (dealer_value : Z) : option Action :=
  if rank_in r [ACE; EIGHT] then Some SPLIT
  else if rank_in r [TEN; JACK; QUEEN; KING; FIVE] then None
  else if Rank_eqb r NINE then
    if Z_in dealer_value [7; 10; 11] then None else Some SPLIT
  else if rank_in r [TWO; THREE; SEVEN] then
    if (2 <=? dealer_value) && (dealer_value <=? 7) then Some SPLIT else None
  else if rank_in r [FOUR] then
    if Z_in dealer_value [5; 6] then Some SPLIT else None
  else if Rank_eqb r SIX then
    if (2 <=? dealer_value) && (dealer_value <=? 6) then Some SPLIT else None
  else None.

Definition soft_rule (player_value dealer_value : Z) (can_double : bool) : Action :=
  if 19 <=? player_value then STAND
  else if player_value =? 18 then
    if dealer_value <=? 8 then
      if negb can_double then STAND
      else if Z_in dealer_value [3; 4; 5; 6] then DOUBLE_DOWN
      else STAND
    else HIT
  else if player_value =? 17 then
    if can_double && Z_in dealer_value [3; 4; 5; 6] then DOUBLE_DOWN else HIT
  else if Z_in player_value [15; 16] then
    if can_double && Z_in dealer_value [4; 5; 6] then DOUBLE_DOWN else HIT
  else if Z_in player_value [13; 14] then
    if can_double && Z_in dealer_value [5; 6] then DOUBLE_DOWN else HIT
  else HIT.

Definition hard_rule (player_value dealer_value : Z) (can_double : bool) : Action :=
  if 17 <=? player_value then STAND
  else if 13 <=? player_value then
    if dealer_value <=? 6 then STAND else HIT
  else if player_value =? 12 then
    if (4 <=? dealer_value) && (dealer_value <=? 6) then STAND else HIT
  else if player_value =? 11 then
    if can_double then DOUBLE_DOWN else HIT
  else if player_value =? 10 then
    if can_double && (dealer_value <=? 9) then DOUBLE_DOWN else HIT
  else if player_value =? 9 then
    if can_double && (3 <=? dealer_value) && (dealer_value <=? 6)
    then DOUBLE_DOWN else HIT
  else HIT.

(** [hand.cards[0]] *)
Definition first_card (hand : Hand.t) : result (option Card.t) :=
  match Hand.cards hand with
  | c :: _ => Ok c
  | [] => Err IndexError
  end.

Definition decide (hand : Hand.t) (dealer_card : option Card.t)
    (can_double can_split can_surrender : bool) : result Action :=
  let? player_value := Hand.value hand in
  let? dealer_value := getattr dealer_card Card.value in
  let? is_pair := Hand.is_pair hand in
  let? split :=
    (if is_pair && can_split then
       let? c0 := first_card hand in
       let? r := getattr c0 Card.rank in
       Ok (pair_rule r dealer_value)
     else Ok None) in
  match split with
  | Some a => Ok a
  | None =>
      let? is_soft := Hand.is_soft hand in
      if is_soft then Ok (soft_rule player_value dealer_value can_double)
      else Ok (hard_rule player_value dealer_value can_double)
  end.

Definition should_take_insurance (hand : Hand.t) (dealer_card : option Card.t)
  : bool := false.
End BasicStrategy.

Module ConservativeStrategy.
Local Open Scope result_scope.

Definition decide (hand : Hand.t) (dealer_card : option Card.t)
    (can_double can_split can_surrender : bool) : result Action :=
  let? player_value := Hand.value hand in
  let? is_pair := Hand.is_pair hand in
  let? split :=
    (if is_pair && can_split then
       let? c0 := BasicStrategy.first_card hand in
       getattr c0 Card.is_ace
     else Ok false) in
  if split then Ok SPLIT
  else if 12 <=? player_value then Ok STAND
  else Ok HIT.

Definition should_take_insurance (hand : Hand.t) (dealer_card : option Card.t)
  : bool := true.
End ConservativeStrategy.

Module AggressiveStrategy.
Local Open Scope result_scope.

Definition decide (hand : Hand.t) (dealer_card : option Card.t)
    (can_double can_split can_surrender : bool) : result Action :=
  let? player_value := Hand.value hand in
  let? dealer_value := getattr dealer_card Card.value in
  let? is_pair := Hand.is_pair hand in
  let? split :=
    (if is_pair && can_split then
       let? c0 := BasicStrategy.first_card hand in
       let? r := getattr c0 Card.rank in
       Ok (negb (rank_in r [TEN; JACK; QUEEN; KING; FIVE]))
     else Ok false) in
  if split then Ok SPLIT
  else if can_double && (9 <=? player_value) && (player_value <=? 12)
  then Ok DOUBLE_DOWN
  else if player_value <? 18 then Ok HIT
  else Ok STAND.

Definition should_take_insurance (hand : Hand.t) (dealer_card : option Card.t)
  : bool := false.
End AggressiveStrategy.

Module MartingaleStrategy.
(** [_basic_strategy] is a [BasicStrategy()], which has no state. *)
Record t : Type := mk { _consecutive_losses : Z }.

Definition init : t := mk 0.

Definition decide (self : t) (hand : Hand.t) (dealer_card : option Card.t)
    (can_double can_split can_surrender : bool) : result Action :=
  BasicStrategy.decide hand dealer_card can_double can_split can_surrender.

Definition should_take_insurance (self : t) (hand : Hand.t)
    (dealer_card : option Card.t) : bool := false.

Definition get_bet_multiplier (self : t) : Z := 2 ^ _consecutive_losses self.
Definition record_loss (self : t) : t := mk (_consecutive_losses self + 1).
Definition record_win (self : t) : t := mk 0.
Definition reset (self : t) : t := mk 0.
End MartingaleStrategy.

Module CardCountingStrategy.
(** The true count and the bet multiplier are floating-point and are left
    out; [decide] and [update_count] do not use them. *)
Record t : Type := mk { _running_count : Z; _cards_seen : Z }.

Definition init : t := mk 0 0.

Definition decide (self : t) (hand : Hand.t) (dealer_card : option Card.t)
    (can_double can_split can_surrender : bool) : result Action :=
  BasicStrategy.decide hand dealer_card can_double can_split can_surrender.

(** [_cards_seen] is incremented before [card.value] is read, so it stays
    incremented when the read raises. *)
Definition update_count (self : t) (card : option Card.t) : result unit * t :=
  let self1 := mk (_running_count self) (_cards_seen self + 1) in
  match getattr card Card.value with
  | Ok value =>
      if (2 <=? value) && (value <=? 6) then
        (Ok tt, mk (_running_count self1 + 1) (_cards_seen self1))
      else
        match getattr card Card.is_ace with
        | Ok ace =>
            if (10 <=? value) || ace then
              (Ok tt, mk (_running_count self1 - 1) (_cards_seen self1))
            else (Ok tt, self1)
        | Err e => (Err e, self1)
        end
  | Err e => (Err e, self1)
  end.

Definition get_running_count (self : t) : Z := _running_count self.
Definition reset (self : t) : t := mk 0 0.

(** [update_count] called on each card of [cs] in turn. *)
Definition observe (self : t) (cs : list Card.t) : t :=
  fold_left (fun s c => snd (update_count s (Some c))) cs self.
End CardCountingStrategy.

(** The five concrete subclasses of the abstract [Strategy]. *)
Inductive Strategy : Type :=
| Basic
| Conservative
| Aggressive
| Martingale (self : MartingaleStrategy.t)
| CardCounting (self : CardCountingStrategy.t).

(** Method dispatch of [strategy.decide(...)]. *)
Definition decide (s : Strategy) (hand : Hand.t) (dealer_card : option Card.t)
    (can_double can_split can_surrender : bool) : result Action :=
  match s with
  | Basic =>
      BasicStrategy.decide hand dealer_card can_double can_split can_surrender
  | Conservative =>
      ConservativeStrategy.decide hand dealer_card can_double can_split can_surrender
  | Aggressive =>
      AggressiveStrategy.decide hand dealer_card can_double can_split can_surrender
  | Martingale self =>
      MartingaleStrategy.decide self hand dealer_card can_double can_split can_surrender
  | CardCounting self =>
      CardCountingStrategy.decide self hand dealer_card can_double can_split can_surrender
  end.

(** ** player.py *)

Module Player.
(** [hands] always holds [hand] itself as its first element; [hands_rest]
    is [hands[1:]].  The name is left out. *)
Record t : Type := mk {
  bankroll : Z;
  initial_bankroll : Z;
  strategy : Strategy;
  hand : Hand.t;
  hands_rest : list Hand.t;
  current_bet : Z
}.

Definition init (bankroll : Z) (strategy : Strategy) : t :=
  mk bankroll bankroll strategy Hand.empty [] 0.

Definition place_bet (p : t) (amount : Z) : bool * t :=
  if bankroll p <? amount then (false, p)
  else
    (true,
     mk (bankroll p - amount) (initial_bankroll p) (strategy p) (hand p)
        (hands_rest p) (current_bet p + amount)).

Definition win (p : t) (amount : Z) : t :=
  mk (bankroll p + amount) (initial_bankroll p) (strategy p) (hand p)
     (hands_rest p) (current_bet p).

Definition add_card (p : t) (card : option Card.t) : t :=
  mk (bankroll p) (initial_bankroll p) (strategy p)
     (Hand.add_card (hand p) card) (hands_rest p) (current_bet p).

Definition clear_hands (p : t) : t :=
  mk (bankroll p) (initial_bankroll p) (strategy p) Hand.empty [] 0.

Definition total_profit (p : t) : Z := bankroll p - initial_bankroll p.

(** [split_hand]: [self.hand.cards] is a copy of the list, so the [pop()]
    takes the second card off the copy and the hand keeps it. *)
Definition split_hand (p : t) : result bool * t :=
  match Hand.is_pair (hand p) with
  | Err e => (Err e, p)
  | Ok false => (Ok false, p)
  | Ok true =>
      match pop (Hand.cards (hand p)) with
      | None => (Err IndexError, p)
      | Some (_, card2) =>
          (Ok true,
           mk (bankroll p) (initial_bankroll p) (strategy p) (hand p)
              (hands_rest p ++ [Hand.init (Some [card2])]) (current_bet p))
      end
  end.
End Player.

(** ** dealer.py *)

Module Dealer.
Local Open Scope result_scope.

Record t : Type := mk { hand : Hand.t }.

Definition init : t := mk Hand.empty.

Definition add_card (d : t) (card : option Card.t) : t :=
  mk (Hand.add_card (hand d) card).

Definition should_hit (d : t) : result bool :=
  let? v := Hand.value (hand d) in Ok (v <? 17).

Definition clear_hand (d : t) : t := mk Hand.empty.

Definition upcard (d : t) : option Card.t :=
  match Hand.cards (hand d) with
  | c :: _ => c
  | [] => None
  end.
End Dealer.

(** ** game.py *)

(** The three strings [play_auto] and [_determine_winner] return. *)
Inductive round_result : Type := win | loss | push.

Module Game.
Record t : Type := mk {
  player : Player.t;
  dealer : Dealer.t;
  deck : Deck.t;
  bet : Z;
  num_decks : Z;
  round_active : bool;
  insurance_offered : bool
}.

Definition set_player (g : t) (p : Player.t) : t :=
  mk p (dealer g) (deck g) (bet g) (num_decks g) (round_active g)
     (insurance_offered g).
Definition set_dealer (g : t) (d : Dealer.t) : t :=
  mk (player g) d (deck g) (bet g) (num_decks g) (round_active g)
     (insurance_offered g).
Definition set_deck (g : t) (d : Deck.t) : t :=
  mk (player g) (dealer g) d (bet g) (num_decks g) (round_active g)
     (insurance_offered g).
Definition set_round_active (g : t) (b : bool) : t :=
  mk (player g) (dealer g) (deck g) (bet g) (num_decks g) b
     (insurance_offered g).

(** *** Methods as state transformers that may raise *)

Definition M (A : Type) : Type := t -> outcome A * t.

Definition ret {A : Type} (a : A) : M A := fun g => (Return a, g).

Definition bind {A B : Type} (m : M A) (k : A -> M B) : M B :=
  fun g =>
    match m g with
    | (Return a, g') => k a g'
    | (Raise e, g') => (Raise e, g')
    | (OutOfFuel, g') => (OutOfFuel, g')
    end.

Definition raise {A : Type} (e : exn) : M A := fun g => (Raise e, g).

(** A read of the state, which may raise but changes nothing. *)
Definition read {A : Type} (f : t -> result A) : M A :=
  fun g => (outcome_of (f g), g).

Definition get : M t := fun g => (Return g, g).

(** A write that cannot raise. *)
Definition modify (f : t -> t) : M unit := fun g => (Return tt, f g).

Declare Scope game_scope.
Delimit Scope game_scope with game.
Notation "x <- m ;; k" := (bind m (fun x => k))
  (at level 61, m at next level, right associativity) : game_scope.
Notation "m ;;; k" := (bind m (fun _ => k))
  (at level 61, right associativity) : game_scope.
Local Open Scope game_scope.

(** [self.player.place_bet(amount)] *)
Definition player_place_bet (amount : Z) : M bool :=
  fun g =>
    let (ok, p) := Player.place_bet (player g) amount in
    (Return ok, set_player g p).

(** [self.player.win(amount)] *)
Definition player_win (amount : Z) : M unit :=
  modify (fun g => set_player g (Player.win (player g) amount)).

(** [self.deck.deal()] *)
Definition deck_deal : M (option Card.t) :=
  fun g =>
    let (card, d) := Deck.deal (deck g) in
    (Return card, set_deck g d).

(** [self.player.add_card(card)] and [self.dealer.add_card(card)] *)
Definition player_add_card (card : option Card.t) : M unit :=
  modify (fun g => set_player g (Player.add_card (player g) card)).
Definition dealer_add_card (card : option Card.t) : M unit :=
  modify (fun g => set_dealer g (Dealer.add_card (dealer g) card)).

(** [self.player.add_card(self.deck.deal())] and
    [self.dealer.add_card(self.deck.deal())] *)
Definition player_hit : M unit := card <- deck_deal ;; player_add_card card.
Definition dealer_hit : M unit := card <- deck_deal ;; dealer_add_card card.

(** [b()] for a [bool] [b]: a [bool] is not callable. *)
Definition call_bool (b : bool) : M bool := raise TypeError.

(** The nearest integer with at most 53 significant bits to the integer
    [n >= 0], ties going to the even significand: what a conversion to
    binary64, or a binary64 operation whose exact result is [n], gives. *)
Definition round53 (n : Z) : Z :=
  if n <? 2 ^ 53 then n
  else
    let k := Z.log2 n - 52 in
    let q := Z.shiftr n k in
    let r := n mod 2 ^ k in
    let half := 2 ^ (k - 1) in
    (if (half <? r) || ((r =? half) && Z.odd q) then q + 1 else q) * 2 ^ k.

(** [int(bet * 2.5)].  [bet] is converted to binary64 (rounding; an integer
    that rounds to [2^1024] or more raises [OverflowError]), the product
    with 2.5 is rounded again (to infinity from [2^1024] on, and [int] of
    infinity raises [OverflowError]), and [int] truncates towards zero.  The
    exact product is [5 * f / 2] for the float [f]; halving does not change
    the significand, so the rounding is done on [5 * f]. *)
Definition int_times_2_5 (bet : Z) : result Z :=
  let f := round53 (Z.abs bet) in
  if 2 ^ 1024 <=? f then Err OverflowError
  else
    let p := round53 (5 * f) in
    if 2 ^ 1025 <=? p then Err OverflowError
    else Ok (Z.sgn bet * (p / 2)).

Definition _resolve_dealer_blackjack : M bool :=
  is_blackjack <- read (fun g => Hand.is_blackjack (Player.hand (player g))) ;;
  b <- call_bool is_blackjack ;;
  if b then
    g <- get ;;
    player_win (bet g) ;;;
    ret false
  else ret false.

Definition _resolve_player_blackjack : M bool :=
  amount <- read (fun g => int_times_2_5 (bet g)) ;;
  player_win amount ;;;
  ret false.

Definition start_round : M bool :=
  g <- get ;;
  if Player.bankroll (player g) <? bet g then ret false
  else
    placed <- player_place_bet (bet g) ;;
    if negb placed then ret false
    else
      modify (fun g => set_player g (Player.clear_hands (player g))) ;;;
      modify (fun g => set_dealer g (Dealer.clear_hand (dealer g))) ;;;
      player_hit ;;;
      dealer_hit ;;;
      player_hit ;;;
      dealer_hit ;;;
      modify (fun g => set_round_active g true) ;;;
      dealer_bj <- read (fun g => Hand.is_blackjack (Dealer.hand (dealer g))) ;;
      dealer_bj_called <- call_bool dealer_bj ;;
      if dealer_bj_called then _resolve_dealer_blackjack
      else
        player_bj <- read (fun g => Hand.is_blackjack (Player.hand (player g))) ;;
        player_bj_called <- call_bool player_bj ;;
        if player_bj_called then _resolve_player_blackjack
        else ret true.

Definition _determine_winner : M round_result :=
  player_value <- read (fun g => Hand.value (Player.hand (player g))) ;;
  dealer_value <- read (fun g => Hand.value (Dealer.hand (dealer g))) ;;
  g <- get ;;
  if 21 <? dealer_value then
    player_win (bet g * 2) ;;; ret win
  else if dealer_value <? player_value then
    player_win (bet g * 2) ;;; ret win
  else if player_value <? dealer_value then
    ret loss
  else
    player_win (bet g) ;;; ret push.

(** One evaluation of the arguments of [self.player.strategy.decide(...)]
    and the call, in Python's left-to-right order. *)
Definition ask_strategy : M Action :=
  read (fun g =>
    (let? dealer_card := BasicStrategy.first_card (Dealer.hand (dealer g)) in
     let? can_split := Hand.is_pair (Player.hand (player g)) in
     decide (Player.strategy (player g)) (Player.hand (player g))
            dealer_card true can_split true)%res).

(** The player's [while self.player.hand.value < 21] loop. *)
Fixpoint player_turn (fuel : nat) : M unit :=
  match fuel with
  | O => fun g => (OutOfFuel, g)
  | S n =>
      v <- read (fun g => Hand.value (Player.hand (player g))) ;;
      if v <? 21 then
        action <- ask_strategy ;;
        match action with
        | HIT => player_hit ;;; player_turn n
        | STAND => ret tt
        | DOUBLE_DOWN =>
            g <- get ;;
            _ <- player_place_bet (bet g) ;;
            player_hit ;;;
            ret tt
        | SPLIT => ret tt
        | _ => ret tt
        end
      else ret tt
  end.

(** The dealer's [while self.dealer.should_hit()] loop. *)
Fixpoint dealer_turn (fuel : nat) : M unit :=
  match fuel with
  | O => fun g => (OutOfFuel, g)
  | S n =>
      hit <- read (fun g => Dealer.should_hit (dealer g)) ;;
      if hit then
        dealer_hit ;;; dealer_turn n
      else ret tt
  end.

(** Every pass of either loop that does not leave it takes a card off the
    shoe, and the pass after a [None] was appended raises: two more tests
    than the shoe has cards are enough. *)
Definition loop_bound (g : t) : nat := S (S (length (Deck._cards (deck g)))).

(** [play_auto] after [start_round] has returned [True]. *)
Definition play_round : M round_result :=
  g0 <- get ;;
  player_turn (loop_bound g0) ;;;
  v <- read (fun g => Hand.value (Player.hand (player g))) ;;
  if 21 <? v then ret loss
  else
    g1 <- get ;;
    dealer_turn (loop_bound g1) ;;;
    _determine_winner.

Definition play_auto : M round_result :=
  started <- start_round ;;
  if negb started then ret loss
  else play_round.

(** [reset]; the fresh shoe is [Deck(num_decks=self.num_decks)], shuffled
    by [rng]. *)
Definition reset (rng : list Card.t -> list Card.t) : M unit :=
  fun g =>
    match Deck.init rng (num_decks g) true with
    | Ok d =>
        (Return tt,
         set_round_active
           (set_dealer
              (set_player (set_deck g d) (Player.clear_hands (player g)))
              (Dealer.clear_hand (dealer g)))
           false)
    | Err e => (Raise e, g)
    end.

(** [Game(player, bet, num_decks)]; [player or Player("Player", 1000)], and
    the shoe is built last, so a bad [num_decks] raises from there. *)
Definition init (rng : list Card.t -> list Card.t) (player : option Player.t)
    (bet num_decks : Z) : result t :=
  let p := match player with
           | Some p => p
           | None => Player.init 1000 Basic
           end in
  match Deck.init rng num_decks true with
  | Ok d => Ok (mk p Dealer.init d bet num_decks false false)
  | Err e => Err e
  end.
End Game.

(** ** stats.py *)

Module Statistics.
Section Records.
(** The type of [datetime] values, of which only the records' [timestamp]
    field is made. *)
Variable datetime : Type.

Record GameRecord : Type := mkRecord {
  timestamp : datetime;
  result : String.string;
  bet : Z;
  payout : Z;
  bankroll_after : Z;
  was_blackjack : bool;
  was_split : bool;
  was_doubled : bool;
  dealer_busted : bool;
  player_busted : bool
}.

Record t : Type := mk {
  games : list GameRecord;
  total_wagered : Z;
  total_won : Z;
  total_lost : Z
}.

(** [Statistics()] *)
Definition init : t := mk [] 0 0 0.

Definition record_game (s : t) (record : GameRecord) : t :=
  let games' := games s ++ [record] in
  let wagered' := total_wagered s + bet record in
  if String.eqb (result record) "win"%string then
    mk games' wagered' (total_won s + payout record) (total_lost s)
  else if String.eqb (result record) "loss"%string then
    mk games' wagered' (total_won s) (total_lost s + bet record)
  else
    mk games' wagered' (total_won s) (total_lost s).

(** [sum(1 for g in self.games if p(g))] *)
Definition count_games (p : GameRecord -> bool) (s : t) : Z :=
  Z.of_nat (length (filter p (games s))).

Definition games_played (s : t) : Z := Z.of_nat (length (games s)).
Definition wins (s : t) : Z :=
  count_games (fun g => String.eqb (result g) "win"%string) s.
Definition losses (s : t) : Z :=
  count_games (fun g => String.eqb (result g) "loss"%string) s.
Definition pushes (s : t) : Z :=
  count_games (fun g => String.eqb (result g) "push"%string) s.
Definition net_profit (s : t) : Z := total_won s - total_lost s.
Definition blackjacks (s : t) : Z := count_games was_blackjack s.
Definition player_busts (s : t) : Z := count_games player_busted s.
Definition dealer_busts (s : t) : Z := count_games dealer_busted s.

(** [record_game] called on each record of [rs] in turn. *)
Definition record_all (s : t) (rs : list GameRecord) : t :=
  fold_left record_game rs s.
End Records.
End Statistics.

(** ** Notions used to state the properties *)

(** The sum of the card values with every Ace counted as 11, and the number
    of Aces, of a sequence of cards. *)
Definition naive_sum (cs : list Card.t) : Z :=
  fold_right (fun c acc => Card.value c + acc) 0 cs.

Definition count_aces (cs : list Card.t) : nat :=
  length (filter Card.is_ace cs).

(** The actions [decide] may return: every action but [INSURANCE]. *)
Definition playing_actions : list Action :=
  [HIT; STAND; DOUBLE_DOWN; SPLIT; SURRENDER].

(** What the shoe keeps true: the cards left and the cards dealt add up to
    [52 * num_decks]. *)
Definition deck_inv (d : Deck.t) : Prop :=
  Deck.remaining d + Deck.dealt_count d = Deck.total_cards d.

(** The Hi-Lo table as the specification gives it: +1 for the ranks 2 to 6,
    0 for 7 to 9, -1 for the ten-valued ranks and the Ace. *)
Definition hi_lo (r : Rank) : Z :=
  match r with
  | TWO | THREE | FOUR | FIVE | SIX => 1
  | SEVEN | EIGHT | NINE => 0
  | TEN | JACK | QUEEN | KING | ACE => -1
  end.

Definition hi_lo_sum (rs : list Rank) : Z :=
  fold_right (fun r acc => hi_lo r + acc) 0 rs.

(** The state after the DOUBLE_DOWN branch: [place_bet] then one hit. *)
Definition doubled (g : Game.t) : Game.t :=
  snd (Game.player_hit
         (Game.set_player g (snd (Player.place_bet (Game.player g)
                                                   (Game.bet g))))).

(** What a card adds to a hand when every Ace counts as 1, and the total of
    a sequence of cards counted that way. *)
Definition hard_value (c : Card.t) : Z :=
  if Card.is_ace c then 1 else Card.value c.

Definition hard_total (cs : list Card.t) : Z :=
  naive_sum cs - 10 * Z.of_nat (count_aces cs).

(** The rank of a pair: of a hand of exactly two cards of one rank. *)
Definition pair_rank (cs : list Card.t) : option Rank :=
  match cs with
  | [c0; c1] =>
      if Rank_eqb (Card.rank c0) (Card.rank c1) then Some (Card.rank c0)
      else None
  | _ => None
  end.

(** [record_loss] called [n] times in a row. *)
Definition losses_in_a_row (n : nat) (s : MartingaleStrategy.t)
  : MartingaleStrategy.t :=
  Nat.iter n MartingaleStrategy.record_loss s.

(** Whether a record has the result [s], and the sum of [f] over the records
    that satisfy [p]. *)
Section StatsNotions.
Variable datetime : Type.

Definition is_result (s : String.string)
    (r : Statistics.GameRecord datetime) : bool :=
  String.eqb (Statistics.result datetime r) s.

Definition sum_over (f : Statistics.GameRecord datetime -> Z)
    (p : Statistics.GameRecord datetime -> bool)
    (rs : list (Statistics.GameRecord datetime)) : Z :=
  fold_right (fun r acc => (if p r then f r else 0) + acc) 0 rs.
End StatsNotions.

(** * Properties *)

(** ** Hand valuation *)

Section HandValue.
Local Open Scope result_scope.

Lemma sum_loop_cards (cs : list Card.t) :
  forall (v : Z) (n : nat),
    Hand.sum_loop (map Some cs) v n
    = Ok (v + naive_sum cs, (n + count_aces cs)%nat).
Proof.
  unfold count_aces.
  induction cs as [|c cs IH]; intros v n; simpl.
  - now rewrite Z.add_0_r, Nat.add_0_r.
  - rewrite IH. destruct (Card.is_ace c); simpl; f_equal; f_equal; lia.
Qed.

(** What the demotion loop computes: [k] Aces are demoted, each of them
    while the running total was above 21, and the loop stopped because the
    Aces ran out or the total came down to 21 or less. *)
Lemma demote_loop_spec (n : nat) :
  forall v : Z, exists k : Z,
    0 <= k <= Z.of_nat n /\
    Hand.demote_loop n v = v - 10 * k /\
    (forall j, 0 <= j < k -> 21 < v - 10 * j) /\
    (k = Z.of_nat n \/ v - 10 * k <= 21).
Proof.
  induction n as [|n IH]; intros v.
  - exists 0. simpl. repeat split; try lia.
  - cbn [Hand.demote_loop]. destruct (Z.ltb_spec 21 v) as [Hgt|Hle].
    + destruct (IH (v - 10)) as (k & Hk & Heq & Hrun & Hstop).
      exists (k + 1). repeat split; try lia.
      intros j Hj. destruct (Z.eq_dec j 0) as [->|Hnz]; [lia|].
      specialize (Hrun (j - 1)). lia.
    + exists 0. repeat split; try lia.
Qed.

Lemma value_of_cards (cs : list Card.t) (sp db su : bool) :
  Hand.value (Hand.of_cards cs sp db su)
  = Ok (Hand.demote_loop (count_aces cs) (naive_sum cs)).
Proof.
  unfold Hand.value, Hand.of_cards. cbn [Hand._cards].
  now rewrite sum_loop_cards.
Qed.

Lemma any_cards (p : Card.t -> bool) (cs : list Card.t) :
  Hand.any p (map Some cs) = Ok (existsb p cs).
Proof.
  induction cs as [|c cs IH]; simpl; [reflexivity|].
  destruct (p c); simpl; [reflexivity | exact IH].
Qed.

Lemma sum_values_cards (cs : list Card.t) :
  Hand.sum_values (map Some cs) = Ok (naive_sum cs).
Proof.
  induction cs as [|c cs IH]; simpl; [reflexivity|].
  now rewrite IH.
Qed.

Lemma is_soft_of_cards (cs : list Card.t) (sp db su : bool) :
  Hand.is_soft (Hand.of_cards cs sp db su)
  = Ok (existsb Card.is_ace cs && (naive_sum cs <=? 21)).
Proof.
  unfold Hand.is_soft, Hand.of_cards. cbn [Hand._cards].
  rewrite any_cards. simpl.
  destruct (existsb Card.is_ace cs); simpl; [|reflexivity].
  now rewrite sum_values_cards.
Qed.

Lemma is_pair_of_cards (cs : list Card.t) (sp db su : bool) :
  exists b, Hand.is_pair (Hand.of_cards cs sp db su) = Ok b /\
            (b = true -> exists c0 c1, cs = [c0; c1] /\
                                       Card.rank c0 = Card.rank c1).
Proof.
  unfold Hand.is_pair, Hand.of_cards. cbn [Hand._cards].
  destruct cs as [|c0 [|c1 [|c2 cs]]]; simpl;
    try (exists false; split; [reflexivity | discriminate]).
  exists (Rank_eqb (Card.rank c0) (Card.rank c1)). split; [reflexivity|].
  intros H. exists c0, c1. split; [reflexivity|].
  destruct (Card.rank c0), (Card.rank c1); simpl in H;
    (reflexivity || discriminate).
Qed.

(** A hand on which a property that reads every card returned holds no
    [None]. *)
Lemma sum_loop_returns_cards (l : list (option Card.t)) :
  forall v n r, Hand.sum_loop l v n = Ok r ->
                exists cs, l = map Some cs.
Proof.
  induction l as [|o l IH]; intros v n r H.
  - now exists [].
  - destruct o as [c|]; simpl in H; [|discriminate].
    destruct (IH _ _ _ H) as [cs ->]. now exists (c :: cs).
Qed.

Lemma value_returns_cards (h : Hand.t) (v : Z) :
  Hand.value h = Ok v ->
  exists cs, h = Hand.of_cards cs (Hand._is_split h) (Hand._is_doubled h)
                               (Hand._is_surrendered h).
Proof.
  unfold Hand.value. intros H.
  destruct (Hand.sum_loop (Hand._cards h) 0 0) as [r|e] eqn:E;
    simpl in H; try discriminate.
  destruct (sum_loop_returns_cards _ _ _ _ E) as [cs Hcs].
  exists cs. destruct h; unfold Hand.of_cards; simpl in *. now subst.
Qed.
End HandValue.

(** C2. For every finite sequence of cards, [Hand.value] is the sum of the
    card values with every Ace counted as 11, minus 10 for each Ace demoted
    one at a time while the running total exceeds 21 and undemoted Aces
    remain.  So it is at most that sum, it is that sum when the sum is at
    most 21, and four Aces are worth 14. *)
Theorem hand_value_demotes_aces :
  (forall (cs : list Card.t) (sp db su : bool), exists k : Z,
      0 <= k <= Z.of_nat (count_aces cs) /\
      Hand.value (Hand.of_cards cs sp db su) = Ok (naive_sum cs - 10 * k) /\
      (forall j, 0 <= j < k -> 21 < naive_sum cs - 10 * j) /\
      (k = Z.of_nat (count_aces cs) \/ naive_sum cs - 10 * k <= 21)) /\
  (forall (cs : list Card.t) (sp db su : bool), exists v : Z,
      Hand.value (Hand.of_cards cs sp db su) = Ok v /\
      v <= naive_sum cs /\
      (naive_sum cs <= 21 -> v = naive_sum cs)) /\
  (forall (s1 s2 s3 s4 : Suit) (sp db su : bool),
      Hand.value (Hand.of_cards [Card.mk ACE s1; Card.mk ACE s2;
                                 Card.mk ACE s3; Card.mk ACE s4] sp db su)
      = Ok 14).
Proof.
  split; [|split].
  - intros cs sp db su. rewrite value_of_cards.
    destruct (demote_loop_spec (count_aces cs) (naive_sum cs))
      as (k & Hk & Heq & Hrun & Hstop).
    exists k. rewrite Heq. auto.
  - intros cs sp db su. rewrite value_of_cards.
    destruct (demote_loop_spec (count_aces cs) (naive_sum cs))
      as (k & Hk & Heq & Hrun & Hstop).
    eexists. split; [reflexivity|]. rewrite Heq. split; [lia|].
    intros Hle. destruct (Z.eq_dec k 0) as [->|Hnz]; [lia|].
    specialize (Hrun 0). lia.
  - intros. reflexivity.
Qed.

(** ** The strategies' [decide] *)

Ltac split_ifs :=
  repeat match goal with
         | |- context [if ?b then _ else _] => destruct b
         end.

Section Decide.
Local Open Scope result_scope.

Lemma pair_rule_split (r : Rank) (dv : Z) (a : Action) :
  BasicStrategy.pair_rule r dv = Some a -> a = SPLIT.
Proof.
  unfold BasicStrategy.pair_rule. split_ifs; congruence.
Qed.

Lemma soft_rule_plays (pv dv : Z) (cd : bool) :
  In (BasicStrategy.soft_rule pv dv cd) [HIT; STAND; DOUBLE_DOWN].
Proof.
  unfold BasicStrategy.soft_rule. split_ifs; simpl; auto.
Qed.

Lemma hard_rule_plays (pv dv : Z) (cd : bool) :
  In (BasicStrategy.hard_rule pv dv cd) [HIT; STAND; DOUBLE_DOWN].
Proof.
  unfold BasicStrategy.hard_rule. split_ifs; simpl; auto.
Qed.

Lemma playing_not_insurance (a : Action) :
  In a playing_actions -> a <> INSURANCE.
Proof.
  unfold playing_actions. simpl. intros H ->.
  repeat (destruct H as [H|H]; [discriminate|]). exact H.
Qed.

Lemma table_plays (a : Action) :
  In a [HIT; STAND; DOUBLE_DOWN] -> In a playing_actions.
Proof.
  unfold playing_actions. simpl. intuition.
Qed.

Variables (cs : list Card.t) (sp db su : bool) (dealer_card : Card.t).
Variables (can_double can_split can_surrender : bool).

Let hand := Hand.of_cards cs sp db su.

Lemma basic_decide_total :
  exists a,
    BasicStrategy.decide hand (Some dealer_card) can_double can_split
                         can_surrender = Ok a /\
    In a playing_actions.
Proof.
  unfold BasicStrategy.decide, hand. rewrite value_of_cards.
  cbn [rbind getattr].
  destruct (is_pair_of_cards cs sp db su) as (b & -> & Hpair). cbn [rbind].
  rewrite is_soft_of_cards.
  destruct (b && can_split) eqn:E.
  - apply andb_prop in E. destruct E as [-> _].
    destruct (Hpair eq_refl) as (c0 & c1 & Hcs & _).
    rewrite Hcs. cbn [BasicStrategy.first_card Hand.cards Hand._cards
                       Hand.of_cards map rbind getattr].
    destruct (BasicStrategy.pair_rule _ _) as [a|] eqn:Er.
    + apply pair_rule_split in Er. subst a. eexists. split; [reflexivity|].
      unfold playing_actions. simpl. auto.
    + cbn [rbind]. split_ifs; eexists; (split; [reflexivity|]);
        apply table_plays; auto using soft_rule_plays, hard_rule_plays.
  - cbn [rbind]. split_ifs; eexists; (split; [reflexivity|]);
      apply table_plays; auto using soft_rule_plays, hard_rule_plays.
Qed.

Lemma conservative_decide_total :
  exists a,
    ConservativeStrategy.decide hand (Some dealer_card) can_double can_split
                                can_surrender = Ok a /\
    In a playing_actions.
Proof.
  unfold ConservativeStrategy.decide, hand. rewrite value_of_cards.
  cbn [rbind].
  destruct (is_pair_of_cards cs sp db su) as (b & -> & Hpair). cbn [rbind].
  destruct (b && can_split) eqn:E.
  - apply andb_prop in E. destruct E as [-> _].
    destruct (Hpair eq_refl) as (c0 & c1 & Hcs & _).
    rewrite Hcs. cbn [BasicStrategy.first_card Hand.cards Hand._cards
                       Hand.of_cards map rbind getattr].
    split_ifs; eexists; (split; [reflexivity|]);
      unfold playing_actions; simpl; auto.
  - cbn [rbind]. split_ifs; eexists; (split; [reflexivity|]);
      unfold playing_actions; simpl; auto.
Qed.

Lemma aggressive_decide_total :
  exists a,
    AggressiveStrategy.decide hand (Some dealer_card) can_double can_split
                              can_surrender = Ok a /\
    In a playing_actions.
Proof.
  unfold AggressiveStrategy.decide, hand. rewrite value_of_cards.
  cbn [rbind getattr].
  destruct (is_pair_of_cards cs sp db su) as (b & -> & Hpair). cbn [rbind].
  destruct (b && can_split) eqn:E.
  - apply andb_prop in E. destruct E as [-> _].
    destruct (Hpair eq_refl) as (c0 & c1 & Hcs & _).
    rewrite Hcs. cbn [BasicStrategy.first_card Hand.cards Hand._cards
                       Hand.of_cards map rbind getattr].
    split_ifs; eexists; (split; [reflexivity|]);
      unfold playing_actions; simpl; auto.
  - cbn [rbind]. split_ifs; eexists; (split; [reflexivity|]);
      unfold playing_actions; simpl; auto.
Qed.
End Decide.

(** C3. For every hand of cards (the empty hand too), every dealer upcard and
    every setting of the three flags, [decide] of each of the five strategies
    returns, without raising, one of HIT, STAND, DOUBLE_DOWN, SPLIT and
    SURRENDER, and never INSURANCE. *)
Theorem decide_returns_playing_action :
  forall (s : Strategy) (cs : list Card.t) (sp db su : bool)
         (dealer_card : Card.t) (can_double can_split can_surrender : bool),
  exists a : Action,
    decide s (Hand.of_cards cs sp db su) (Some dealer_card)
           can_double can_split can_surrender = Ok a /\
    In a playing_actions /\
    a <> INSURANCE.
Proof.
  intros s cs sp db su dealer_card cd csp csu.
  assert (H : exists a,
             decide s (Hand.of_cards cs sp db su) (Some dealer_card) cd csp csu
             = Ok a /\ In a playing_actions).
  { destruct s; cbn [decide MartingaleStrategy.decide
                     CardCountingStrategy.decide].
    - apply basic_decide_total.
    - apply conservative_decide_total.
    - apply aggressive_decide_total.
    - apply basic_decide_total.
    - apply basic_decide_total. }
  destruct H as (a & Ha & Hin). exists a.
  auto using playing_not_insurance.
Qed.

Section Soft18.
Local Open Scope result_scope.

(** A pair that holds an Ace is a pair of Aces, which is worth 12. *)
Lemma soft_pair_value (c0 c1 : Card.t) :
  Card.rank c0 = Card.rank c1 ->
  existsb Card.is_ace [c0; c1] = true ->
  Hand.demote_loop (count_aces [c0; c1]) (naive_sum [c0; c1]) = 12.
Proof.
  destruct c0 as [r0 s0], c1 as [r1 s1]. simpl. intros <-.
  destruct r0; simpl; intros H; try discriminate. reflexivity.
Qed.

Lemma basic_decide_soft (h : Hand.t) (dealer_card : Card.t)
      (can_double can_split can_surrender : bool) (v : Z) :
  Hand.is_soft h = Ok true ->
  Hand.value h = Ok v ->
  v <> 12 ->
  BasicStrategy.decide h (Some dealer_card) can_double can_split can_surrender
  = Ok (BasicStrategy.soft_rule v (Card.value dealer_card) can_double).
Proof.
  intros Hsoft Hval Hv.
  destruct (value_returns_cards h v Hval) as [cs Hh].
  revert Hsoft Hval. rewrite Hh. clear Hh.
  set (sp := Hand._is_split h). set (db := Hand._is_doubled h).
  set (su := Hand._is_surrendered h).
  rewrite is_soft_of_cards, value_of_cards. intros Hsoft Hval.
  injection Hsoft as Hsoft. injection Hval as Hval.
  apply andb_prop in Hsoft. destruct Hsoft as [Hace Hsum].
  unfold BasicStrategy.decide.
  rewrite value_of_cards, is_soft_of_cards, Hace, Hsum, Hval.
  cbn [rbind getattr andb].
  destruct (is_pair_of_cards cs sp db su) as (b & -> & Hpair). cbn [rbind].
  destruct b.
  - destruct (Hpair eq_refl) as (c0 & c1 & Hcs & Hrank). subst cs.
    rewrite (soft_pair_value c0 c1 Hrank Hace) in Hval. congruence.
  - reflexivity.
Qed.
End Soft18.

(** The soft-18 row.  On a hand that [is_soft] takes for soft and that is
    worth 18, Basic strategy doubles down when doubling is allowed and the
    dealer's upcard is worth 3 to 6, stands against every other upcard worth
    at most 8, and hits against a 9, a ten-valued card or an Ace. *)
Theorem basic_soft_18 :
  forall (h : Hand.t) (dealer_card : Card.t)
         (can_double can_split can_surrender : bool),
    Hand.is_soft h = Ok true ->
    Hand.value h = Ok 18 ->
    let dealer_value := Card.value dealer_card in
    let action :=
      BasicStrategy.decide h (Some dealer_card) can_double can_split
                           can_surrender in
    (can_double = true -> 3 <= dealer_value <= 6 ->
     action = Ok DOUBLE_DOWN) /\
    (dealer_value <= 8 ->
     ~ (can_double = true /\ 3 <= dealer_value <= 6) ->
     action = Ok STAND) /\
    (Card.rank dealer_card = NINE \/ Card.is_ten_value dealer_card = true \/
     Card.is_ace dealer_card = true ->
     action = Ok HIT).
Proof.
  intros h dealer_card cd csp csu Hsoft Hval dealer_value action.
  subst action dealer_value.
  rewrite (basic_decide_soft h dealer_card cd csp csu 18 Hsoft Hval)
    by discriminate.
  unfold Card.is_ten_value, Card.is_ace, Card.value.
  destruct dealer_card as [r s]. cbn [Card.rank].
  destruct r, cd; cbn; repeat split; intros;
    try reflexivity; try lia; try discriminate; try tauto;
    repeat match goal with
           | H : _ \/ _ |- _ => destruct H
           end; try discriminate; try lia.
Qed.

Lemma basic_soft_18_witness :
  let h := Hand.of_cards [Card.mk ACE SPADES; Card.mk SEVEN HEARTS]
                         false false false in
  (BasicStrategy.decide h (Some (Card.mk FOUR CLUBS)) true true true
   = Ok DOUBLE_DOWN) /\
  (BasicStrategy.decide h (Some (Card.mk EIGHT CLUBS)) true true true
   = Ok STAND) /\
  (BasicStrategy.decide h (Some (Card.mk KING CLUBS)) true true true
   = Ok HIT).
Proof.
  intros h.
  assert (Hsoft : Hand.is_soft h = Ok true) by reflexivity.
  assert (Hval : Hand.value h = Ok 18) by reflexivity.
  split; [|split].
  - apply (basic_soft_18 h (Card.mk FOUR CLUBS) true true true Hsoft Hval);
      [reflexivity | cbn; lia].
  - apply (basic_soft_18 h (Card.mk EIGHT CLUBS) true true true Hsoft Hval);
      [cbn; lia | cbn; lia].
  - apply (basic_soft_18 h (Card.mk KING CLUBS) true true true Hsoft Hval).
    right; left; reflexivity.
Defined.

(** ** The shoe *)

Section Shoe.
Lemma pop_nil {A : Type} : pop (@nil A) = None.
Proof. reflexivity. Qed.

Lemma pop_snoc {A : Type} (l : list A) (x : A) : pop (l ++ [x]) = Some (l, x).
Proof. unfold pop. rewrite rev_unit, rev_involutive. reflexivity. Qed.

Lemma pop_some {A : Type} (l rest : list A) (x : A) :
  pop l = Some (rest, x) -> l = rest ++ [x].
Proof.
  unfold pop. destruct (rev l) as [|y r] eqn:E; [discriminate|].
  intros H. injection H as <- <-.
  rewrite <- (rev_involutive l), E. reflexivity.
Qed.

Lemma pop_none {A : Type} (l : list A) : pop l = None -> l = [].
Proof.
  unfold pop. destruct (rev l) as [|y r] eqn:E; [|discriminate].
  intros _. rewrite <- (rev_involutive l), E. reflexivity.
Qed.

Lemma fill_length (n : nat) : length (Deck.fill n) = (n * 52)%nat.
Proof.
  induction n as [|n IH]; [reflexivity|].
  cbn [Deck.fill]. rewrite length_app, IH. reflexivity.
Qed.

Lemma reset_inv (d : Deck.t) : 0 <= Deck.num_decks d -> deck_inv (Deck.reset d).
Proof.
  unfold deck_inv, Deck.remaining, Deck.dealt_count, Deck.total_cards,
    Deck.reset. cbn [Deck._cards Deck._dealt_cards Deck.num_decks length].
  rewrite fill_length. lia.
Qed.

Lemma shuffle_inv (rng : list Card.t -> list Card.t) (d : Deck.t) :
  (forall l, Permutation (rng l) l) ->
  deck_inv d -> deck_inv (Deck.shuffle rng d).
Proof.
  unfold deck_inv, Deck.remaining, Deck.dealt_count, Deck.total_cards,
    Deck.shuffle. cbn [Deck._cards Deck._dealt_cards Deck.num_decks].
  intros Hperm. now rewrite (Permutation_length (Hperm _)).
Qed.

(** The two cases of [deal]. *)
Lemma deal_cases (d : Deck.t) :
  (Deck._cards d = [] /\ Deck.deal d = (None, d)) \/
  (exists rest card,
      Deck._cards d = rest ++ [card] /\
      Deck.deal d
      = (Some card,
         Deck.mk (Deck.num_decks d) rest (Deck._dealt_cards d ++ [card]))).
Proof.
  unfold Deck.deal. destruct (pop (Deck._cards d)) as [[rest card]|] eqn:E.
  - right. exists rest, card. split; [now apply pop_some | reflexivity].
  - left. split; [now apply pop_none | reflexivity].
Qed.

Lemma deal_inv (d : Deck.t) : deck_inv d -> deck_inv (snd (Deck.deal d)).
Proof.
  unfold deck_inv, Deck.remaining, Deck.dealt_count, Deck.total_cards.
  destruct (deal_cases d) as [[_ ->]|(rest & card & Hc & ->)]; [easy|].
  cbn [snd Deck._cards Deck._dealt_cards Deck.num_decks].
  rewrite Hc, !length_app. cbn [length]. lia.
Qed.

Lemma deals_inv (k : nat) : forall d, deck_inv d -> deck_inv (Deck.deals k d).
Proof.
  induction k as [|k IH]; intros d Hd; [exact Hd|].
  cbn [Deck.deals]. apply IH, deal_inv, Hd.
Qed.

Lemma init_inv (rng : list Card.t -> list Card.t) (n : Z) (b : bool) :
  (forall l, Permutation (rng l) l) ->
  1 <= n ->
  exists d, Deck.init rng n b = Ok d /\ Deck.num_decks d = n /\ deck_inv d.
Proof.
  intros Hperm Hn. unfold Deck.init.
  destruct (Z.ltb_spec n 1) as [?|_]; [lia|].
  eexists. split; [reflexivity|].
  assert (Hr : deck_inv (Deck.reset (Deck.mk n [] []))).
  { apply reset_inv. cbn. lia. }
  destruct b; split; try reflexivity; auto using shuffle_inv.
Qed.
End Shoe.

(** C6. A shoe built from [num_decks >= 1] decks keeps
    [remaining + dealt_count = total_cards] after every [deal()] of any
    sequence of deals; a [deal()] that returns a card takes exactly that card
    off the end of the remaining cards and appends it to the dealt cards; and
    [deal()] on a shoe with no card left returns [None] and changes
    nothing. *)
Theorem deck_deal_invariant :
  forall (rng : list Card.t -> list Card.t) (n : Z) (shuffle_on_init : bool),
    (forall l, Permutation (rng l) l) ->
    1 <= n ->
    exists d0 : Deck.t,
      Deck.init rng n shuffle_on_init = Ok d0 /\
      forall k : nat,
        let d := Deck.deals k d0 in
        Deck.remaining d + Deck.dealt_count d = Deck.total_cards d /\
        (forall card d',
            Deck.deal d = (Some card, d') ->
            Deck._cards d = Deck._cards d' ++ [card] /\
            Deck._dealt_cards d' = Deck._dealt_cards d ++ [card] /\
            Deck.remaining d' = Deck.remaining d - 1 /\
            Deck.dealt_count d' = Deck.dealt_count d + 1 /\
            Deck.total_cards d' = Deck.total_cards d) /\
        (Deck.remaining d = 0 -> Deck.deal d = (None, d)).
Proof.
  intros rng n b Hperm Hn.
  destruct (init_inv rng n b Hperm Hn) as (d0 & Hinit & _ & Hinv).
  exists d0. split; [exact Hinit|].
  intros k d. split; [|split].
  - apply (deals_inv k d0 Hinv).
  - intros card d' Hdeal.
    destruct (deal_cases d) as [[_ Hnone]|(rest & c & Hc & Hsome)].
    + rewrite Hnone in Hdeal. discriminate.
    + rewrite Hsome in Hdeal. injection Hdeal as <- <-.
      unfold Deck.remaining, Deck.dealt_count, Deck.total_cards.
      cbn [Deck._cards Deck._dealt_cards Deck.num_decks].
      rewrite Hc, !length_app. cbn [length]. repeat split; lia.
  - unfold Deck.remaining. intros Hzero.
    destruct (deal_cases d) as [[_ Hnone]|(rest & c & Hc & _)]; [exact Hnone|].
    rewrite Hc, length_app in Hzero. cbn [length] in Hzero. lia.
Qed.

Lemma deck_deal_invariant_witness :
  exists d0 : Deck.t,
    Deck.init (@rev Card.t) 2 true = Ok d0 /\
    Deck.remaining (Deck.deals 104 d0) = 0 /\
    Deck.dealt_count (Deck.deals 104 d0) = 104 /\
    Deck.deal (Deck.deals 104 d0) = (None, Deck.deals 104 d0).
Proof.
  destruct (deck_deal_invariant (@rev Card.t) 2 true) as (d0 & Hinit & H).
  - intros l. apply Permutation_sym, Permutation_rev.
  - lia.
  - exists d0. split; [exact Hinit|].
    destruct (H 104%nat) as (_ & _ & Hempty).
    assert (Hrem : Deck.remaining (Deck.deals 104 d0) = 0).
    { vm_compute in Hinit. injection Hinit as <-. vm_compute. reflexivity. }
    split; [exact Hrem|]. split; [|apply Hempty, Hrem].
    vm_compute in Hinit. injection Hinit as <-. vm_compute. reflexivity.
Defined.

(** ** Bets that exceed the bankroll *)

Lemma place_bet_refused (p : Player.t) (amount : Z) :
  Player.bankroll p < amount -> Player.place_bet p amount = (false, p).
Proof.
  intros H. unfold Player.place_bet.
  destruct (Z.ltb_spec (Player.bankroll p) amount); [reflexivity | lia].
Qed.

Lemma start_round_refused (g : Game.t) :
  Player.bankroll (Game.player g) < Game.bet g ->
  Game.start_round g = (Return false, g).
Proof.
  intros H. unfold Game.start_round, Game.bind, Game.get. cbv beta iota.
  destruct (Z.ltb_spec (Player.bankroll (Game.player g)) (Game.bet g));
    [reflexivity | lia].
Qed.

(** C7. A bet strictly greater than the bankroll makes [place_bet] return
    [False] and leave the player as it was, bankroll and current bet
    included; and with the bankroll below the bet [start_round] returns
    [False] and leaves the whole game as it was: no bet deducted, no card
    dealt, no hand cleared. *)
Theorem insufficient_funds_change_nothing :
  (forall (p : Player.t) (amount : Z),
      Player.bankroll p < amount ->
      Player.place_bet p amount = (false, p)) /\
  (forall g : Game.t,
      Player.bankroll (Game.player g) < Game.bet g ->
      Game.start_round g = (Return false, g)).
Proof.
  split; [exact place_bet_refused | exact start_round_refused].
Qed.

(** ** Hi-Lo counting *)

Section HiLo.
Import CardCountingStrategy.

Lemma update_count_card (self : t) (c : Card.t) :
  update_count self (Some c)
  = (Ok tt,
     mk (_running_count self + hi_lo (Card.rank c)) (_cards_seen self + 1)).
Proof.
  destruct self as [rc seen], c as [r s].
  destruct r; cbn; repeat f_equal; lia.
Qed.

Lemma hi_lo_sum_cons (r : Rank) (rs : list Rank) :
  hi_lo_sum (r :: rs) = hi_lo r + hi_lo_sum rs.
Proof. reflexivity. Qed.

Lemma observe_running_count (cs : list Card.t) :
  forall self,
    _running_count (observe self cs)
    = _running_count self + hi_lo_sum (map Card.rank cs).
Proof.
  unfold observe.
  induction cs as [|c cs IH]; intros self; cbn [fold_left map].
  - cbn. lia.
  - rewrite IH, update_count_card, hi_lo_sum_cons. cbn [snd _running_count].
    lia.
Qed.

Lemma hi_lo_sum_perm (l l' : list Rank) :
  Permutation l l' -> hi_lo_sum l = hi_lo_sum l'.
Proof.
  induction 1 as [|x l l' _ IH|x y l|l l' l'' _ IH1 _ IH2];
    rewrite ?hi_lo_sum_cons; lia.
Qed.
End HiLo.

(** C8. [update_count] adds +1 to the running count for a card of rank 2 to
    6, nothing for 7 to 9 and -1 for a ten-valued card or an Ace; so a
    strategy that is fresh or was just reset has running count 0 again after
    seeing one card of each of the 13 ranks, in whatever order and suits. *)
Theorem hi_lo_count_balanced :
  forall cs : list Card.t,
    Permutation (map Card.rank cs) all_ranks ->
    (forall (self : CardCountingStrategy.t) (c : Card.t),
        CardCountingStrategy.update_count self (Some c)
        = (Ok tt,
           CardCountingStrategy.mk
             (CardCountingStrategy._running_count self + hi_lo (Card.rank c))
             (CardCountingStrategy._cards_seen self + 1))) /\
    CardCountingStrategy.get_running_count
      (CardCountingStrategy.observe CardCountingStrategy.init cs) = 0 /\
    (forall self : CardCountingStrategy.t,
        CardCountingStrategy.get_running_count
          (CardCountingStrategy.observe (CardCountingStrategy.reset self) cs)
        = 0).
Proof.
  intros cs Hperm. split; [exact update_count_card|].
  unfold CardCountingStrategy.get_running_count.
  split; [|intros self]; rewrite observe_running_count,
    (hi_lo_sum_perm _ _ Hperm); reflexivity.
Qed.

(** ** The round controller *)

Ltac run_controller :=
  unfold Game.player_hit, Game.dealer_hit;
  unfold Game.player_place_bet, Game.player_win, Game.deck_deal,
    Game.player_add_card, Game.dealer_add_card, Game.call_bool;
  unfold Game.bind, Game.get, Game.ret, Game.read, Game.modify, Game.raise;
  cbv beta iota.

Ltac simp_game :=
  cbn [negb fst snd outcome_of
       Game.set_player Game.set_deck Game.set_dealer Game.set_round_active
       Game.player Game.deck Game.dealer Game.bet Game.num_decks
       Game.round_active Game.insurance_offered
       Player.bankroll Player.initial_bankroll Player.strategy Player.hand
       Player.hands_rest Player.current_bet
       Player.add_card Player.clear_hands Player.win
       Dealer.hand Dealer.add_card Dealer.clear_hand
       Hand.add_card Hand.empty Hand._cards Hand._is_split Hand._is_doubled
       Hand._is_surrendered app].

Section StartRound.
Lemma deal_snoc (n : Z) (l : list Card.t) (c : Card.t) (dealt : list Card.t) :
  Deck.deal (Deck.mk n (l ++ [c]) dealt)
  = (Some c, Deck.mk n l (dealt ++ [c])).
Proof. unfold Deck.deal. cbn [Deck._cards]. now rewrite pop_snoc. Qed.

Lemma is_blackjack_cards (cs : list Card.t) (sp db su : bool) :
  Hand.is_blackjack (Hand.of_cards cs sp db su)
  = Ok ((length cs =? 2)%nat && existsb Card.is_ace cs
        && existsb Card.is_ten_value cs).
Proof.
  unfold Hand.is_blackjack, Hand.of_cards. cbn [Hand._cards].
  rewrite !any_cards, length_map.
  destruct (length cs =? 2)%nat; reflexivity.
Qed.

(** Once the bet is placed, [start_round] deals and then calls the value
    of the [is_blackjack] property of the dealer's hand: it cannot return. *)
Lemma start_round_raises (g : Game.t) :
  Game.bet g <= Player.bankroll (Game.player g) ->
  exists e g',
    Game.start_round g = (Raise e, g') /\
    Player.bankroll (Game.player g')
    = Player.bankroll (Game.player g) - Game.bet g /\
    length (Hand._cards (Player.hand (Game.player g'))) = 2%nat /\
    length (Hand._cards (Dealer.hand (Game.dealer g'))) = 2%nat /\
    Game.round_active g' = true.
Proof.
  intros Hbet. destruct g as [p dl dk b nd ra io].
  cbn [Game.player Game.bet] in *.
  assert (Hlt : (Player.bankroll p <? b) = false) by (apply Z.ltb_ge; lia).
  unfold Game.start_round. run_controller. unfold Player.place_bet.
  simp_game. rewrite Hlt. simp_game. rewrite Hlt. simp_game.
  destruct (Deck.deal dk) as [o1 d1]. simp_game.
  destruct (Deck.deal d1) as [o2 d2]. simp_game.
  destruct (Deck.deal d2) as [o3 d3]. simp_game.
  destruct (Deck.deal d3) as [o4 d4]. simp_game.
  destruct (Hand.is_blackjack _) as [bj|e]; simp_game;
    do 2 eexists; (split; [reflexivity|]); simp_game; auto.
Qed.

Lemma play_auto_of_raise (g g' : Game.t) (e : exn) :
  Game.start_round g = (Raise e, g') -> Game.play_auto g = (Raise e, g').
Proof.
  intros H. unfold Game.play_auto, Game.bind. now rewrite H.
Qed.

Lemma play_auto_refused (g : Game.t) :
  Player.bankroll (Game.player g) < Game.bet g ->
  Game.play_auto g = (Return loss, g).
Proof.
  intros H. unfold Game.play_auto, Game.bind.
  now rewrite (start_round_refused g H).
Qed.
End StartRound.

(** C1 (the code departs from the claim).  For every game whose bankroll
    covers the bet and whose shoe holds at least four cards, [start_round]
    deducts the bet, deals the four cards and then raises [TypeError]: it
    pays nothing and does not return, whatever the cards, a natural
    blackjack of the player included. *)
Theorem start_round_raises_type_error :
  forall (g : Game.t) (rest : list Card.t) (c4 c3 c2 c1 : Card.t),
    Game.bet g <= Player.bankroll (Game.player g) ->
    Deck._cards (Game.deck g) = rest ++ [c4; c3; c2; c1] ->
    exists g' : Game.t,
      Game.start_round g = (Raise TypeError, g') /\
      Player.bankroll (Game.player g')
      = Player.bankroll (Game.player g) - Game.bet g /\
      Hand._cards (Player.hand (Game.player g')) = [Some c1; Some c3] /\
      Hand._cards (Dealer.hand (Game.dealer g')) = [Some c2; Some c4] /\
      Game.round_active g' = true.
Proof.
  intros g rest c4 c3 c2 c1 Hbet Hdeck.
  destruct g as [p dl [n cards dealt] b nd ra io].
  cbn [Game.player Game.bet Game.deck Deck._cards] in *. subst cards.
  replace (rest ++ [c4; c3; c2; c1])
    with ((((rest ++ [c4]) ++ [c3]) ++ [c2]) ++ [c1])
    by (rewrite <- !app_assoc; reflexivity).
  assert (Hlt : (Player.bankroll p <? b) = false) by (apply Z.ltb_ge; lia).
  unfold Game.start_round. run_controller. unfold Player.place_bet.
  simp_game. rewrite Hlt. simp_game. rewrite Hlt. simp_game.
  do 4 (rewrite deal_snoc; simp_game).
  change (Hand.add_card (Hand.add_card Hand.empty (Some c2)) (Some c4))
    with (Hand.of_cards [c2; c4] false false false).
  rewrite is_blackjack_cards. simp_game.
  eexists. split; [reflexivity|]. simp_game. auto.
Qed.

Lemma start_round_raises_type_error_witness :
  exists g' : Game.t,
    Game.start_round
      (Game.mk (Player.init 1000 Basic) Dealer.init
               (Deck.mk 1 [Card.mk FIVE CLUBS; Card.mk TWO CLUBS;
                           Card.mk KING HEARTS; Card.mk NINE DIAMONDS;
                           Card.mk ACE SPADES] [])
               10 1 false false)
    = (Raise TypeError, g') /\
    Player.bankroll (Game.player g') = 1000 - 10 /\
    Hand._cards (Player.hand (Game.player g'))
    = [Some (Card.mk ACE SPADES); Some (Card.mk KING HEARTS)] /\
    Hand._cards (Dealer.hand (Game.dealer g'))
    = [Some (Card.mk NINE DIAMONDS); Some (Card.mk TWO CLUBS)] /\
    Game.round_active g' = true.
Proof.
  apply (start_round_raises_type_error
           (Game.mk (Player.init 1000 Basic) Dealer.init
                    (Deck.mk 1 [Card.mk FIVE CLUBS; Card.mk TWO CLUBS;
                                Card.mk KING HEARTS; Card.mk NINE DIAMONDS;
                                Card.mk ACE SPADES] [])
                    10 1 false false)
           [Card.mk FIVE CLUBS]).
  - cbn. lia.
  - reflexivity.
Defined.

(** C9 (the code departs from the claim).  Whenever the bankroll covers the
    bet, [start_round] raises after the deal, and so does [play_auto], with
    the bet deducted and nothing paid: no round that was dealt is reported
    as "loss" by way of [start_round] returning [False]. *)
Theorem play_auto_raises_after_deal :
  forall g : Game.t,
    Game.bet g <= Player.bankroll (Game.player g) ->
    exists (e : exn) (g' : Game.t),
      Game.start_round g = (Raise e, g') /\
      Game.play_auto g = (Raise e, g') /\
      Player.bankroll (Game.player g')
      = Player.bankroll (Game.player g) - Game.bet g.
Proof.
  intros g Hbet.
  destruct (start_round_raises g Hbet) as (e & g' & Hstart & Hbank & _).
  exists e, g'. auto using play_auto_of_raise.
Qed.

Lemma play_auto_raises_after_deal_witness :
  exists (e : exn) (g' : Game.t),
    Game.play_auto
      (Game.mk (Player.init 1000 Basic) Dealer.init
               (Deck.mk 1 [Card.mk TWO CLUBS; Card.mk KING HEARTS;
                           Card.mk NINE DIAMONDS; Card.mk ACE SPADES] [])
               10 1 false false)
    = (Raise e, g') /\
    Player.bankroll (Game.player g') = 1000 - 10.
Proof.
  destruct (play_auto_raises_after_deal
              (Game.mk (Player.init 1000 Basic) Dealer.init
                       (Deck.mk 1 [Card.mk TWO CLUBS; Card.mk KING HEARTS;
                                   Card.mk NINE DIAMONDS; Card.mk ACE SPADES] [])
                       10 1 false false))
    as (e & g' & _ & Hplay & Hbank).
  - cbn. lia.
  - exists e, g'. split; [exact Hplay | exact Hbank].
Defined.

(** ** The dealer's turn *)

Section DealerTurn.
Lemma sum_loop_none (l : list (option Card.t)) :
  forall v n, In None l -> Hand.sum_loop l v n = Err AttributeError.
Proof.
  induction l as [|o l IH]; intros v n Hin; [destruct Hin|].
  destruct o as [c|]; [|reflexivity].
  destruct Hin as [Hin|Hin]; [discriminate|].
  cbn. apply IH, Hin.
Qed.

Lemma value_none (h : Hand.t) :
  In None (Hand._cards h) -> Hand.value h = Err AttributeError.
Proof.
  intros Hin. unfold Hand.value. now rewrite sum_loop_none.
Qed.

Lemma should_hit_value (d : Dealer.t) (v : Z) :
  Hand.value (Dealer.hand d) = Ok v -> Dealer.should_hit d = Ok (v <? 17).
Proof. intros H. unfold Dealer.should_hit. now rewrite H. Qed.

Lemma should_hit_false (d : Dealer.t) :
  Dealer.should_hit d = Ok false ->
  exists v, Hand.value (Dealer.hand d) = Ok v /\ 17 <= v.
Proof.
  unfold Dealer.should_hit.
  destruct (Hand.value (Dealer.hand d)) as [v|e]; cbn; [|discriminate].
  intros H. injection H as H. exists v. split; [reflexivity|].
  now apply Z.ltb_ge.
Qed.

(** What one [self.dealer.add_card(self.deck.deal())] does. *)
Lemma dealer_hit_run (g : Game.t) :
  Game.dealer_hit g = (Return tt, snd (Game.dealer_hit g)) /\
  Game.player (snd (Game.dealer_hit g)) = Game.player g /\
  Game.bet (snd (Game.dealer_hit g)) = Game.bet g /\
  Game.deck (snd (Game.dealer_hit g)) = snd (Deck.deal (Game.deck g)) /\
  Hand._cards (Dealer.hand (Game.dealer (snd (Game.dealer_hit g))))
  = Hand._cards (Dealer.hand (Game.dealer g))
    ++ [fst (Deck.deal (Game.deck g))].
Proof.
  run_controller. destruct (Deck.deal (Game.deck g)) as [o d].
  simp_game. auto.
Qed.

Lemma dealer_turn_S (n : nat) (g : Game.t) :
  Game.dealer_turn (S n) g
  = match Dealer.should_hit (Game.dealer g) with
    | Ok true => Game.dealer_turn n (snd (Game.dealer_hit g))
    | Ok false => (Return tt, g)
    | Err e => (Raise e, g)
    end.
Proof.
  cbn [Game.dealer_turn]. unfold Game.bind at 1. unfold Game.read.
  destruct (Dealer.should_hit (Game.dealer g)) as [[|]|e];
    cbn [outcome_of]; try reflexivity.
  unfold Game.bind. destruct (dealer_hit_run g) as [-> _]. reflexivity.
Qed.

(** The dealer's turn touches neither the player nor the bet, and only
    appends to the dealer's hand. *)
Lemma dealer_turn_frame (n : nat) :
  forall g o g',
    Game.dealer_turn n g = (o, g') ->
    Game.player g' = Game.player g /\
    Game.bet g' = Game.bet g /\
    exists more,
      Hand._cards (Dealer.hand (Game.dealer g'))
      = Hand._cards (Dealer.hand (Game.dealer g)) ++ more.
Proof.
  induction n as [|n IH]; intros g o g' H.
  - cbn in H. injection H as <- <-. repeat split. exists []. now rewrite app_nil_r.
  - rewrite dealer_turn_S in H.
    destruct (Dealer.should_hit (Game.dealer g)) as [[|]|e].
    + destruct (IH _ _ _ H) as (Hp & Hb & more & Hc).
      destruct (dealer_hit_run g) as (_ & Hp' & Hb' & _ & Hc').
      repeat split; try congruence.
      exists (fst (Deck.deal (Game.deck g)) :: more).
      rewrite Hc, Hc', <- app_assoc. reflexivity.
    + injection H as <- <-. repeat split. exists []. now rewrite app_nil_r.
    + injection H as <- <-. repeat split. exists []. now rewrite app_nil_r.
Qed.

(** A turn that ends without an exception ends on 17 or more. *)
Lemma dealer_turn_stands (n : nat) :
  forall g g',
    Game.dealer_turn n g = (Return tt, g') ->
    Dealer.should_hit (Game.dealer g') = Ok false.
Proof.
  induction n as [|n IH]; intros g g' H; [discriminate|].
  rewrite dealer_turn_S in H.
  destruct (Dealer.should_hit (Game.dealer g)) as [[|]|e] eqn:E.
  - eapply IH, H.
  - injection H as <-. exact E.
  - discriminate.
Qed.

(** The bound is enough: with two more tests than the shoe has cards the
    loop has ended, by standing or by an exception. *)
Lemma dealer_turn_total (n : nat) :
  forall g,
    (length (Deck._cards (Game.deck g)) + 2 <= n)%nat ->
    fst (Game.dealer_turn n g) <> OutOfFuel.
Proof.
  induction n as [|n IH]; intros g Hn; [lia|].
  rewrite dealer_turn_S.
  destruct (Dealer.should_hit (Game.dealer g)) as [[|]|e];
    try (cbn; discriminate).
  destruct (dealer_hit_run g) as (_ & _ & _ & Hdeck & Hcards).
  destruct (deal_cases (Game.deck g)) as [[Hnil Hdeal]|(rest & c & Hc & Hdeal)].
  - destruct n as [|n]; [lia|]. rewrite dealer_turn_S.
    unfold Dealer.should_hit. rewrite value_none; [cbn; discriminate|].
    rewrite Hcards, Hdeal. apply in_or_app. right. now left.
  - apply IH. rewrite Hdeck, Hdeal. cbn [snd Deck._cards].
    rewrite Hc, length_app in Hn. cbn [length] in Hn. lia.
Qed.
End DealerTurn.

(** C4 (as stated, refuted).  The claim has the dealer hit soft 17: the
    dealer holding Ace and Six has a soft hand worth 17 and [should_hit] is
    [False]. *)
Lemma dealer_stands_on_soft_17 :
  Hand.is_soft (Hand.of_cards [Card.mk ACE SPADES; Card.mk SIX HEARTS]
                              false false false) = Ok true /\
  Hand.value (Hand.of_cards [Card.mk ACE SPADES; Card.mk SIX HEARTS]
                            false false false) = Ok 17 /\
  Dealer.should_hit
    (Dealer.mk (Hand.of_cards [Card.mk ACE SPADES; Card.mk SIX HEARTS]
                              false false false)) = Ok false /\
  ~ (forall d : Dealer.t,
        Hand.is_soft (Dealer.hand d) = Ok true ->
        Hand.value (Dealer.hand d) = Ok 17 ->
        Dealer.should_hit d = Ok true).
Proof.
  repeat split; try reflexivity.
  intros H.
  specialize (H (Dealer.mk (Hand.of_cards [Card.mk ACE SPADES;
                                           Card.mk SIX HEARTS]
                                          false false false))
                eq_refl eq_refl).
  discriminate H.
Qed.

(** C4 (amended).  The dealer draws exactly while the hand is worth less than
    17 and stands on every 17 or more, soft 17 included: [should_hit] is the
    test [value < 17]; at 17 or more the turn ends at once and draws nothing;
    below 17 (at 16, say) the turn starts by appending what [deal()] gives,
    the top card of a shoe that is not empty, so the dealer's hand has grown
    by at least that draw whatever happens next; a turn that ends without an
    exception ends on 17 or more; and the turn does end. *)
Theorem dealer_draws_only_below_17 :
  (forall (d : Dealer.t) (v : Z),
      Hand.value (Dealer.hand d) = Ok v ->
      Dealer.should_hit d = Ok (v <? 17)) /\
  (forall (g : Game.t) (v : Z) (n : nat),
      Hand.value (Dealer.hand (Game.dealer g)) = Ok v ->
      17 <= v ->
      Game.dealer_turn (S n) g = (Return tt, g)) /\
  (forall (g : Game.t) (v : Z) (n : nat),
      Hand.value (Dealer.hand (Game.dealer g)) = Ok v ->
      v < 17 ->
      Game.dealer_turn (S n) g = Game.dealer_turn n (snd (Game.dealer_hit g)) /\
      (forall rest c,
          Deck._cards (Game.deck g) = rest ++ [c] ->
          fst (Deck.deal (Game.deck g)) = Some c) /\
      (forall o g',
          Game.dealer_turn (S n) g = (o, g') ->
          exists more,
            Hand._cards (Dealer.hand (Game.dealer g'))
            = Hand._cards (Dealer.hand (Game.dealer g))
              ++ fst (Deck.deal (Game.deck g)) :: more)) /\
  (forall (g g' : Game.t) (n : nat),
      Game.dealer_turn n g = (Return tt, g') ->
      exists v, Hand.value (Dealer.hand (Game.dealer g')) = Ok v /\ 17 <= v) /\
  (forall g : Game.t,
      fst (Game.dealer_turn (Game.loop_bound g) g) <> OutOfFuel).
Proof.
  split; [exact should_hit_value|].
  split; [|split; [|split]].
  - intros g v n Hv Hge. rewrite dealer_turn_S, (should_hit_value _ _ Hv).
    destruct (Z.ltb_spec v 17); [lia | reflexivity].
  - intros g v n Hv Hlt.
    assert (Hstep : Game.dealer_turn (S n) g
                    = Game.dealer_turn n (snd (Game.dealer_hit g))).
    { rewrite dealer_turn_S, (should_hit_value _ _ Hv).
      destruct (Z.ltb_spec v 17); [reflexivity | lia]. }
    split; [exact Hstep|]. split.
    + intros rest c Hc. destruct (Game.deck g) as [nd cards dealt].
      cbn [Deck._cards] in Hc. subst cards. now rewrite deal_snoc.
    + intros o g' Hrun. rewrite Hstep in Hrun.
      destruct (dealer_turn_frame _ _ _ _ Hrun) as (_ & _ & more & Hc).
      destruct (dealer_hit_run g) as (_ & _ & _ & _ & Hc').
      exists more. rewrite Hc, Hc', <- app_assoc. reflexivity.
  - intros g g' n Hrun.
    apply should_hit_false. eapply dealer_turn_stands, Hrun.
  - intros g. apply dealer_turn_total. unfold Game.loop_bound. lia.
Qed.

(** ** Doubling down *)

Section DoubleDown.
(** What one [self.player.add_card(self.deck.deal())] does. *)
Lemma player_hit_run (g : Game.t) :
  Game.player_hit g = (Return tt, snd (Game.player_hit g)) /\
  Game.dealer (snd (Game.player_hit g)) = Game.dealer g /\
  Game.bet (snd (Game.player_hit g)) = Game.bet g /\
  Game.deck (snd (Game.player_hit g)) = snd (Deck.deal (Game.deck g)) /\
  Player.bankroll (Game.player (snd (Game.player_hit g)))
  = Player.bankroll (Game.player g) /\
  Player.current_bet (Game.player (snd (Game.player_hit g)))
  = Player.current_bet (Game.player g) /\
  Hand._cards (Player.hand (Game.player (snd (Game.player_hit g))))
  = Hand._cards (Player.hand (Game.player g))
    ++ [fst (Deck.deal (Game.deck g))].
Proof.
  run_controller. destruct (Deck.deal (Game.deck g)) as [o d].
  simp_game. repeat split.
Qed.

Lemma player_turn_double (n : nat) (g : Game.t) (v : Z) :
  Hand.value (Player.hand (Game.player g)) = Ok v ->
  v < 21 ->
  fst (Game.ask_strategy g) = Return DOUBLE_DOWN ->
  Game.player_turn (S n) g = (Return tt, doubled g).
Proof.
  intros Hv Hlt Hask. cbn [Game.player_turn].
  unfold Game.bind at 1. unfold Game.read at 1. rewrite Hv.
  cbn [outcome_of]. destruct (Z.ltb_spec v 21) as [_|?]; [|lia].
  unfold Game.bind at 1.
  assert (Hstate : Game.ask_strategy g = (fst (Game.ask_strategy g), g))
    by reflexivity.
  rewrite Hstate, Hask. unfold doubled.
  unfold Game.bind at 1. unfold Game.get at 1. cbv beta iota.
  unfold Game.bind at 1. unfold Game.player_place_bet at 1.
  destruct (Player.place_bet (Game.player g) (Game.bet g)) as [ok p1].
  cbn [snd]. unfold Game.bind at 1.
  destruct (player_hit_run (Game.set_player g p1)) as [-> _].
  reflexivity.
Qed.

Lemma determine_winner_run (g : Game.t) (pv dv : Z) :
  Hand.value (Player.hand (Game.player g)) = Ok pv ->
  Hand.value (Dealer.hand (Game.dealer g)) = Ok dv ->
  Game._determine_winner g
  = if 21 <? dv then
      (Return win,
       Game.set_player g (Player.win (Game.player g) (Game.bet g * 2)))
    else if dv <? pv then
      (Return win,
       Game.set_player g (Player.win (Game.player g) (Game.bet g * 2)))
    else if pv <? dv then (Return loss, g)
    else
      (Return push,
       Game.set_player g (Player.win (Game.player g) (Game.bet g))).
Proof.
  intros Hp Hd. unfold Game._determine_winner. run_controller.
  rewrite Hp, Hd. cbn [outcome_of]. split_ifs; reflexivity.
Qed.
End DoubleDown.

(** The DOUBLE_DOWN branch, from the player's loop on (the part of
    [play_auto] after [start_round]).  It calls [place_bet] with the
    base bet and drops the flag it returns, so one more base bet is deducted
    when the bankroll covers it and nothing is deducted when it does not;
    then it draws exactly once and leaves the loop.  Settlement pays from the
    base bet alone: a doubled hand that wins gets [bet * 2] and a doubled
    push gets [bet] back, whatever was staked.  With both stakes placed a win
    brings the bankroll back to what it was before the round (the bankroll
    at the loop is that less one bet) and a push leaves it one bet short. *)
Theorem double_down_settles_on_base_bet :
  forall (g : Game.t) (v : Z),
    Hand.value (Player.hand (Game.player g)) = Ok v ->
    v < 21 ->
    fst (Game.ask_strategy g) = Return DOUBLE_DOWN ->
    let stake :=
      if Player.bankroll (Game.player g) <? Game.bet g then 0 else Game.bet g in
    exists g1 : Game.t,
      (forall n, Game.player_turn (S n) g = (Return tt, g1)) /\
      Player.bankroll (Game.player g1)
      = Player.bankroll (Game.player g) - stake /\
      Player.current_bet (Game.player g1)
      = Player.current_bet (Game.player g) + stake /\
      Hand._cards (Player.hand (Game.player g1))
      = Hand._cards (Player.hand (Game.player g))
        ++ [fst (Deck.deal (Game.deck g))] /\
      Game.deck g1 = snd (Deck.deal (Game.deck g)) /\
      Game.bet g1 = Game.bet g /\
      forall (pv dv : Z) (g2 : Game.t),
        Hand.value (Player.hand (Game.player g1)) = Ok pv ->
        pv <= 21 ->
        Game.dealer_turn (Game.loop_bound g1) g1 = (Return tt, g2) ->
        Hand.value (Dealer.hand (Game.dealer g2)) = Ok dv ->
        exists (r : round_result) (g3 : Game.t),
          Game.play_round g = (Return r, g3) /\
          (21 < dv \/ dv < pv ->
           r = win /\
           Player.bankroll (Game.player g3)
           = Player.bankroll (Game.player g) - stake + Game.bet g * 2) /\
          (dv <= 21 -> pv = dv ->
           r = push /\
           Player.bankroll (Game.player g3)
           = Player.bankroll (Game.player g) - stake + Game.bet g) /\
          (dv <= 21 -> pv < dv ->
           r = loss /\
           Player.bankroll (Game.player g3)
           = Player.bankroll (Game.player g) - stake).
Proof.
  intros g v Hv Hlt Hask stake. exists (doubled g).
  assert (Hturn : forall n, Game.player_turn (S n) g = (Return tt, doubled g))
    by (intros n; now apply (player_turn_double n g v)).
  unfold doubled in *.
  set (p1 := snd (Player.place_bet (Game.player g) (Game.bet g))) in *.
  destruct (player_hit_run (Game.set_player g p1))
    as (_ & _ & Hbet & Hdeck & Hbank & Hcur & Hcards).
  set (g1 := snd (Game.player_hit (Game.set_player g p1))) in *.
  cbn [Game.set_player Game.bet Game.deck Game.player] in *.
  assert (Hp1 : Player.bankroll p1 = Player.bankroll (Game.player g) - stake /\
                Player.current_bet p1
                = Player.current_bet (Game.player g) + stake /\
                Player.hand p1 = Player.hand (Game.player g)).
  { subst p1 stake. unfold Player.place_bet.
    destruct (Player.bankroll (Game.player g) <? Game.bet g);
      cbn; repeat split; lia. }
  destruct Hp1 as (Hb1 & Hc1 & Hh1).
  split; [exact Hturn|].
  split; [congruence|]. split; [congruence|].
  split; [now rewrite Hcards, Hh1|].
  split; [exact Hdeck|]. split; [exact Hbet|].
  intros pv dv g2 Hpv Hle Hdealer Hdv.
  destruct (dealer_turn_frame _ _ _ _ Hdealer) as (Hpl & Hbt & _).
  assert (Hpv2 : Hand.value (Player.hand (Game.player g2)) = Ok pv)
    by now rewrite Hpl.
  assert (Hrun : Game.play_round g = Game._determine_winner g2).
  { unfold Game.play_round. unfold Game.bind at 1. unfold Game.get at 1.
    cbv beta iota. unfold Game.bind at 1. unfold Game.loop_bound at 1.
    rewrite Hturn. fold g1. unfold Game.bind at 1. unfold Game.read at 1.
    rewrite Hpv. cbn [outcome_of].
    destruct (Z.ltb_spec 21 pv) as [?|_]; [lia|].
    unfold Game.bind at 1. unfold Game.get at 1. cbv beta iota.
    unfold Game.bind at 1. rewrite Hdealer. reflexivity. }
  rewrite Hrun, (determine_winner_run g2 pv dv Hpv2 Hdv).
  destruct (Z.ltb_spec 21 dv); [|destruct (Z.ltb_spec dv pv);
                                  [|destruct (Z.ltb_spec pv dv)]];
    do 2 eexists; (split; [reflexivity|]);
    simp_game; rewrite ?Hpl, ?Hbt, ?Hbet, ?Hbank, ?Hb1;
    repeat split; intros; try lia; try reflexivity;
    try match goal with H : _ \/ _ |- _ => destruct H; lia end.
Qed.

Lemma double_down_settles_on_base_bet_witness :
  exists (r : round_result) (g3 : Game.t),
    Game.play_round
      (Game.mk (Player.mk 990 1000 Basic
                  (Hand.of_cards [Card.mk FIVE SPADES; Card.mk SIX HEARTS]
                                 false false false) [] 0)
               (Dealer.mk (Hand.of_cards [Card.mk TEN CLUBS; Card.mk SIX CLUBS]
                                         false false false))
               (Deck.mk 1 [Card.mk NINE DIAMONDS; Card.mk ACE SPADES] [])
               10 1 true false)
    = (Return r, g3) /\
    r = win /\
    Player.bankroll (Game.player g3) = 1000.
Proof.
  destruct (double_down_settles_on_base_bet
              (Game.mk (Player.mk 990 1000 Basic
                          (Hand.of_cards [Card.mk FIVE SPADES; Card.mk SIX HEARTS]
                                         false false false) [] 0)
                       (Dealer.mk (Hand.of_cards [Card.mk TEN CLUBS;
                                                  Card.mk SIX CLUBS]
                                                 false false false))
                       (Deck.mk 1 [Card.mk NINE DIAMONDS; Card.mk ACE SPADES] [])
                       10 1 true false)
              11)
    as (g1 & Hturn & _ & _ & _ & _ & _ & Hsettle).
  - reflexivity.
  - lia.
  - reflexivity.
  - specialize (Hturn 0%nat). vm_compute in Hturn. injection Hturn as <-.
    destruct (Hsettle 12 25
                (snd (Game.dealer_turn 3
                        (Game.mk (Player.mk 980 1000 Basic
                                    (Hand.of_cards [Card.mk FIVE SPADES;
                                                    Card.mk SIX HEARTS;
                                                    Card.mk ACE SPADES]
                                                   false false false) [] 10)
                                 (Dealer.mk (Hand.of_cards [Card.mk TEN CLUBS;
                                                            Card.mk SIX CLUBS]
                                                           false false false))
                                 (Deck.mk 1 [Card.mk NINE DIAMONDS]
                                          [Card.mk ACE SPADES])
                                 10 1 true false))))
      as (r & g3 & Hplay & Hwin & _ & _).
    + reflexivity.
    + lia.
    + reflexivity.
    + reflexivity.
    + exists r, g3. split; [exact Hplay|].
      destruct Hwin as [-> Hbank]; [left; lia|].
      split; [reflexivity|]. rewrite Hbank. reflexivity.
Defined.

Lemma insufficient_funds_change_nothing_witness :
  Player.place_bet (Player.init 5 Basic) 10 = (false, Player.init 5 Basic) /\
  Game.start_round
    (Game.mk (Player.init 5 Basic) Dealer.init
             (Deck.mk 1 [Card.mk TWO CLUBS; Card.mk KING HEARTS] [])
             10 1 false false)
  = (Return false,
     Game.mk (Player.init 5 Basic) Dealer.init
             (Deck.mk 1 [Card.mk TWO CLUBS; Card.mk KING HEARTS] [])
             10 1 false false).
Proof.
  split.
  - apply (proj1 insufficient_funds_change_nothing). cbn. lia.
  - apply (proj2 insufficient_funds_change_nothing). cbn. lia.
Defined.

Lemma hi_lo_count_balanced_witness :
  CardCountingStrategy.get_running_count
    (CardCountingStrategy.observe CardCountingStrategy.init
       (map (fun r => Card.mk r HEARTS) (rev all_ranks))) = 0.
Proof.
  apply (hi_lo_count_balanced
           (map (fun r => Card.mk r HEARTS) (rev all_ranks))).
  rewrite map_map. cbn [Card.rank]. rewrite map_id.
  apply Permutation_sym, Permutation_rev.
Defined.

(** ** The loops of [play_auto] end *)

Section Termination.
Lemma player_turn_total (n : nat) :
  forall g,
    (length (Deck._cards (Game.deck g)) + 2 <= n)%nat ->
    fst (Game.player_turn n g) <> OutOfFuel.
Proof.
  induction n as [|n IH]; intros g Hn; [lia|].
  cbn [Game.player_turn]. unfold Game.bind at 1. unfold Game.read at 1.
  destruct (Hand.value (Player.hand (Game.player g))) as [v|e];
    cbn [outcome_of]; [|cbn; discriminate].
  destruct (v <? 21); [|cbn; discriminate].
  unfold Game.bind at 1. unfold Game.ask_strategy, Game.read.
  match goal with
  | |- context [outcome_of ?r] => destruct r as [a|e]
  end; cbn [outcome_of]; [|cbn; discriminate].
  destruct a; try (cbn; discriminate).
  - unfold Game.bind at 1.
    destruct (player_hit_run g) as (Hrun & _ & _ & Hdeck & _ & _ & Hcards).
    rewrite Hrun.
    destruct (deal_cases (Game.deck g)) as [[Hnil Hdeal]|(rest & c & Hc & Hdeal)].
    + destruct n as [|n]; [lia|].
      cbn [Game.player_turn]. unfold Game.bind at 1. unfold Game.read at 1.
      rewrite value_none; [cbn; discriminate|].
      rewrite Hcards, Hdeal. apply in_or_app. right. now left.
    + apply IH. rewrite Hdeck, Hdeal. cbn [snd Deck._cards].
      rewrite Hc, length_app in Hn. cbn [length] in Hn. lia.
  - run_controller.
    destruct (Player.place_bet (Game.player g) (Game.bet g)) as [ok p1].
    simp_game. destruct (Deck.deal (Game.deck g)) as [o d].
    cbn. discriminate.
Qed.

(** [play_round], and so [play_auto], returns or raises: the bound it gives
    its loops is never used up. *)
Lemma play_round_total (g : Game.t) : fst (Game.play_round g) <> OutOfFuel.
Proof.
  unfold Game.play_round. unfold Game.bind at 1. unfold Game.get at 1.
  cbv beta iota. unfold Game.bind at 1.
  pose proof (player_turn_total (Game.loop_bound g) g) as Hp.
  destruct (Game.player_turn (Game.loop_bound g) g) as [[[]|e|] g1];
    cbn [fst] in *.
  - unfold Game.bind at 1. unfold Game.read at 1.
    destruct (Hand.value (Player.hand (Game.player g1))) as [v|e];
      cbn [outcome_of]; [|cbn; discriminate].
    destruct (21 <? v); [cbn; discriminate|].
    unfold Game.bind at 1. unfold Game.get at 1. cbv beta iota.
    unfold Game.bind at 1.
    pose proof (dealer_turn_total (Game.loop_bound g1) g1) as Hd.
    destruct (Game.dealer_turn (Game.loop_bound g1) g1) as [[[]|e|] g2];
      cbn [fst] in *.
    + unfold Game._determine_winner. run_controller.
      destruct (Hand.value (Player.hand (Game.player g2))) as [pv|e];
        cbn [outcome_of]; [|cbn; discriminate].
      destruct (Hand.value (Dealer.hand (Game.dealer g2))) as [dv|e];
        cbn [outcome_of]; [|cbn; discriminate].
      split_ifs; cbn; discriminate.
    + discriminate.
    + exfalso. apply Hd; [unfold Game.loop_bound; lia | reflexivity].
  - discriminate.
  - exfalso. apply Hp; [unfold Game.loop_bound; lia | reflexivity].
Qed.

Lemma play_auto_total (g : Game.t) : fst (Game.play_auto g) <> OutOfFuel.
Proof.
  destruct (Z.lt_ge_cases (Player.bankroll (Game.player g)) (Game.bet g))
    as [Hlt|Hge].
  - rewrite (play_auto_refused g Hlt). discriminate.
  - destruct (start_round_raises g Hge) as (e & g' & Hstart & _).
    rewrite (play_auto_of_raise g g' e Hstart). discriminate.
Qed.
End Termination.

(** * Further properties of the code *)

(** ** Hands *)

Section HandTotals.
Lemma naive_sum_app (cs ds : list Card.t) :
  naive_sum (cs ++ ds) = naive_sum cs + naive_sum ds.
Proof.
  unfold naive_sum. induction cs as [|c cs IH]; cbn [app fold_right]; lia.
Qed.

Lemma count_aces_app (cs ds : list Card.t) :
  count_aces (cs ++ ds) = (count_aces cs + count_aces ds)%nat.
Proof. unfold count_aces. now rewrite filter_app, length_app. Qed.

Lemma hard_value_bounds (c : Card.t) : 1 <= hard_value c <= 10.
Proof.
  unfold hard_value, Card.is_ace, Card.value.
  destruct c as [r s]. destruct r; cbn; lia.
Qed.

Lemma hard_total_snoc (cs : list Card.t) (c : Card.t) :
  hard_total (cs ++ [c]) = hard_total cs + hard_value c.
Proof.
  unfold hard_total, hard_value. rewrite naive_sum_app, count_aces_app.
  unfold count_aces at 2. unfold naive_sum at 2. cbn [filter fold_right].
  destruct (Card.is_ace c) eqn:E; cbn [length].
  - assert (Card.value c = 11).
    { unfold Card.is_ace, Card.value in *. destruct c as [r s].
      destruct r; cbn in *; (discriminate || reflexivity). }
    lia.
  - lia.
Qed.

(** The demotion loop seen from the total with every Ace as 1. *)
Lemma demote_loop_hard (n : nat) (v : Z) :
  let r := Hand.demote_loop n v in
  let hard := v - 10 * Z.of_nat n in
  hard <= r <= v /\
  (hard <= 21 -> r <= 21) /\
  (21 < hard -> r = hard) /\
  (forall j, 0 <= j <= Z.of_nat n -> v - 10 * j <= 21 -> v - 10 * j <= r).
Proof.
  intros r hard. subst r hard.
  destruct (demote_loop_spec n v) as (k & Hk & -> & Hrun & Hstop).
  repeat split; try lia.
  intros j Hj Hle. destruct (Z.lt_ge_cases j k) as [Hlt|Hge]; [|lia].
  specialize (Hrun j). lia.
Qed.

Lemma add_card_of_cards (cs : list Card.t) (c : Card.t) (sp db su : bool) :
  Hand.add_card (Hand.of_cards cs sp db su) (Some c)
  = Hand.of_cards (cs ++ [c]) sp db su.
Proof.
  unfold Hand.add_card, Hand.of_cards. cbn [Hand._cards Hand._is_split
    Hand._is_doubled Hand._is_surrendered]. now rewrite map_app.
Qed.

Lemma any_none (p : Card.t -> bool) (l : list (option Card.t)) :
  In None l -> Hand.any p l = Ok true \/ Hand.any p l = Err AttributeError.
Proof.
  induction l as [|o l IH]; intros Hin; [destruct Hin|].
  destruct o as [c|]; [|now right].
  destruct Hin as [Hin|Hin]; [discriminate|].
  cbn. destruct (p c); [now left | now apply IH].
Qed.

Lemma sum_values_none (l : list (option Card.t)) :
  In None l -> Hand.sum_values l = Err AttributeError.
Proof.
  induction l as [|o l IH]; intros Hin; [destruct Hin|].
  destruct o as [c|]; [|reflexivity].
  destruct Hin as [Hin|Hin]; [discriminate|].
  cbn. now rewrite IH.
Qed.
End HandTotals.

(** X1. The value of a hand of cards is its best total: it is never below
    the total with every Ace as 1; it is at most 21 exactly when that total
    is; when that total is above 21 the value is that total; and no way of
    counting some Aces as 1 and the others as 11 gives a total that is at
    most 21 and larger than the value.  [is_bust] is the test that the total
    with every Ace as 1 is above 21. *)
Theorem value_is_best_total :
  forall (cs : list Card.t) (sp db su : bool),
  exists v : Z,
    Hand.value (Hand.of_cards cs sp db su) = Ok v /\
    hard_total cs <= v <= naive_sum cs /\
    (v <= 21 <-> hard_total cs <= 21) /\
    (21 < hard_total cs -> v = hard_total cs) /\
    (forall j, 0 <= j <= Z.of_nat (count_aces cs) ->
               naive_sum cs - 10 * j <= 21 -> naive_sum cs - 10 * j <= v) /\
    Hand.is_bust (Hand.of_cards cs sp db su) = Ok (21 <? hard_total cs).
Proof.
  intros cs sp db su.
  destruct (demote_loop_hard (count_aces cs) (naive_sum cs))
    as (Hb & Hle & Hgt & Hopt).
  fold (hard_total cs) in *.
  exists (Hand.demote_loop (count_aces cs) (naive_sum cs)).
  unfold Hand.is_bust. rewrite value_of_cards. cbn [rbind].
  repeat split; try lia; auto.
  f_equal. destruct (Z.ltb_spec 21 (hard_total cs));
    destruct (Z.ltb_spec 21 (Hand.demote_loop (count_aces cs) (naive_sum cs)));
    (reflexivity || lia).
Qed.

(** X2. A natural blackjack is worth 21 and is soft: whenever [is_blackjack]
    is [True] the hand holds exactly two cards, its value is 21 and
    [is_soft] is [True]; and a hand that does not hold exactly two cards is
    never a blackjack, whatever it is worth. *)
Theorem blackjack_is_soft_21 :
  (forall h : Hand.t,
      Hand.is_blackjack h = Ok true ->
      length (Hand._cards h) = 2%nat /\
      Hand.value h = Ok 21 /\
      Hand.is_soft h = Ok true) /\
  (forall h : Hand.t,
      length (Hand._cards h) <> 2%nat -> Hand.is_blackjack h = Ok false).
Proof.
  split.
  - intros [cards sp db su].
    unfold Hand.is_blackjack, Hand.value, Hand.is_soft. cbn [Hand._cards].
    destruct cards as [|o1 [|o2 [|o3 rest]]]; try discriminate.
    destruct o1 as [[r1 s1]|], o2 as [[r2 s2]|]; try discriminate;
      destruct r1; try discriminate; try destruct r2; try discriminate;
        cbn; auto.
  - intros h Hlen. unfold Hand.is_blackjack.
    destruct (Nat.eqb_spec (length (Hand._cards h)) 2); [contradiction|].
    reflexivity.
Qed.

Lemma blackjack_is_soft_21_witness :
  Hand.value (Hand.of_cards [Card.mk KING HEARTS; Card.mk ACE SPADES]
                            false false false) = Ok 21 /\
  Hand.is_blackjack
    (Hand.of_cards [Card.mk SEVEN SPADES; Card.mk SEVEN HEARTS;
                    Card.mk SEVEN DIAMONDS] false false false) = Ok false.
Proof.
  split.
  - apply (proj1 blackjack_is_soft_21). reflexivity.
  - apply (proj2 blackjack_is_soft_21). cbn. lia.
Defined.

(** X3. [is_soft] is [True] exactly when the hand holds an Ace and no Ace had
    to be demoted, that is, when the value is the sum with every Ace as 11;
    a soft hand is worth 11 to 21.  (A hand whose value still counts one Ace
    as 11 after another was demoted is therefore not soft.) *)
Theorem soft_iff_no_demotion :
  forall (cs : list Card.t) (sp db su : bool),
  exists (soft : bool) (v : Z),
    Hand.is_soft (Hand.of_cards cs sp db su) = Ok soft /\
    Hand.value (Hand.of_cards cs sp db su) = Ok v /\
    (soft = true <-> existsb Card.is_ace cs = true /\ v = naive_sum cs) /\
    (soft = true -> 11 <= v <= 21).
Proof.
  intros cs sp db su.
  rewrite is_soft_of_cards, value_of_cards. do 2 eexists.
  split; [reflexivity|]. split; [reflexivity|].
  destruct (demote_loop_spec (count_aces cs) (naive_sum cs))
    as (k & Hk & -> & Hrun & Hstop).
  assert (Hace : existsb Card.is_ace cs = true ->
                 (0 < count_aces cs)%nat /\ 11 <= naive_sum cs).
  { clear. unfold count_aces, naive_sum.
    induction cs as [|c cs IH]; [discriminate|].
    cbn [existsb filter fold_right].
    assert (2 <= Card.value c)
      by (unfold Card.value; destruct c as [[] ?]; cbn; lia).
    destruct (Card.is_ace c) eqn:E.
    - intros _. split; [cbn; lia|].
      assert (Card.value c = 11).
      { unfold Card.is_ace, Card.value in *. destruct c as [[] ?];
          cbn in *; (discriminate || reflexivity). }
      assert (0 <= fold_right (fun c acc => Card.value c + acc) 0 cs).
      { clear. induction cs as [|d cs IH]; cbn; [lia|].
        assert (2 <= Card.value d)
          by (unfold Card.value; destruct d as [[] ?]; cbn; lia).
        lia. }
      lia.
    - cbn [orb]. intros Hex. destruct (IH Hex). split; lia. }
  split; [split|].
  - intros H. apply andb_prop in H. destruct H as [Ha Hs].
    apply Z.leb_le in Hs. split; [exact Ha|].
    destruct (Z.eq_dec k 0) as [->|?]; [lia|]. specialize (Hrun 0). lia.
  - intros [Ha Hv]. rewrite Ha. cbn [andb]. apply Z.leb_le.
    destruct (Hace Ha) as [Hpos _]. lia.
  - intros H. apply andb_prop in H. destruct H as [Ha Hs].
    apply Z.leb_le in Hs. destruct (Hace Ha) as [_ Hge].
    destruct (Z.eq_dec k 0) as [->|?]; [lia|]. specialize (Hrun 0). lia.
Qed.

(** The two tests that look at exactly two entries, with a [None] among
    them. *)
Lemma two_entries_none (h : Hand.t) :
  In None (Hand._cards h) ->
  length (Hand._cards h) = 2%nat ->
  Hand.is_blackjack h = Err AttributeError /\
  Hand.is_pair h = Err AttributeError.
Proof.
  intros Hin Hlen. destruct h as [cards sp db su].
  unfold Hand.is_blackjack, Hand.is_pair. cbn [Hand._cards] in *.
  destruct cards as [|o1 [|o2 [|o3 rest]]]; try discriminate.
  destruct o1 as [c1|], o2 as [c2|]; cbn in Hin;
    try (split; reflexivity).
  - exfalso. intuition discriminate.
  - split; cbn; [|reflexivity].
    destruct (Card.is_ace c1) eqn:E; cbn; [|reflexivity].
    assert (Card.is_ten_value c1 = false) as ->; [|reflexivity].
    unfold Card.is_ace, Card.is_ten_value, Card.value in *.
    destruct c1 as [[] ?]; cbn in *; (discriminate || reflexivity).
Qed.

(** X4. A [None] in a hand (what [add_card] appends when [deal()] found the
    shoe empty) makes every valuation raise [AttributeError]: [value],
    [is_bust] and [is_soft] always, and [is_blackjack] and [is_pair] as soon
    as the hand holds two entries. *)
Theorem none_in_hand_raises :
  forall h : Hand.t,
    In None (Hand._cards h) ->
    Hand.value h = Err AttributeError /\
    Hand.is_bust h = Err AttributeError /\
    Hand.is_soft h = Err AttributeError /\
    (length (Hand._cards h) = 2%nat ->
     Hand.is_blackjack h = Err AttributeError /\
     Hand.is_pair h = Err AttributeError).
Proof.
  intros h Hin.
  assert (Hv : Hand.value h = Err AttributeError) by now apply value_none.
  split; [exact Hv|]. split; [unfold Hand.is_bust; now rewrite Hv|]. split.
  - unfold Hand.is_soft.
    destruct (any_none Card.is_ace _ Hin) as [-> | ->]; [|reflexivity].
    cbn. now rewrite sum_values_none.
  - intros Hlen. now apply two_entries_none.
Qed.

Lemma none_in_hand_raises_witness :
  Hand.value (Hand.add_card (Hand.of_cards [Card.mk TEN CLUBS] false false false)
                            None) = Err AttributeError.
Proof.
  apply (none_in_hand_raises
           (Hand.add_card (Hand.of_cards [Card.mk TEN CLUBS] false false false)
                          None)).
  cbn. auto.
Defined.

(** One more card, on the totals. *)
Lemma snoc_value_facts (cs : list Card.t) (c : Card.t) :
  let v := Hand.demote_loop (count_aces cs) (naive_sum cs) in
  let v' := Hand.demote_loop (count_aces (cs ++ [c])) (naive_sum (cs ++ [c])) in
  (21 < v -> 21 < v') /\
  (v <= 11 -> v' <= 21) /\
  v' <= v + 11 /\
  (21 < v' -> v' <= v + 10).
Proof.
  intros v v'.
  destruct (demote_loop_hard (count_aces cs) (naive_sum cs))
    as (Hb & Hle & Hgt & Hopt).
  destruct (demote_loop_hard (count_aces (cs ++ [c])) (naive_sum (cs ++ [c])))
    as (Hb' & Hle' & Hgt' & Hopt').
  destruct (demote_loop_spec (count_aces (cs ++ [c])) (naive_sum (cs ++ [c])))
    as (k & Hk & Heq & _ & _).
  fold (hard_total cs) in *. fold (hard_total (cs ++ [c])) in *.
  rewrite hard_total_snoc in *.
  pose proof (hard_value_bounds c) as Hhv.
  fold v in Hb, Hle, Hgt, Hopt. fold v' in Hb', Hle', Hgt', Hopt', Heq.
  assert (Hbust : 21 < v' -> v' <= v + 10).
  { intros H. assert (21 < hard_total cs + hard_value c) by lia. lia. }
  repeat split; try lia.
  destruct (Z.lt_ge_cases 21 v') as [?|Hok]; [lia|].
  destruct (Z.lt_ge_cases 21 (hard_total cs)) as [?|Hh]; [lia|].
  rewrite naive_sum_app in Heq. rewrite count_aces_app in Hk.
  unfold naive_sum at 2 in Heq. unfold count_aces at 2 in Hk.
  cbn [fold_right filter] in Heq, Hk.
  assert (Hval : 2 <= Card.value c <= 11 /\
                 (Card.is_ace c = false -> Card.value c <= 10)).
  { unfold Card.is_ace, Card.value. destruct c as [[] ?]; cbn;
      split; intros; (lia || discriminate). }
  destruct Hval as [Hv11 Hv10].
  destruct (Z.le_gt_cases k (Z.of_nat (count_aces cs))) as [Hkle|Hkgt].
  - specialize (Hopt k). lia.
  - destruct (Card.is_ace c) eqn:E; cbn [length] in Hk; [|lia].
    assert (k = Z.of_nat (count_aces cs) + 1) by lia.
    unfold hard_total in *. lia.
Qed.

(** X5. What one more card does to a hand of cards: a hand that is bust stays
    bust; a hand worth 11 or less cannot go bust; the value grows by 11 at
    most; and a hand that goes bust ends at most 10 above what it was
    worth. *)
Theorem hit_changes_value :
  forall (cs : list Card.t) (c : Card.t) (sp db su : bool),
  exists v v' : Z,
    Hand.value (Hand.of_cards cs sp db su) = Ok v /\
    Hand.value (Hand.add_card (Hand.of_cards cs sp db su) (Some c)) = Ok v' /\
    (21 < v -> 21 < v') /\
    (v <= 11 -> v' <= 21) /\
    v' <= v + 11 /\
    (21 < v' -> v' <= v + 10).
Proof.
  intros cs c sp db su. rewrite add_card_of_cards, !value_of_cards.
  do 2 eexists. split; [reflexivity|]. split; [reflexivity|].
  apply snoc_value_facts.
Qed.

(** ** Cards *)

Lemma Card_eq_dec : forall a b : Card.t, {a = b} + {a <> b}.
Proof. decide equality; decide equality. Defined.

(** X6. Cards are equal when rank and suit agree but ordered by value alone:
    [__eq__] holds exactly for the same card, [__lt__] is irreflexive and
    transitive, and two cards are neither equal nor ordered either way
    exactly when they are different cards of the same value. *)
Theorem card_order_ignores_suit_and_face :
  (forall a b : Card.t, Card.eqb a b = true <-> a = b) /\
  (forall a : Card.t, Card.ltb a a = false) /\
  (forall a b c : Card.t,
      Card.ltb a b = true -> Card.ltb b c = true -> Card.ltb a c = true) /\
  (forall a b : Card.t,
      Card.eqb a b || Card.ltb a b || Card.ltb b a = false <->
      a <> b /\ Card.value a = Card.value b).
Proof.
  assert (Heq : forall a b : Card.t, Card.eqb a b = true <-> a = b).
  { intros [r1 s1] [r2 s2]. unfold Card.eqb. cbn [Card.rank Card.suit]. split.
    - intros H. apply andb_prop in H. destruct H as [Hr Hs].
      destruct r1, r2; try discriminate; destruct s1, s2; try discriminate;
        reflexivity.
    - intros H. injection H as <- <-. destruct r1, s1; reflexivity. }
  split; [exact Heq|]. unfold Card.ltb. split; [|split].
  - intros a. apply Z.ltb_irrefl.
  - intros a b c Hab Hbc. apply Z.ltb_lt in Hab, Hbc. apply Z.ltb_lt. lia.
  - intros a b. rewrite !orb_false_iff, !Z.ltb_ge. split.
    + intros [[He H1] H2]. split; [|lia].
      intros Hab. apply Heq in Hab. congruence.
    + intros [Hne Hv]. repeat split; try lia.
      destruct (Card.eqb a b) eqn:E; [|reflexivity].
      apply Heq in E. contradiction.
Qed.

(** ** The shoe: composition and dealing order *)

Section ShoeCards.
Lemma one_deck_count (c : Card.t) : count_occ Card_eq_dec Deck.one_deck c = 1%nat.
Proof. destruct c as [r s]. destruct r, s; reflexivity. Qed.

Lemma fill_count (n : nat) (c : Card.t) :
  count_occ Card_eq_dec (Deck.fill n) c = n.
Proof.
  induction n as [|n IH]; [reflexivity|].
  cbn [Deck.fill]. rewrite count_occ_app, one_deck_count, IH. reflexivity.
Qed.

Lemma deal_conserves (d : Deck.t) :
  Permutation
    (Deck._cards (snd (Deck.deal d)) ++ Deck._dealt_cards (snd (Deck.deal d)))
    (Deck._cards d ++ Deck._dealt_cards d) /\
  Deck.num_decks (snd (Deck.deal d)) = Deck.num_decks d.
Proof.
  destruct (deal_cases d) as [[_ ->]|(rest & c & Hc & ->)];
    cbn [snd Deck._cards Deck._dealt_cards Deck.num_decks].
  - split; [apply Permutation_refl | reflexivity].
  - split; [|reflexivity]. rewrite Hc, <- app_assoc.
    apply Permutation_app_head, Permutation_app_comm.
Qed.

Lemma deals_conserve (k : nat) :
  forall d,
    Permutation
      (Deck._cards (Deck.deals k d) ++ Deck._dealt_cards (Deck.deals k d))
      (Deck._cards d ++ Deck._dealt_cards d) /\
    Deck.num_decks (Deck.deals k d) = Deck.num_decks d.
Proof.
  induction k as [|k IH]; intros d; cbn [Deck.deals].
  - split; [apply Permutation_refl | reflexivity].
  - destruct (IH (snd (Deck.deal d))) as [Hp Hn].
    destruct (deal_conserves d) as [Hp' Hn'].
    split; [eapply Permutation_trans; eassumption | congruence].
Qed.

Lemma deal_multiple_loop_spec (n : nat) :
  forall (d : Deck.t) (acc : list Card.t),
  exists taken : list Card.t,
    fst (Deck.deal_multiple_loop n acc d) = acc ++ taken /\
    length taken = Nat.min n (length (Deck._cards d)) /\
    Deck._cards d
    = Deck._cards (snd (Deck.deal_multiple_loop n acc d)) ++ rev taken /\
    Deck._dealt_cards (snd (Deck.deal_multiple_loop n acc d))
    = Deck._dealt_cards d ++ taken /\
    snd (Deck.deal_multiple_loop n acc d) = Deck.deals (length taken) d.
Proof.
  induction n as [|n IH]; intros d acc.
  - exists []. cbn. rewrite !app_nil_r. auto.
  - cbn [Deck.deal_multiple_loop].
    destruct (deal_cases d) as [[Hnil Hdeal]|(rest & c & Hc & Hdeal)];
      rewrite Hdeal.
    + exists []. cbn [fst snd length rev Deck.deals]. rewrite Hnil, !app_nil_r.
      cbn. auto.
    + cbv beta iota.
      destruct (IH (Deck.mk (Deck.num_decks d) rest (Deck._dealt_cards d ++ [c]))
                   (acc ++ [c])) as (taken & Hf & Hl & Hcs & Hd & Hs).
      cbn [Deck._cards Deck._dealt_cards] in Hl, Hcs, Hd.
      exists (c :: taken).
      split; [rewrite Hf, <- app_assoc; reflexivity|].
      split; [cbn [length]; rewrite Hl, Hc, length_app; cbn [length]; lia|].
      split; [rewrite Hc; rewrite Hcs at 1; cbn [rev];
              now rewrite app_assoc|].
      split; [rewrite Hd, <- app_assoc; reflexivity|].
      rewrite Hs. cbn [length Deck.deals]. now rewrite Hdeal.
Qed.
End ShoeCards.

(** X7. A shoe of [num_decks >= 1] decks, shuffled or not, starts with every
    one of the 52 cards exactly [num_decks] times and nothing dealt;
    [reset()] brings any shoe back to that composition; and a shoe of fewer
    than one deck is refused with [ValueError]. *)
Theorem fresh_shoe_composition :
  forall (rng : list Card.t -> list Card.t),
    (forall l, Permutation (rng l) l) ->
    (forall (n : Z) (shuffle_on_init : bool),
        1 <= n ->
        exists d : Deck.t,
          Deck.init rng n shuffle_on_init = Ok d /\
          Deck.num_decks d = n /\
          Deck._dealt_cards d = [] /\
          forall c, count_occ Card_eq_dec (Deck._cards d) c = Z.to_nat n) /\
    (forall d : Deck.t,
        Deck._dealt_cards (Deck.reset d) = [] /\
        forall c,
          count_occ Card_eq_dec (Deck._cards (Deck.reset d)) c
          = Z.to_nat (Deck.num_decks d)) /\
    (forall (n : Z) (shuffle_on_init : bool),
        n < 1 -> Deck.init rng n shuffle_on_init = Err ValueError).
Proof.
  intros rng Hperm. split; [|split].
  - intros n b Hn. unfold Deck.init.
    destruct (Z.ltb_spec n 1) as [?|_]; [lia|].
    eexists. split; [reflexivity|].
    destruct b; cbn; repeat split; intros c; try apply fill_count.
    rewrite (proj1 (Permutation_count_occ Card_eq_dec _ _) (Hperm _)).
    apply fill_count.
  - intros d. split; [reflexivity|]. intros c. apply fill_count.
  - intros n b Hn. unfold Deck.init.
    destruct (Z.ltb_spec n 1); [reflexivity | lia].
Qed.

Lemma fresh_shoe_composition_witness :
  exists d : Deck.t,
    Deck.init (@rev Card.t) 6 true = Ok d /\
    count_occ Card_eq_dec (Deck._cards d) (Card.mk ACE SPADES) = 6%nat.
Proof.
  destruct (fresh_shoe_composition (@rev Card.t)) as (Hinit & _ & _).
  - intros l. apply Permutation_sym, Permutation_rev.
  - destruct (Hinit 6 true) as (d & Hd & _ & _ & Hcount); [lia|].
    exists d. split; [exact Hd|]. apply Hcount.
Defined.

(** X8. Dealing loses no card and makes none: after any number of [deal()]
    calls on any shoe, the cards left together with the cards dealt are a
    rearrangement of what the two lists held before, and [num_decks] is
    unchanged. *)
Theorem dealing_conserves_cards :
  forall (d : Deck.t) (k : nat),
    Permutation
      (Deck._cards (Deck.deals k d) ++ Deck._dealt_cards (Deck.deals k d))
      (Deck._cards d ++ Deck._dealt_cards d) /\
    Deck.num_decks (Deck.deals k d) = Deck.num_decks d.
Proof. intros d k. apply deals_conserve. Qed.

(** X9. [deal_multiple(count)] never raises: it returns
    [min(count, remaining)] cards ([count <= 0] gives none), taken off the
    end of the shoe one by one, so that the cards returned, reversed, are the
    end of the old shoe; they are appended to the dealt cards in the order
    returned, and the shoe is left as that many [deal()] calls leave it. *)
Theorem deal_multiple_takes_from_the_end :
  forall (count : Z) (d : Deck.t),
    let taken := fst (Deck.deal_multiple count d) in
    let d' := snd (Deck.deal_multiple count d) in
    Z.of_nat (length taken) = Z.min (Z.max count 0) (Deck.remaining d) /\
    Deck._cards d = Deck._cards d' ++ rev taken /\
    Deck._dealt_cards d' = Deck._dealt_cards d ++ taken /\
    d' = Deck.deals (length taken) d.
Proof.
  intros count d taken d'. subst taken d'. unfold Deck.deal_multiple.
  destruct (deal_multiple_loop_spec (Z.to_nat count) d [])
    as (taken & Hf & Hl & Hc & Hd & Hs).
  cbn [app] in Hf. rewrite Hf. repeat split; auto.
  rewrite Hl. unfold Deck.remaining. lia.
Qed.

(** ** The player's money and hands *)

(** X10. [place_bet] moves money from the bankroll to the current bet and
    nowhere else: their sum is unchanged, the call succeeds exactly when the
    amount is at most the bankroll, a refused bet changes nothing, the hand
    and the strategy are untouched, and a bankroll that is not negative
    stays so. *)
Theorem place_bet_moves_money :
  forall (p : Player.t) (amount : Z),
    let ok := fst (Player.place_bet p amount) in
    let p' := snd (Player.place_bet p amount) in
    Player.bankroll p' + Player.current_bet p'
    = Player.bankroll p + Player.current_bet p /\
    (ok = true <-> amount <= Player.bankroll p) /\
    (ok = true -> Player.bankroll p' = Player.bankroll p - amount) /\
    (ok = false -> p' = p) /\
    Player.hand p' = Player.hand p /\
    Player.strategy p' = Player.strategy p /\
    (0 <= Player.bankroll p -> 0 <= Player.bankroll p').
Proof.
  intros p amount. unfold Player.place_bet.
  destruct (Z.ltb_spec (Player.bankroll p) amount); cbn;
    repeat split; intros; try lia; try discriminate; try reflexivity.
Qed.

(** X11. [split_hand] refuses a hand that is not a pair and changes nothing.
    On a pair it returns [True] and adds a second hand holding the pair's
    second card, but the current hand keeps both of its cards (the card is
    taken off a copy of the list), and no bet is placed for the new hand. *)
Theorem split_hand_keeps_both_cards :
  forall p : Player.t,
    (Hand.is_pair (Player.hand p) = Ok false ->
     Player.split_hand p = (Ok false, p)) /\
    (Hand.is_pair (Player.hand p) = Ok true ->
     exists c0 c1 : Card.t,
       Hand._cards (Player.hand p) = [Some c0; Some c1] /\
       Card.rank c0 = Card.rank c1 /\
       fst (Player.split_hand p) = Ok true /\
       Player.hand (snd (Player.split_hand p)) = Player.hand p /\
       Player.hands_rest (snd (Player.split_hand p))
       = Player.hands_rest p ++ [Hand.mk [Some c1] false false false] /\
       Player.bankroll (snd (Player.split_hand p)) = Player.bankroll p /\
       Player.current_bet (snd (Player.split_hand p)) = Player.current_bet p).
Proof.
  intros p. unfold Player.split_hand. split.
  - intros ->. reflexivity.
  - intros H. rewrite H. revert H. unfold Hand.is_pair, Hand.cards.
    destruct (Hand._cards (Player.hand p)) as [|o0 [|o1 [|o2 rest]]];
      try discriminate.
    destruct o0 as [c0|], o1 as [c1|]; try discriminate.
    cbn. intros H. injection H as H. exists c0, c1.
    repeat split; try reflexivity.
    destruct (Card.rank c0), (Card.rank c1); (reflexivity || discriminate).
Qed.

Lemma split_hand_keeps_both_cards_witness :
  Player.hand
    (snd (Player.split_hand
            (Player.mk 100 100 Basic
               (Hand.of_cards [Card.mk EIGHT CLUBS; Card.mk EIGHT HEARTS]
                              false false false) [] 10)))
  = Hand.of_cards [Card.mk EIGHT CLUBS; Card.mk EIGHT HEARTS] false false false.
Proof.
  destruct (proj2 (split_hand_keeps_both_cards
                     (Player.mk 100 100 Basic
                        (Hand.of_cards [Card.mk EIGHT CLUBS; Card.mk EIGHT HEARTS]
                                       false false false) [] 10)))
    as (c0 & c1 & _ & _ & _ & Hhand & _).
  - reflexivity.
  - exact Hhand.
Defined.

(** ** What the strategies choose *)

Section Choices.
Local Open Scope result_scope.

Lemma is_pair_rank (cs : list Card.t) (sp db su : bool) :
  Hand.is_pair (Hand.of_cards cs sp db su)
  = Ok (match pair_rank cs with Some _ => true | None => false end).
Proof.
  unfold Hand.is_pair, Hand.of_cards, pair_rank. cbn [Hand._cards].
  destruct cs as [|c0 [|c1 [|c2 cs]]]; try reflexivity.
  cbn. destruct (Rank_eqb (Card.rank c0) (Card.rank c1)); reflexivity.
Qed.

Lemma pair_rank_first (cs : list Card.t) (r : Rank) (sp db su : bool) :
  pair_rank cs = Some r ->
  exists c0 c1,
    cs = [c0; c1] /\ Card.rank c0 = r /\ Card.rank c1 = r /\
    BasicStrategy.first_card (Hand.of_cards cs sp db su) = Ok (Some c0).
Proof.
  unfold pair_rank. destruct cs as [|c0 [|c1 [|c2 cs]]]; try discriminate.
  destruct (Rank_eqb (Card.rank c0) (Card.rank c1)) eqn:E; [|discriminate].
  intros H. injection H as <-. exists c0, c1. repeat split.
  destruct (Card.rank c0), (Card.rank c1); (reflexivity || discriminate).
Qed.

Variables (cs : list Card.t) (sp db su : bool) (dealer_card : Card.t).
Variables (can_double can_split can_surrender : bool).

Let hand := Hand.of_cards cs sp db su.
Let v := Hand.demote_loop (count_aces cs) (naive_sum cs).
Let dv := Card.value dealer_card.
Let soft := existsb Card.is_ace cs && (naive_sum cs <=? 21).

(** [BasicStrategy.decide] on a hand of cards, without the exceptions. *)
Lemma basic_decide_cards :
  BasicStrategy.decide hand (Some dealer_card) can_double can_split
                       can_surrender
  = Ok (let table := if soft then BasicStrategy.soft_rule v dv can_double
                     else BasicStrategy.hard_rule v dv can_double in
        match pair_rank cs with
        | Some r =>
            if can_split then
              match BasicStrategy.pair_rule r dv with
              | Some a => a
              | None => table
              end
            else table
        | None => table
        end).
Proof.
  unfold BasicStrategy.decide, hand, v, dv, soft.
  rewrite value_of_cards, is_pair_rank, is_soft_of_cards.
  cbn [rbind getattr].
  destruct (pair_rank cs) as [r|] eqn:Ep; cbn [andb rbind].
  - destruct can_split; cbn [rbind].
    + destruct (pair_rank_first cs r sp db su Ep) as (c0 & c1 & _ & Hr & _ & ->).
      cbn [rbind getattr]. rewrite Hr.
      destruct (BasicStrategy.pair_rule r (Card.value dealer_card));
        cbn [rbind]; [reflexivity|].
      destruct (existsb Card.is_ace cs && (naive_sum cs <=? 21)); reflexivity.
    + destruct (existsb Card.is_ace cs && (naive_sum cs <=? 21)); reflexivity.
  - destruct (existsb Card.is_ace cs && (naive_sum cs <=? 21)); reflexivity.
Qed.

Lemma conservative_decide_cards :
  ConservativeStrategy.decide hand (Some dealer_card) can_double can_split
                              can_surrender
  = Ok (match pair_rank cs with
        | Some ACE => if can_split then SPLIT
                      else if 12 <=? v then STAND else HIT
        | _ => if 12 <=? v then STAND else HIT
        end).
Proof.
  unfold ConservativeStrategy.decide, hand, v.
  rewrite value_of_cards, is_pair_rank. cbn [rbind].
  destruct (pair_rank cs) as [r|] eqn:Ep; cbn [andb rbind].
  - destruct can_split; cbn [rbind].
    + destruct (pair_rank_first cs r sp db su Ep) as (c0 & c1 & _ & Hr & _ & ->).
      cbn [rbind getattr]. unfold Card.is_ace. rewrite Hr.
      destruct r; cbn [Rank_eqb]; split_ifs; reflexivity.
    + destruct r; split_ifs; reflexivity.
  - split_ifs; reflexivity.
Qed.

Lemma aggressive_decide_cards :
  AggressiveStrategy.decide hand (Some dealer_card) can_double can_split
                            can_surrender
  = Ok (let rest := if can_double && (9 <=? v) && (v <=? 12) then DOUBLE_DOWN
                    else if v <? 18 then HIT else STAND in
        match pair_rank cs with
        | Some r =>
            if can_split && negb (rank_in r [TEN; JACK; QUEEN; KING; FIVE])
            then SPLIT else rest
        | None => rest
        end).
Proof.
  unfold AggressiveStrategy.decide, hand, v.
  rewrite value_of_cards, is_pair_rank. cbn [rbind getattr].
  destruct (pair_rank cs) as [r|] eqn:Ep; cbn [andb rbind].
  - destruct can_split; cbn [rbind andb].
    + destruct (pair_rank_first cs r sp db su Ep) as (c0 & c1 & _ & Hr & _ & ->).
      cbn [rbind getattr]. rewrite Hr.
      destruct (negb _); split_ifs; reflexivity.
    + split_ifs; reflexivity.
  - split_ifs; reflexivity.
Qed.
End Choices.

Section ChoiceFacts.
Lemma soft_rule_facts (pv dv : Z) (cd : bool) :
  let a := BasicStrategy.soft_rule pv dv cd in
  (a = DOUBLE_DOWN -> cd = true) /\ a <> SPLIT /\ a <> SURRENDER.
Proof.
  unfold BasicStrategy.soft_rule. destruct cd; cbn [negb andb];
    split_ifs; repeat split; intros; (reflexivity || discriminate).
Qed.

Lemma hard_rule_facts (pv dv : Z) (cd : bool) :
  let a := BasicStrategy.hard_rule pv dv cd in
  (a = DOUBLE_DOWN -> cd = true) /\ a <> SPLIT /\ a <> SURRENDER.
Proof.
  unfold BasicStrategy.hard_rule. destruct cd; cbn [negb andb];
    split_ifs; repeat split; intros; (reflexivity || discriminate).
Qed.

Lemma basic_respects_flags (cs : list Card.t) (sp db su : bool)
      (d : Card.t) (cd csp csu : bool) :
  exists a,
    BasicStrategy.decide (Hand.of_cards cs sp db su) (Some d) cd csp csu = Ok a /\
    (a = DOUBLE_DOWN -> cd = true) /\
    (a = SPLIT -> csp = true /\ pair_rank cs <> None) /\
    a <> SURRENDER /\
    BasicStrategy.decide (Hand.of_cards cs sp db su) (Some d) cd csp (negb csu)
    = Ok a.
Proof.
  pose proof (basic_decide_cards cs sp db su d cd csp csu) as H.
  pose proof (basic_decide_cards cs sp db su d cd csp (negb csu)) as H'.
  cbv zeta in H, H'. rewrite H, H'. eexists. split; [reflexivity|].
  set (v := Hand.demote_loop (count_aces cs) (naive_sum cs)).
  destruct (soft_rule_facts v (Card.value d) cd) as (Hs1 & Hs2 & Hs3).
  destruct (hard_rule_facts v (Card.value d) cd) as (Hh1 & Hh2 & Hh3).
  cbv zeta in Hs1, Hs2, Hs3, Hh1, Hh2, Hh3.
  destruct (pair_rank cs) as [r|]; [destruct csp|];
    try (destruct (BasicStrategy.pair_rule r (Card.value d)) as [a|] eqn:Er;
         [apply pair_rule_split in Er; subst a|]);
    destruct (existsb Card.is_ace cs && (naive_sum cs <=? 21));
    repeat split; intros; try discriminate; try congruence; auto.
Qed.
End ChoiceFacts.

(** X12. No strategy takes an action the caller ruled out: [decide] returns
    DOUBLE_DOWN only when [can_double] is set and SPLIT only when [can_split]
    is set and the hand is a pair; it never returns SURRENDER, and
    [can_surrender] has no influence on the answer. *)
Theorem decide_respects_flags :
  forall (s : Strategy) (cs : list Card.t) (sp db su : bool)
         (dealer_card : Card.t) (can_double can_split can_surrender : bool),
  exists a : Action,
    decide s (Hand.of_cards cs sp db su) (Some dealer_card)
           can_double can_split can_surrender = Ok a /\
    (a = DOUBLE_DOWN -> can_double = true) /\
    (a = SPLIT -> can_split = true /\ pair_rank cs <> None) /\
    a <> SURRENDER /\
    decide s (Hand.of_cards cs sp db su) (Some dealer_card)
           can_double can_split (negb can_surrender) = Ok a.
Proof.
  intros s cs sp db su d cd csp csu.
  destruct s; cbn [decide MartingaleStrategy.decide CardCountingStrategy.decide];
    try apply basic_respects_flags.
  - pose proof (conservative_decide_cards cs sp db su d cd csp csu) as H.
    pose proof (conservative_decide_cards cs sp db su d cd csp (negb csu)) as H'.
    cbv zeta in H, H'. rewrite H, H'. eexists. split; [reflexivity|].
    destruct (pair_rank cs) as [[]|]; destruct csp; split_ifs;
      repeat split; intros; try discriminate; try congruence; auto.
  - pose proof (aggressive_decide_cards cs sp db su d cd csp csu) as H.
    pose proof (aggressive_decide_cards cs sp db su d cd csp (negb csu)) as H'.
    cbv zeta in H, H'. rewrite H, H'. eexists. split; [reflexivity|].
    destruct (pair_rank cs) as [r|]; destruct csp, cd; cbn [andb];
      split_ifs; repeat split; intros; try discriminate; try congruence; auto.
Qed.

(** X13. Basic strategy on pairs, as its comments say: with splitting
    allowed a pair of Aces or of Eights is always split, whatever the dealer
    shows; and a pair of ten-valued cards of one rank or of Fives is never
    split. *)
Theorem basic_split_rules :
  forall (c0 c1 dealer_card : Card.t) (sp db su : bool)
         (can_double can_split can_surrender : bool),
    Card.rank c0 = Card.rank c1 ->
    (rank_in (Card.rank c0) [ACE; EIGHT] = true ->
     BasicStrategy.decide (Hand.of_cards [c0; c1] sp db su) (Some dealer_card)
                          can_double true can_surrender = Ok SPLIT) /\
    (rank_in (Card.rank c0) [TEN; JACK; QUEEN; KING; FIVE] = true ->
     BasicStrategy.decide (Hand.of_cards [c0; c1] sp db su) (Some dealer_card)
                          can_double can_split can_surrender <> Ok SPLIT).
Proof.
  intros c0 c1 d sp db su cd csp csu Hrank.
  assert (Hp : pair_rank [c0; c1] = Some (Card.rank c0)).
  { unfold pair_rank. rewrite <- Hrank.
    destruct (Card.rank c0); reflexivity. }
  split; intros Hin.
  - pose proof (basic_decide_cards [c0; c1] sp db su d cd true csu) as H.
    cbv zeta in H. rewrite H, Hp. unfold BasicStrategy.pair_rule.
    rewrite Hin. reflexivity.
  - pose proof (basic_decide_cards [c0; c1] sp db su d cd csp csu) as H.
    cbv zeta in H. rewrite H, Hp.
    set (v := Hand.demote_loop (count_aces [c0; c1]) (naive_sum [c0; c1])).
    destruct (soft_rule_facts v (Card.value d) cd) as (_ & Hs & _).
    destruct (hard_rule_facts v (Card.value d) cd) as (_ & Hh & _).
    cbv zeta in Hs, Hh.
    assert (Hrule : BasicStrategy.pair_rule (Card.rank c0) (Card.value d) = None).
    { unfold BasicStrategy.pair_rule. rewrite Hin.
      destruct (Card.rank c0); try discriminate; reflexivity. }
    rewrite Hrule. destruct csp; split_ifs; congruence.
Qed.

Lemma basic_split_rules_witness :
  BasicStrategy.decide
    (Hand.of_cards [Card.mk EIGHT CLUBS; Card.mk EIGHT HEARTS] false false false)
    (Some (Card.mk ACE SPADES)) true true true = Ok SPLIT.
Proof.
  apply (basic_split_rules (Card.mk EIGHT CLUBS) (Card.mk EIGHT HEARTS)
                           (Card.mk ACE SPADES) false false false
                           true true true);
    reflexivity.
Defined.

(** X14. Basic strategy stands on every hand worth 19 or more, pairs and
    busted hands included, against any dealer card and whatever the flags:
    it never asks for a card or a double there. *)
Theorem basic_stands_on_19 :
  forall (h : Hand.t) (dealer_card : Card.t)
         (can_double can_split can_surrender : bool) (v : Z),
    Hand.value h = Ok v ->
    19 <= v ->
    BasicStrategy.decide h (Some dealer_card) can_double can_split
                         can_surrender = Ok STAND.
Proof.
  intros h d cd csp csu v Hv Hge.
  destruct (value_returns_cards h v Hv) as [cs Hh]. rewrite Hh in Hv |- *.
  rewrite value_of_cards in Hv. injection Hv as Hv.
  pose proof (basic_decide_cards cs (Hand._is_split h) (Hand._is_doubled h)
                                 (Hand._is_surrendered h) d cd csp csu) as H.
  cbv zeta in H. rewrite H, Hv. clear H.
  assert (Htable : (if existsb Card.is_ace cs && (naive_sum cs <=? 21)
                    then BasicStrategy.soft_rule v (Card.value d) cd
                    else BasicStrategy.hard_rule v (Card.value d) cd) = STAND).
  { unfold BasicStrategy.soft_rule, BasicStrategy.hard_rule.
    destruct (Z.leb_spec 19 v); [|lia]. destruct (Z.leb_spec 17 v); [|lia].
    destruct (_ && _); reflexivity. }
  rewrite Htable.
  destruct (pair_rank cs) as [r|] eqn:Ep; [|reflexivity].
  destruct csp; [|reflexivity].
  destruct (pair_rank_first cs r false false false Ep)
    as (c0 & c1 & -> & Hr0 & Hr1 & _).
  destruct c0 as [r0 s0], c1 as [r1 s1]. cbn [Card.rank] in Hr0, Hr1.
  subst r0 r1. destruct r; cbn in Hv; try lia; reflexivity.
Qed.

Lemma basic_stands_on_19_witness :
  BasicStrategy.decide
    (Hand.of_cards [Card.mk KING CLUBS; Card.mk KING HEARTS] false false false)
    (Some (Card.mk SIX SPADES)) true true true = Ok STAND.
Proof.
  apply (basic_stands_on_19
           (Hand.of_cards [Card.mk KING CLUBS; Card.mk KING HEARTS]
                          false false false)
           (Card.mk SIX SPADES) true true true 20).
  - reflexivity.
  - lia.
Defined.

(** X15. The conservative strategy never doubles and never busts by its own
    choice: it stands from 12 up, splits only a pair of Aces, and asks for a
    card only on 11 or less, where no card can take the hand over 21. *)
Theorem conservative_never_busts :
  forall (cs : list Card.t) (sp db su : bool) (dealer_card : Card.t)
         (can_double can_split can_surrender : bool),
  exists (a : Action) (v : Z),
    ConservativeStrategy.decide (Hand.of_cards cs sp db su) (Some dealer_card)
                                can_double can_split can_surrender = Ok a /\
    Hand.value (Hand.of_cards cs sp db su) = Ok v /\
    a <> DOUBLE_DOWN /\
    (a = STAND -> 12 <= v) /\
    (a = SPLIT -> can_split = true /\ pair_rank cs = Some ACE) /\
    (a = HIT ->
     v <= 11 /\
     forall c : Card.t,
     exists v' : Z,
       Hand.value (Hand.add_card (Hand.of_cards cs sp db su) (Some c)) = Ok v' /\
       v' <= 21).
Proof.
  intros cs sp db su d cd csp csu.
  pose proof (conservative_decide_cards cs sp db su d cd csp csu) as H.
  cbv zeta in H. rewrite H. clear H. rewrite value_of_cards.
  do 2 eexists. split; [reflexivity|]. split; [reflexivity|].
  set (v := Hand.demote_loop (count_aces cs) (naive_sum cs)).
  assert (Hhit : v <= 11 ->
                 forall c, exists v',
                   Hand.value (Hand.add_card (Hand.of_cards cs sp db su) (Some c))
                   = Ok v' /\ v' <= 21).
  { intros Hle c.
    rewrite add_card_of_cards, value_of_cards. eexists.
    split; [reflexivity|]. now apply snoc_value_facts. }
  destruct (Z.leb_spec 12 v);
    destruct (pair_rank cs) as [[]|]; destruct csp;
    repeat split; intros; try discriminate; try lia; try reflexivity;
    apply Hhit; lia.
Qed.

(** X16. The Martingale multiplier is 1 at the start, doubles with every
    recorded loss, so that it is [2^n] after [n] losses in a row, and is back
    to 1 after any recorded win or a reset, however long the streak was. *)
Theorem martingale_multiplier_doubles :
  forall (n : nat) (s : MartingaleStrategy.t),
    MartingaleStrategy.get_bet_multiplier
      (losses_in_a_row n MartingaleStrategy.init) = 2 ^ Z.of_nat n /\
    MartingaleStrategy.get_bet_multiplier
      (MartingaleStrategy.record_loss
         (losses_in_a_row n MartingaleStrategy.init))
    = 2 * MartingaleStrategy.get_bet_multiplier
            (losses_in_a_row n MartingaleStrategy.init) /\
    MartingaleStrategy.get_bet_multiplier (MartingaleStrategy.record_win s) = 1 /\
    MartingaleStrategy.get_bet_multiplier (MartingaleStrategy.reset s) = 1.
Proof.
  intros n s.
  assert (Hn : MartingaleStrategy._consecutive_losses
                 (losses_in_a_row n MartingaleStrategy.init) = Z.of_nat n).
  { unfold losses_in_a_row. induction n as [|n IH]; [reflexivity|].
    rewrite Nat.iter_succ. unfold MartingaleStrategy.record_loss at 1.
    cbn [MartingaleStrategy._consecutive_losses]. rewrite IH. lia. }
  unfold MartingaleStrategy.get_bet_multiplier.
  unfold MartingaleStrategy.record_loss at 1.
  cbn [MartingaleStrategy._consecutive_losses MartingaleStrategy.record_win
       MartingaleStrategy.reset].
  rewrite Hn. repeat split; try reflexivity.
  rewrite Z.pow_add_r by lia. lia.
Qed.

(** ** Counting a whole shoe *)

Section CountingShoe.
Import CardCountingStrategy.

Lemma hi_lo_sum_app (l l' : list Rank) :
  hi_lo_sum (l ++ l') = hi_lo_sum l + hi_lo_sum l'.
Proof.
  induction l as [|r l IH]; cbn [app]; rewrite ?hi_lo_sum_cons; [cbn; lia|lia].
Qed.

Lemma fill_hi_lo (n : nat) : hi_lo_sum (map Card.rank (Deck.fill n)) = 0.
Proof.
  induction n as [|n IH]; [reflexivity|].
  cbn [Deck.fill]. rewrite map_app, hi_lo_sum_app, IH. reflexivity.
Qed.

Lemma observe_cards_seen (cs : list Card.t) :
  forall self,
    _cards_seen (observe self cs) = _cards_seen self + Z.of_nat (length cs).
Proof.
  unfold observe.
  induction cs as [|c cs IH]; intros self; cbn [fold_left length].
  - lia.
  - rewrite IH, update_count_card. cbn [snd _cards_seen]. lia.
Qed.

Lemma hi_lo_sum_bound (rs : list Rank) :
  - Z.of_nat (length rs) <= hi_lo_sum rs <= Z.of_nat (length rs).
Proof.
  induction rs as [|r rs IH]; [cbn; lia|].
  rewrite hi_lo_sum_cons. cbn [length]. destruct r; cbn [hi_lo]; lia.
Qed.
End CountingShoe.

(** X17. Hi-Lo is balanced over the shoe: a count started at 0 (fresh or just
    reset) is 0 again after every card of a shoe of any number of decks has
    been seen once, in whatever order, and [cards_seen] is then the size of
    the shoe. *)
Theorem hi_lo_balanced_over_shoe :
  forall (n : nat) (cs : list Card.t) (self : CardCountingStrategy.t),
    Permutation cs (Deck.fill n) ->
    CardCountingStrategy.get_running_count
      (CardCountingStrategy.observe CardCountingStrategy.init cs) = 0 /\
    CardCountingStrategy.get_running_count
      (CardCountingStrategy.observe (CardCountingStrategy.reset self) cs) = 0 /\
    CardCountingStrategy._cards_seen
      (CardCountingStrategy.observe CardCountingStrategy.init cs)
    = 52 * Z.of_nat n.
Proof.
  intros n cs self Hperm.
  assert (Hsum : hi_lo_sum (map Card.rank cs) = 0).
  { rewrite (hi_lo_sum_perm _ (map Card.rank (Deck.fill n))).
    - apply fill_hi_lo.
    - now apply Permutation_map. }
  unfold CardCountingStrategy.get_running_count.
  rewrite !observe_running_count, Hsum, observe_cards_seen.
  rewrite (Permutation_length Hperm), fill_length.
  cbn [CardCountingStrategy.init CardCountingStrategy.reset
       CardCountingStrategy._running_count CardCountingStrategy._cards_seen].
  repeat split; lia.
Qed.

Lemma hi_lo_balanced_over_shoe_witness :
  CardCountingStrategy.get_running_count
    (CardCountingStrategy.observe CardCountingStrategy.init
                                  (rev (Deck.fill 2))) = 0.
Proof.
  apply (hi_lo_balanced_over_shoe 2 (rev (Deck.fill 2))
                                  CardCountingStrategy.init).
  apply Permutation_sym, Permutation_rev.
Defined.

(** X18. [cards_seen] counts the calls of [update_count] and the running
    count moves by at most one per card: after any cards the counter has
    grown by their number and the count has moved by no more than that.  A
    call with [None] raises [AttributeError] after the counter was
    incremented, and leaves the count alone. *)
Theorem counting_tracks_cards_seen :
  forall (self : CardCountingStrategy.t) (cs : list Card.t),
    CardCountingStrategy._cards_seen (CardCountingStrategy.observe self cs)
    = CardCountingStrategy._cards_seen self + Z.of_nat (length cs) /\
    Z.abs (CardCountingStrategy._running_count
             (CardCountingStrategy.observe self cs)
           - CardCountingStrategy._running_count self)
    <= Z.of_nat (length cs) /\
    CardCountingStrategy.update_count self None
    = (Err AttributeError,
       CardCountingStrategy.mk
         (CardCountingStrategy._running_count self)
         (CardCountingStrategy._cards_seen self + 1)).
Proof.
  intros self cs. split; [apply observe_cards_seen|]. split; [|reflexivity].
  rewrite observe_running_count.
  pose proof (hi_lo_sum_bound (map Card.rank cs)) as H.
  rewrite length_map in H. lia.
Qed.

(** ** Session statistics *)

Section Stats.
Variable datetime : Type.

Let record := Statistics.GameRecord datetime.
Let stats := Statistics.t datetime.

Lemma sum_over_snoc (f : record -> Z) (p : record -> bool)
      (rs : list record) (r : record) :
  sum_over datetime f p (rs ++ [r])
  = sum_over datetime f p rs + (if p r then f r else 0).
Proof.
  unfold sum_over. induction rs as [|x rs IH]; cbn [app fold_right]; lia.
Qed.

Lemma record_all_snoc (s : stats) (rs : list record) (r : record) :
  Statistics.record_all datetime s (rs ++ [r])
  = Statistics.record_game datetime (Statistics.record_all datetime s rs) r.
Proof. unfold Statistics.record_all. now rewrite fold_left_app. Qed.

Lemma record_all_totals (rs : list record) :
  let s := Statistics.record_all datetime (Statistics.init datetime) rs in
  Statistics.games datetime s = rs /\
  Statistics.total_wagered datetime s
  = sum_over datetime (Statistics.bet datetime) (fun _ => true) rs /\
  Statistics.total_won datetime s
  = sum_over datetime (Statistics.payout datetime)
             (is_result datetime "win"%string) rs /\
  Statistics.total_lost datetime s
  = sum_over datetime (Statistics.bet datetime)
             (is_result datetime "loss"%string) rs.
Proof.
  induction rs as [|r rs IH] using rev_ind; [cbn; auto|].
  cbv zeta in *. rewrite record_all_snoc, !sum_over_snoc.
  destruct IH as (Hg & Hw & Hwon & Hlost).
  unfold Statistics.record_game.
  replace (is_result datetime "win"%string r)
    with (String.eqb (Statistics.result datetime r) "win"%string)
    by reflexivity.
  replace (is_result datetime "loss"%string r)
    with (String.eqb (Statistics.result datetime r) "loss"%string)
    by reflexivity.
  destruct (String.eqb (Statistics.result datetime r) "win"%string) eqn:Ew.
  - cbn [Statistics.games Statistics.total_wagered Statistics.total_won
         Statistics.total_lost].
    assert (El : String.eqb (Statistics.result datetime r) "loss"%string = false).
    { apply String.eqb_eq in Ew. rewrite Ew. reflexivity. }
    rewrite El, Hg, Hw, Hwon, Hlost. cbv beta iota. repeat split; lia.
  - destruct (String.eqb (Statistics.result datetime r) "loss"%string) eqn:El;
      cbn [Statistics.games Statistics.total_wagered Statistics.total_won
           Statistics.total_lost];
      rewrite Hg, Hw, Hwon, Hlost; cbv beta iota; repeat split; lia.
Qed.
End Stats.

Section StatsCounts.
Variable datetime : Type.

Let record := Statistics.GameRecord datetime.

Lemma result_counts (rs : list record) :
  let n p := length (filter p rs) in
  let total := (n (is_result datetime "win"%string)
                + n (is_result datetime "loss"%string)
                + n (is_result datetime "push"%string))%nat in
  (total <= length rs)%nat /\
  ((forall r, In r rs ->
              In (Statistics.result datetime r)
                 ["win"%string; "loss"%string; "push"%string]) ->
   total = length rs).
Proof.
  cbv zeta. induction rs as [|r rs [IHle IHeq]]; [cbn; auto|].
  cbn [filter].
  replace (is_result datetime "win"%string r)
    with (String.eqb (Statistics.result datetime r) "win"%string)
    by reflexivity.
  replace (is_result datetime "loss"%string r)
    with (String.eqb (Statistics.result datetime r) "loss"%string)
    by reflexivity.
  replace (is_result datetime "push"%string r)
    with (String.eqb (Statistics.result datetime r) "push"%string)
    by reflexivity.
  assert (Htail : (forall x, In x (r :: rs) ->
                     In (Statistics.result datetime x)
                        ["win"%string; "loss"%string; "push"%string]) ->
                  forall x, In x rs ->
                     In (Statistics.result datetime x)
                        ["win"%string; "loss"%string; "push"%string]).
  { intros H x Hx. apply H. now right. }
  destruct (String.eqb_spec (Statistics.result datetime r) "win"%string)
    as [Ew|Ew];
    [|destruct (String.eqb_spec (Statistics.result datetime r) "loss"%string)
        as [El|El];
      [|destruct (String.eqb_spec (Statistics.result datetime r) "push"%string)
          as [Ep|Ep]]].
  - rewrite Ew. cbn [String.eqb Ascii.eqb Bool.eqb length].
    split; [lia|]. intros H. specialize (IHeq (Htail H)). lia.
  - rewrite El. cbn [String.eqb Ascii.eqb Bool.eqb length].
    split; [lia|]. intros H. specialize (IHeq (Htail H)). lia.
  - cbn [length]. split; [lia|].
    intros H. specialize (IHeq (Htail H)). lia.
  - cbn [length]. split; [lia|]. intros H. exfalso.
    specialize (H r (or_introl eq_refl)). cbn [In] in H.
    destruct H as [H|[H|[H|[]]]]; congruence.
Qed.
End StatsCounts.

(** X19. Starting from [Statistics()], after any records were recorded:
    [games_played] is their number, [total_wagered] the sum of all bets,
    [total_won] the sum of the payouts of the wins and [total_lost] the sum
    of the bets of the losses, so [net_profit] is their difference; wins,
    losses and pushes together never exceed [games_played], and they add up
    to it when every result is "win", "loss" or "push". *)
Theorem statistics_totals :
  forall (datetime : Type) (rs : list (Statistics.GameRecord datetime)),
    let s := Statistics.record_all datetime (Statistics.init datetime) rs in
    Statistics.games_played datetime s = Z.of_nat (length rs) /\
    Statistics.total_wagered datetime s
    = sum_over datetime (Statistics.bet datetime) (fun _ => true) rs /\
    Statistics.net_profit datetime s
    = sum_over datetime (Statistics.payout datetime)
               (is_result datetime "win"%string) rs
      - sum_over datetime (Statistics.bet datetime)
                 (is_result datetime "loss"%string) rs /\
    Statistics.wins datetime s + Statistics.losses datetime s
    + Statistics.pushes datetime s <= Statistics.games_played datetime s /\
    ((forall r, In r rs ->
                In (Statistics.result datetime r)
                   ["win"%string; "loss"%string; "push"%string]) ->
     Statistics.wins datetime s + Statistics.losses datetime s
     + Statistics.pushes datetime s = Statistics.games_played datetime s).
Proof.
  intros datetime rs s.
  destruct (record_all_totals datetime rs) as (Hg & Hw & Hwon & Hlost).
  fold s in Hg, Hw, Hwon, Hlost.
  destruct (result_counts datetime rs) as [Hle Heq]. cbv zeta in Hle, Heq.
  unfold Statistics.games_played, Statistics.net_profit, Statistics.wins,
    Statistics.losses, Statistics.pushes, Statistics.count_games.
  rewrite Hg, Hw, Hwon, Hlost.
  fold (is_result datetime "win"%string).
  fold (is_result datetime "loss"%string).
  fold (is_result datetime "push"%string).
  repeat split; try lia.
  intros H. specialize (Heq H). lia.
Qed.

(** ** Rounds *)

Section Rounds.
Lemma ask_strategy_state (g : Game.t) :
  Game.ask_strategy g = (fst (Game.ask_strategy g), g).
Proof. reflexivity. Qed.

(** One pass of the player's loop. *)
Lemma player_turn_S (n : nat) (g : Game.t) :
  Game.player_turn (S n) g
  = match Hand.value (Player.hand (Game.player g)) with
    | Err e => (Raise e, g)
    | Ok v =>
        if v <? 21 then
          match fst (Game.ask_strategy g) with
          | Return HIT => Game.player_turn n (snd (Game.player_hit g))
          | Return DOUBLE_DOWN => (Return tt, doubled g)
          | Return _ => (Return tt, g)
          | Raise e => (Raise e, g)
          | OutOfFuel => (OutOfFuel, g)
          end
        else (Return tt, g)
    end.
Proof.
  cbn [Game.player_turn]. unfold Game.bind at 1. unfold Game.read at 1.
  destruct (Hand.value (Player.hand (Game.player g))) as [v|e];
    cbn [outcome_of]; [|reflexivity].
  destruct (v <? 21); [|reflexivity].
  unfold Game.bind at 1. rewrite (ask_strategy_state g).
  destruct (fst (Game.ask_strategy g)) as [a|e|]; try reflexivity.
  destruct a; try reflexivity.
  - unfold Game.bind at 1.
    destruct (player_hit_run g) as (Hrun & _). now rewrite Hrun.
  - unfold doubled.
    unfold Game.bind at 1. unfold Game.get at 1. cbv beta iota.
    unfold Game.bind at 1. unfold Game.player_place_bet at 1.
    destruct (Player.place_bet (Game.player g) (Game.bet g)) as [ok p1].
    cbn [snd]. unfold Game.bind at 1.
    destruct (player_hit_run (Game.set_player g p1)) as [-> _].
    reflexivity.
Qed.

Lemma deals_deals (a : nat) : forall (b : nat) (d : Deck.t),
  Deck.deals b (Deck.deals a d) = Deck.deals (a + b) d.
Proof.
  induction a as [|a IH]; intros b d; [reflexivity|].
  cbn [Deck.deals Nat.add]. apply IH.
Qed.

(** The state after DOUBLE_DOWN, field by field. *)
Lemma doubled_run (g : Game.t) :
  Game.dealer (doubled g) = Game.dealer g /\
  Game.bet (doubled g) = Game.bet g /\
  Game.num_decks (doubled g) = Game.num_decks g /\
  Game.deck (doubled g) = Deck.deals 1 (Game.deck g) /\
  Player.strategy (Game.player (doubled g)) = Player.strategy (Game.player g) /\
  Hand._cards (Player.hand (Game.player (doubled g)))
  = Hand._cards (Player.hand (Game.player g))
    ++ [fst (Deck.deal (Game.deck g))] /\
  (Player.bankroll (Game.player (doubled g)) = Player.bankroll (Game.player g) \/
   Player.bankroll (Game.player (doubled g))
   = Player.bankroll (Game.player g) - Game.bet g /\
   Game.bet g <= Player.bankroll (Game.player g)).
Proof.
  unfold doubled. run_controller. unfold Player.place_bet.
  destruct (Z.ltb_spec (Player.bankroll (Game.player g)) (Game.bet g));
    simp_game; destruct (Deck.deal (Game.deck g)) as [o d] eqn:E;
    simp_game; cbn [Deck.deals]; rewrite ?E; cbn [snd fst];
    repeat split; auto.
Qed.

Lemma player_hit_fields (g : Game.t) :
  Game.num_decks (snd (Game.player_hit g)) = Game.num_decks g /\
  Player.strategy (Game.player (snd (Game.player_hit g)))
  = Player.strategy (Game.player g).
Proof.
  run_controller. destruct (Deck.deal (Game.deck g)) as [o d].
  simp_game. auto.
Qed.

(** The player's turn touches neither the dealer nor the bet; it only takes
    cards off the shoe, one for each entry it appends to the player's hand,
    and it deducts one more bet at most. *)
Lemma player_turn_frame (n : nat) :
  forall g o g',
    Game.player_turn n g = (o, g') ->
    Game.dealer g' = Game.dealer g /\
    Game.bet g' = Game.bet g /\
    Game.num_decks g' = Game.num_decks g /\
    Player.strategy (Game.player g') = Player.strategy (Game.player g) /\
    (exists more,
        Hand._cards (Player.hand (Game.player g'))
        = Hand._cards (Player.hand (Game.player g)) ++ more /\
        Game.deck g' = Deck.deals (length more) (Game.deck g)) /\
    (Player.bankroll (Game.player g') = Player.bankroll (Game.player g) \/
     Player.bankroll (Game.player g')
     = Player.bankroll (Game.player g) - Game.bet g /\
     Game.bet g <= Player.bankroll (Game.player g)).
Proof.
  assert (Hsame : forall g : Game.t,
             Game.dealer g = Game.dealer g /\
             Game.bet g = Game.bet g /\
             Game.num_decks g = Game.num_decks g /\
             Player.strategy (Game.player g) = Player.strategy (Game.player g) /\
             (exists more,
                 Hand._cards (Player.hand (Game.player g))
                 = Hand._cards (Player.hand (Game.player g)) ++ more /\
                 Game.deck g = Deck.deals (length more) (Game.deck g)) /\
             (Player.bankroll (Game.player g) = Player.bankroll (Game.player g) \/
              Player.bankroll (Game.player g)
              = Player.bankroll (Game.player g) - Game.bet g /\
              Game.bet g <= Player.bankroll (Game.player g))).
  { intros g. repeat split; auto. exists []. now rewrite app_nil_r. }
  induction n as [|n IH]; intros g o g' H.
  - cbn in H. injection H as <- <-. apply Hsame.
  - rewrite player_turn_S in H.
    destruct (Hand.value (Player.hand (Game.player g))) as [v|e];
      [|injection H as <- <-; apply Hsame].
    destruct (v <? 21); [|injection H as <- <-; apply Hsame].
    destruct (fst (Game.ask_strategy g)) as [a|e|];
      try (injection H as <- <-; apply Hsame).
    destruct a; try (injection H as <- <-; apply Hsame).
    + destruct (IH _ _ _ H) as (Hd & Hb & Hn & Hs & (more & Hc & Hk) & Hm).
      destruct (player_hit_run g) as (_ & Hd' & Hb' & Hk' & Hm' & _ & Hc').
      destruct (player_hit_fields g) as (Hn' & Hs').
      do 4 (split; [congruence|]). split.
      * exists (fst (Deck.deal (Game.deck g)) :: more).
        rewrite Hc, Hc', <- app_assoc. split; [reflexivity|].
        rewrite Hk, Hk'. cbn [length Deck.deals]. reflexivity.
      * rewrite Hm', Hb' in Hm. exact Hm.
    + injection H as <- <-.
      destruct (doubled_run g) as (Hd & Hb & Hn & Hk & Hs & Hc & Hm).
      repeat split; auto.
      exists [fst (Deck.deal (Game.deck g))]. split; [exact Hc | exact Hk].
Qed.

(** The dealer's turn takes one card off the shoe for each entry it appends
    to the dealer's hand. *)
Lemma dealer_turn_deals (n : nat) :
  forall g o g',
    Game.dealer_turn n g = (o, g') ->
    Game.num_decks g' = Game.num_decks g /\
    exists more,
      Hand._cards (Dealer.hand (Game.dealer g'))
      = Hand._cards (Dealer.hand (Game.dealer g)) ++ more /\
      Game.deck g' = Deck.deals (length more) (Game.deck g).
Proof.
  assert (Hnum : forall g, Game.num_decks (snd (Game.dealer_hit g))
                           = Game.num_decks g).
  { intros g. run_controller. destruct (Deck.deal (Game.deck g)) as [o d].
    reflexivity. }
  induction n as [|n IH]; intros g o g' H.
  - cbn in H. injection H as <- <-. split; [reflexivity|].
    exists []. now rewrite app_nil_r.
  - rewrite dealer_turn_S in H.
    destruct (Dealer.should_hit (Game.dealer g)) as [[|]|e];
      try (injection H as <- <-; split; [reflexivity|];
           exists []; now rewrite app_nil_r).
    destruct (IH _ _ _ H) as (Hn & more & Hc & Hk).
    destruct (dealer_hit_run g) as (_ & _ & _ & Hk' & Hc').
    split; [rewrite Hn; apply Hnum|].
    exists (fst (Deck.deal (Game.deck g)) :: more).
    rewrite Hc, Hc', <- app_assoc. split; [reflexivity|].
    rewrite Hk, Hk'. reflexivity.
Qed.

(** How [play_round] comes to return. *)
Lemma play_round_returns (g g' : Game.t) (r : round_result) :
  Game.play_round g = (Return r, g') ->
  exists g1 v,
    Game.player_turn (Game.loop_bound g) g = (Return tt, g1) /\
    Hand.value (Player.hand (Game.player g1)) = Ok v /\
    ((21 < v /\ r = loss /\ g' = g1) \/
     (v <= 21 /\
      exists g2,
        Game.dealer_turn (Game.loop_bound g1) g1 = (Return tt, g2) /\
        Game._determine_winner g2 = (Return r, g'))).
Proof.
  unfold Game.play_round. unfold Game.bind at 1. unfold Game.get at 1.
  cbv beta iota. unfold Game.bind at 1.
  destruct (Game.player_turn (Game.loop_bound g) g) as [[[]|e|] g1];
    try discriminate.
  unfold Game.bind at 1. unfold Game.read at 1.
  destruct (Hand.value (Player.hand (Game.player g1))) as [v|e] eqn:Ev;
    cbn [outcome_of]; [|discriminate].
  destruct (Z.ltb_spec 21 v) as [Hgt|Hle].
  - intros H. injection H as <- <-. exists g1, v.
    split; [reflexivity|]. split; [exact Ev|]. left. auto.
  - unfold Game.bind at 1. unfold Game.get at 1. cbv beta iota.
    unfold Game.bind at 1.
    destruct (Game.dealer_turn (Game.loop_bound g1) g1) as [[[]|e|] g2] eqn:Ed;
      try discriminate.
    intros H. exists g1, v. split; [reflexivity|]. split; [exact Ev|].
    right. split; [exact Hle|]. exists g2. split; [exact Ed | exact H].
Qed.
End Rounds.

Section RoundFacts.
Lemma deal_length (d : Deck.t) :
  length (Deck._cards (snd (Deck.deal d))) = Nat.pred (length (Deck._cards d)) /\
  (fst (Deck.deal d) = None <-> length (Deck._cards d) = 0%nat).
Proof.
  destruct (deal_cases d) as [[Hnil ->]|(rest & c & Hc & ->)];
    cbn [fst snd Deck._cards].
  - rewrite Hnil. cbn. tauto.
  - rewrite Hc, length_app. cbn [length]. split; [lia|].
    split; [discriminate | lia].
Qed.

(** [start_round] with the bet covered: what the state is when the call on
    the [is_blackjack] property raises. *)
Lemma start_round_after_deal (g : Game.t) :
  Game.bet g <= Player.bankroll (Game.player g) ->
  exists e g',
    Game.start_round g = (Raise e, g') /\
    Game.deck g' = Deck.deals 4 (Game.deck g) /\
    Game.bet g' = Game.bet g /\
    Game.num_decks g' = Game.num_decks g /\
    Player.bankroll (Game.player g')
    = Player.bankroll (Game.player g) - Game.bet g /\
    Player.current_bet (Game.player g') = 0 /\
    (length (Deck._cards (Game.deck g)) < 4 -> e = AttributeError)%nat /\
    (4 <= length (Deck._cards (Game.deck g)) -> e = TypeError)%nat.
Proof.
  intros Hbet. destruct g as [p dl dk b nd ra io].
  cbn [Game.player Game.bet Game.deck Game.num_decks] in *.
  assert (Hlt : (Player.bankroll p <? b) = false) by (apply Z.ltb_ge; lia).
  unfold Game.start_round. run_controller. unfold Player.place_bet.
  simp_game. rewrite Hlt. simp_game. rewrite Hlt. simp_game.
  cbn [Deck.deals].
  destruct (deal_length dk) as [Hl1 Hn1].
  destruct (Deck.deal dk) as [o1 d1]. cbn [fst snd] in *. simp_game.
  destruct (deal_length d1) as [Hl2 Hn2].
  destruct (Deck.deal d1) as [o2 d2]. cbn [fst snd] in *. simp_game.
  destruct (deal_length d2) as [Hl3 Hn3].
  destruct (Deck.deal d2) as [o3 d3]. cbn [fst snd] in *. simp_game.
  destruct (deal_length d3) as [Hl4 Hn4].
  destruct (Deck.deal d3) as [o4 d4]. cbn [fst snd] in *. simp_game.
  destruct o2 as [c2|]; [destruct o4 as [c4|]|].
  - change (Hand.add_card (Hand.add_card Hand.empty (Some c2)) (Some c4))
      with (Hand.of_cards [c2; c4] false false false).
    rewrite is_blackjack_cards. simp_game.
    do 2 eexists. split; [reflexivity|]. simp_game.
    repeat split; auto. intros Hshort. exfalso.
    assert (length (Deck._cards d3) <> 0%nat)
      by (intros H0; apply Hn4 in H0; discriminate).
    lia.
  - assert (He : Hand.is_blackjack
                   (Hand.add_card (Hand.add_card Hand.empty (Some c2)) None)
                 = Err AttributeError).
    { apply two_entries_none; cbn; auto. }
    rewrite He. simp_game.
    do 2 eexists. split; [reflexivity|]. simp_game.
    repeat split; auto. intros Hlong. exfalso.
    assert (length (Deck._cards d3) = 0%nat) by now apply Hn4.
    lia.
  - assert (He : Hand.is_blackjack
                   (Hand.add_card (Hand.add_card Hand.empty None) o4)
                 = Err AttributeError).
    { apply two_entries_none; cbn; auto. }
    rewrite He. simp_game.
    do 2 eexists. split; [reflexivity|]. simp_game.
    repeat split; auto. intros Hlong. exfalso.
    assert (length (Deck._cards d1) = 0%nat) by now apply Hn2.
    lia.
Qed.
End RoundFacts.

Section Settlement.
(** How [_determine_winner] comes to return, and what it changes. *)
Lemma determine_winner_returns (g g' : Game.t) (r : round_result) :
  Game._determine_winner g = (Return r, g') ->
  exists pv dv,
    Hand.value (Player.hand (Game.player g)) = Ok pv /\
    Hand.value (Dealer.hand (Game.dealer g)) = Ok dv /\
    ((r = win /\ (21 < dv \/ dv < pv) /\
      g' = Game.set_player g (Player.win (Game.player g) (Game.bet g * 2))) \/
     (r = loss /\ dv <= 21 /\ pv < dv /\ g' = g) \/
     (r = push /\ dv <= 21 /\ pv = dv /\
      g' = Game.set_player g (Player.win (Game.player g) (Game.bet g)))).
Proof.
  intros H.
  destruct (Hand.value (Player.hand (Game.player g))) as [pv|e] eqn:Ep.
  - destruct (Hand.value (Dealer.hand (Game.dealer g))) as [dv|e] eqn:Ed.
    + rewrite (determine_winner_run g pv dv Ep Ed) in H.
      exists pv, dv. split; [reflexivity|]. split; [reflexivity|].
      destruct (Z.ltb_spec 21 dv); [|destruct (Z.ltb_spec dv pv);
                                      [|destruct (Z.ltb_spec pv dv)]];
        injection H as <- <-.
      * left. auto.
      * left. auto.
      * right. left. auto.
      * right. right. repeat split; auto; lia.
    + revert H. unfold Game._determine_winner. run_controller.
      rewrite Ep, Ed. discriminate.
  - revert H. unfold Game._determine_winner. run_controller.
    rewrite Ep. discriminate.
Qed.

Lemma determine_winner_frame (g : Game.t) :
  let g' := snd (Game._determine_winner g) in
  Game.deck g' = Game.deck g /\
  Game.dealer g' = Game.dealer g /\
  Game.bet g' = Game.bet g /\
  Game.num_decks g' = Game.num_decks g /\
  Player.hand (Game.player g') = Player.hand (Game.player g).
Proof.
  unfold Game._determine_winner. run_controller.
  destruct (Hand.value (Player.hand (Game.player g))) as [pv|e];
    cbn [outcome_of snd]; [|auto].
  destruct (Hand.value (Dealer.hand (Game.dealer g))) as [dv|e];
    cbn [outcome_of snd]; [|auto].
  split_ifs; cbn; auto.
Qed.

(** A dealer who starts a turn below 17 and ends it without an exception
    ends on 17 to 26. *)
Lemma dealer_turn_range (n : nat) :
  forall g g' v,
    Game.dealer_turn n g = (Return tt, g') ->
    Hand.value (Dealer.hand (Game.dealer g)) = Ok v ->
    v < 17 ->
    exists dv,
      Hand.value (Dealer.hand (Game.dealer g')) = Ok dv /\ 17 <= dv <= 26.
Proof.
  induction n as [|n IH]; intros g g' v H Hv Hlt; [discriminate|].
  rewrite dealer_turn_S, (should_hit_value _ _ Hv) in H.
  destruct (Z.ltb_spec v 17) as [_|?]; [|lia].
  set (g1 := snd (Game.dealer_hit g)) in *.
  destruct (dealer_hit_run g) as (_ & _ & _ & _ & Hcards). fold g1 in Hcards.
  destruct (value_returns_cards _ _ Hv) as [cs Hh].
  destruct (fst (Deck.deal (Game.deck g))) as [c|] eqn:Ec.
  - assert (Hh1 : Hand.value (Dealer.hand (Game.dealer g1))
                  = Ok (Hand.demote_loop (count_aces (cs ++ [c]))
                                         (naive_sum (cs ++ [c])))).
    { unfold Hand.value. rewrite Hcards, Hh. cbn [Hand._cards Hand.of_cards].
      change [Some c] with (map Some [c]). rewrite <- map_app.
      now rewrite sum_loop_cards. }
    rewrite Hh, value_of_cards in Hv. injection Hv as Hv.
    destruct (snoc_value_facts cs c) as (_ & _ & Hup & Hbust).
    cbv zeta in Hup, Hbust. rewrite Hv in Hup, Hbust.
    set (v1 := Hand.demote_loop (count_aces (cs ++ [c]))
                                (naive_sum (cs ++ [c]))) in *.
    destruct (Z.lt_ge_cases v1 17) as [Hlow|Hhigh].
    + eapply IH; eauto.
    + destruct n as [|n]; [discriminate|].
      rewrite dealer_turn_S, (should_hit_value _ _ Hh1) in H.
      destruct (Z.ltb_spec v1 17) as [?|_]; [lia|].
      injection H as <-. exists v1. split; [exact Hh1|].
      destruct (Z.lt_ge_cases 21 v1); [specialize (Hbust ltac:(lia))|]; lia.
  - destruct n as [|n]; [discriminate|].
    rewrite dealer_turn_S in H. unfold Dealer.should_hit in H.
    rewrite value_none in H; [discriminate|].
    rewrite Hcards. apply in_or_app. right. now left.
Qed.
End Settlement.

(** X20. With the bet covered and fewer than four cards in the shoe,
    [start_round] still deducts the bet and deals what is there, [None]
    included, and then raises [AttributeError]; the shoe is left empty, and
    [play_auto] raises the same. *)
Theorem start_round_on_short_shoe :
  forall g : Game.t,
    Game.bet g <= Player.bankroll (Game.player g) ->
    (length (Deck._cards (Game.deck g)) < 4)%nat ->
    exists g' : Game.t,
      Game.start_round g = (Raise AttributeError, g') /\
      Game.play_auto g = (Raise AttributeError, g') /\
      Player.bankroll (Game.player g')
      = Player.bankroll (Game.player g) - Game.bet g /\
      Deck._cards (Game.deck g') = [].
Proof.
  intros g Hbet Hshort.
  destruct (start_round_after_deal g Hbet)
    as (e & g' & Hstart & Hdeck & _ & _ & Hbank & _ & He & _).
  rewrite (He Hshort) in Hstart. exists g'.
  split; [exact Hstart|]. split; [now apply play_auto_of_raise|].
  split; [exact Hbank|]. rewrite Hdeck.
  assert (Hlen : forall d, length (Deck._cards (Deck.deals 4 d))
                           = (length (Deck._cards d) - 4)%nat).
  { intros d. cbn [Deck.deals].
    destruct (deal_length d) as [H1 _].
    destruct (deal_length (snd (Deck.deal d))) as [H2 _].
    destruct (deal_length (snd (Deck.deal (snd (Deck.deal d))))) as [H3 _].
    destruct (deal_length
                (snd (Deck.deal (snd (Deck.deal (snd (Deck.deal d)))))))
      as [H4 _].
    lia. }
  specialize (Hlen (Game.deck g)).
  destruct (Deck._cards (Deck.deals 4 (Game.deck g))); [reflexivity|].
  cbn [length] in Hlen. lia.
Qed.

Lemma start_round_on_short_shoe_witness :
  exists g' : Game.t,
    Game.start_round
      (Game.mk (Player.init 1000 Basic) Dealer.init
               (Deck.mk 1 [Card.mk KING HEARTS; Card.mk NINE DIAMONDS;
                           Card.mk ACE SPADES] [])
               10 1 false false)
    = (Raise AttributeError, g') /\
    Player.bankroll (Game.player g') = 990.
Proof.
  destruct (start_round_on_short_shoe
              (Game.mk (Player.init 1000 Basic) Dealer.init
                       (Deck.mk 1 [Card.mk KING HEARTS; Card.mk NINE DIAMONDS;
                                   Card.mk ACE SPADES] [])
                       10 1 false false))
    as (g' & Hstart & _ & Hbank & _).
  - cbn. lia.
  - cbn. lia.
  - exists g'. split; [exact Hstart | exact Hbank].
Defined.

(** X21. In the player's loop only HIT and DOUBLE_DOWN do anything: on a
    hand worth 21 or more the loop ends without asking the strategy, and on
    STAND, SPLIT, SURRENDER or INSURANCE it ends at once, with the game as
    it was (no second hand is made for a SPLIT, no bet moves). *)
Theorem player_turn_stands_on_other_actions :
  forall (n : nat) (g : Game.t) (v : Z),
    Hand.value (Player.hand (Game.player g)) = Ok v ->
    (21 <= v \/
     exists a, fst (Game.ask_strategy g) = Return a /\
               a <> HIT /\ a <> DOUBLE_DOWN) ->
    Game.player_turn (S n) g = (Return tt, g).
Proof.
  intros n g v Hv H. rewrite player_turn_S, Hv.
  destruct (Z.ltb_spec v 21) as [Hlt|_]; [|reflexivity].
  destruct H as [?|(a & -> & Hhit & Hdd)]; [lia|].
  destruct a; try reflexivity; contradiction.
Qed.

Lemma player_turn_stands_on_other_actions_witness :
  Game.player_turn 3
    (Game.mk (Player.mk 990 1000 Basic
                (Hand.of_cards [Card.mk EIGHT SPADES; Card.mk EIGHT HEARTS]
                               false false false) [] 0)
             (Dealer.mk (Hand.of_cards [Card.mk TEN CLUBS; Card.mk SIX CLUBS]
                                       false false false))
             (Deck.mk 1 [Card.mk NINE DIAMONDS; Card.mk ACE SPADES] [])
             10 1 true false)
  = (Return tt,
     Game.mk (Player.mk 990 1000 Basic
                (Hand.of_cards [Card.mk EIGHT SPADES; Card.mk EIGHT HEARTS]
                               false false false) [] 0)
             (Dealer.mk (Hand.of_cards [Card.mk TEN CLUBS; Card.mk SIX CLUBS]
                                       false false false))
             (Deck.mk 1 [Card.mk NINE DIAMONDS; Card.mk ACE SPADES] [])
             10 1 true false).
Proof.
  apply (player_turn_stands_on_other_actions 2 _ 16).
  - reflexivity.
  - right. exists SPLIT. repeat split; discriminate.
Defined.

(** X22. The verdict of a round that runs to its end agrees with the hands
    it ends with.  "loss": the player is bust and the dealer did not play,
    or the dealer stands on 17 to 21 above the player.  "win": the player
    is not bust and the dealer is bust or below the player.  "push": both
    stand on the same value, 17 to 21.  The dealer never ends below 17. *)
Theorem round_verdict_matches_hands :
  forall (g g' : Game.t) (r : round_result),
    Game.play_round g = (Return r, g') ->
    exists pv : Z,
      Hand.value (Player.hand (Game.player g')) = Ok pv /\
      match r with
      | loss =>
          (21 < pv /\ Game.dealer g' = Game.dealer g) \/
          (pv <= 21 /\
           exists dv, Hand.value (Dealer.hand (Game.dealer g')) = Ok dv /\
                      17 <= dv <= 21 /\ pv < dv)
      | win =>
          pv <= 21 /\
          exists dv, Hand.value (Dealer.hand (Game.dealer g')) = Ok dv /\
                     17 <= dv /\ (21 < dv \/ dv < pv)
      | push =>
          17 <= pv <= 21 /\
          Hand.value (Dealer.hand (Game.dealer g')) = Ok pv
      end.
Proof.
  intros g g' r H.
  destruct (play_round_returns g g' r H)
    as (g1 & v & Hturn & Hv & [(Hbust & -> & ->)|(Hok & g2 & Hdealer & Hwin)]).
  - exists v. split; [exact Hv|]. left. split; [exact Hbust|].
    now destruct (player_turn_frame _ _ _ _ Hturn) as (Hd & _).
  - destruct (dealer_turn_frame _ _ _ _ Hdealer) as (Hpl & _ & _).
    destruct (should_hit_false _ (dealer_turn_stands _ _ _ Hdealer))
      as (dv0 & Hdv0 & Hge).
    destruct (determine_winner_returns g2 g' r Hwin)
      as (pv & dv & Hpv & Hdv & Hcase).
    rewrite Hpl, Hv in Hpv. injection Hpv as <-.
    rewrite Hdv0 in Hdv. injection Hdv as <-.
    exists v.
    destruct Hcase as [(-> & Hc & ->)|[(-> & Hc1 & Hc2 & ->)|(-> & Hc1 & Hc2 & ->)]];
      cbn [Game.set_player Game.player Game.dealer Player.win Player.hand];
      rewrite ?Hpl.
    + split; [exact Hv|]. split; [exact Hok|]. exists dv0. auto.
    + split; [exact Hv|]. right. split; [exact Hok|]. exists dv0.
      repeat split; auto; lia.
    + split; [exact Hv|]. subst dv0. split; [lia | exact Hdv0].
Qed.

Lemma round_verdict_matches_hands_witness :
  exists pv : Z,
    Hand.value
      (Player.hand
         (Game.player
            (snd (Game.play_round
                    (Game.mk (Player.mk 990 1000 Conservative
                                (Hand.of_cards [Card.mk TEN SPADES;
                                                Card.mk NINE HEARTS]
                                               false false false) [] 0)
                             (Dealer.mk (Hand.of_cards [Card.mk TEN CLUBS;
                                                        Card.mk SIX CLUBS]
                                                       false false false))
                             (Deck.mk 1 [Card.mk NINE DIAMONDS;
                                         Card.mk TWO SPADES] [])
                             10 1 true false)))))
    = Ok pv /\ pv <= 21.
Proof.
  destruct (round_verdict_matches_hands
              (Game.mk (Player.mk 990 1000 Conservative
                          (Hand.of_cards [Card.mk TEN SPADES; Card.mk NINE HEARTS]
                                         false false false) [] 0)
                       (Dealer.mk (Hand.of_cards [Card.mk TEN CLUBS;
                                                  Card.mk SIX CLUBS]
                                                 false false false))
                       (Deck.mk 1 [Card.mk NINE DIAMONDS; Card.mk TWO SPADES] [])
                       10 1 true false)
              _ win eq_refl) as (pv & Hpv & Hle & _).
  exists pv. split; [exact Hpv | exact Hle].
Defined.

(** X23. What a round that runs to its end does to the bankroll: at most one
    more bet is deducted (by a double, and only if the bankroll covers it),
    and then "win" adds twice the base bet, "push" the base bet and "loss"
    nothing.  The base bet itself is not changed. *)
Theorem round_moves_money_by_the_bet :
  forall (g g' : Game.t) (r : round_result),
    Game.play_round g = (Return r, g') ->
    exists stake : Z,
      (stake = 0 \/
       stake = Game.bet g /\ Game.bet g <= Player.bankroll (Game.player g)) /\
      Player.bankroll (Game.player g')
      = Player.bankroll (Game.player g) - stake
        + match r with
          | win => Game.bet g * 2
          | push => Game.bet g
          | loss => 0
          end /\
      Game.bet g' = Game.bet g.
Proof.
  intros g g' r H.
  destruct (play_round_returns g g' r H)
    as (g1 & v & Hturn & Hv & Hcase).
  destruct (player_turn_frame _ _ _ _ Hturn) as (_ & Hb1 & _ & _ & _ & Hm).
  assert (Hstake : exists stake,
             (stake = 0 \/
              stake = Game.bet g /\ Game.bet g <= Player.bankroll (Game.player g)) /\
             Player.bankroll (Game.player g1)
             = Player.bankroll (Game.player g) - stake).
  { destruct Hm as [Hm|[Hm Hle]].
    - exists 0. split; [now left | lia].
    - exists (Game.bet g). split; [now right | exact Hm]. }
  destruct Hstake as (stake & Hst & Hbank). exists stake.
  split; [exact Hst|].
  destruct Hcase as [(_ & -> & ->)|(_ & g2 & Hdealer & Hwin)].
  - split; [lia | exact Hb1].
  - destruct (dealer_turn_frame _ _ _ _ Hdealer) as (Hpl & Hb2 & _).
    destruct (determine_winner_returns g2 g' r Hwin)
      as (pv & dv & _ & _ & Hr).
    destruct Hr as [(-> & _ & ->)|[(-> & _ & _ & ->)|(-> & _ & _ & ->)]];
      cbn [Game.set_player Game.player Game.bet Player.win Player.bankroll];
      rewrite ?Hpl, ?Hb2, ?Hb1; split; try reflexivity; lia.
Qed.

Lemma round_moves_money_by_the_bet_witness :
  Player.bankroll
    (Game.player
       (snd (Game.play_round
               (Game.mk (Player.mk 990 1000 Conservative
                           (Hand.of_cards [Card.mk TEN SPADES;
                                           Card.mk NINE HEARTS]
                                          false false false) [] 0)
                        (Dealer.mk (Hand.of_cards [Card.mk TEN CLUBS;
                                                   Card.mk SIX CLUBS]
                                                  false false false))
                        (Deck.mk 1 [Card.mk NINE DIAMONDS;
                                    Card.mk TWO SPADES] [])
                        10 1 true false))))
  = 1010.
Proof.
  destruct (round_moves_money_by_the_bet
              (Game.mk (Player.mk 990 1000 Conservative
                          (Hand.of_cards [Card.mk TEN SPADES; Card.mk NINE HEARTS]
                                         false false false) [] 0)
                       (Dealer.mk (Hand.of_cards [Card.mk TEN CLUBS;
                                                  Card.mk SIX CLUBS]
                                                 false false false))
                       (Deck.mk 1 [Card.mk NINE DIAMONDS; Card.mk TWO SPADES] [])
                       10 1 true false)
              _ win eq_refl) as (stake & _ & _ & _).
  reflexivity.
Defined.

(** X24. The round controller only ever deals from the shoe: whatever
    [play_round] or [play_auto] comes to (a result or an exception), the
    shoe it leaves is the shoe it found after some number of [deal()] calls,
    never reset and never shuffled, so the shoe's count invariant is kept;
    and in [play_round] every one of those deals put exactly one entry into
    the player's or the dealer's hand. *)
Theorem rounds_only_deal :
  forall g : Game.t,
    (exists k : nat,
        Game.deck (snd (Game.play_round g)) = Deck.deals k (Game.deck g) /\
        (length (Hand._cards (Player.hand (Game.player (snd (Game.play_round g)))))
         + length (Hand._cards (Dealer.hand (Game.dealer (snd (Game.play_round g)))))
         = length (Hand._cards (Player.hand (Game.player g)))
           + length (Hand._cards (Dealer.hand (Game.dealer g))) + k)%nat) /\
    (exists k : nat,
        Game.deck (snd (Game.play_auto g)) = Deck.deals k (Game.deck g)) /\
    (deck_inv (Game.deck g) ->
     deck_inv (Game.deck (snd (Game.play_round g))) /\
     deck_inv (Game.deck (snd (Game.play_auto g)))).
Proof.
  intros g.
  assert (Hround :
            exists k : nat,
              Game.deck (snd (Game.play_round g)) = Deck.deals k (Game.deck g) /\
              (length (Hand._cards (Player.hand (Game.player (snd (Game.play_round g)))))
               + length (Hand._cards (Dealer.hand (Game.dealer (snd (Game.play_round g)))))
               = length (Hand._cards (Player.hand (Game.player g)))
                 + length (Hand._cards (Dealer.hand (Game.dealer g))) + k)%nat).
  { destruct (Game.play_round g) as [o g'] eqn:Hres. cbn [snd].
    revert Hres.
    unfold Game.play_round. unfold Game.bind at 1. unfold Game.get at 1.
    cbv beta iota. unfold Game.bind at 1.
    destruct (Game.player_turn (Game.loop_bound g) g) as [o1 g1] eqn:E1.
    destruct (player_turn_frame _ _ _ _ E1)
      as (Hd1 & _ & _ & _ & (m1 & Hc1 & Hk1) & _).
    assert (Hstop : exists k : nat,
               Game.deck g1 = Deck.deals k (Game.deck g) /\
               (length (Hand._cards (Player.hand (Game.player g1)))
                + length (Hand._cards (Dealer.hand (Game.dealer g1)))
                = length (Hand._cards (Player.hand (Game.player g)))
                  + length (Hand._cards (Dealer.hand (Game.dealer g))) + k)%nat).
    { exists (length m1). split; [exact Hk1|].
      rewrite Hc1, Hd1, length_app. lia. }
    destruct o1 as [[]|e|];
      try (intros H; injection H as <- <-; exact Hstop).
    unfold Game.bind at 1. unfold Game.read at 1.
    destruct (Hand.value (Player.hand (Game.player g1))) as [v|e];
      cbn [outcome_of]; [|intros H; injection H as <- <-; exact Hstop].
    destruct (21 <? v); [intros H; injection H as <- <-; exact Hstop|].
    unfold Game.bind at 1. unfold Game.get at 1. cbv beta iota.
    unfold Game.bind at 1.
    destruct (Game.dealer_turn (Game.loop_bound g1) g1) as [o2 g2] eqn:E2.
    destruct (dealer_turn_frame _ _ _ _ E2) as (Hp2 & _ & _).
    destruct (dealer_turn_deals _ _ _ _ E2) as (_ & m2 & Hc2 & Hk2).
    assert (Hstop2 : exists k : nat,
               Game.deck g2 = Deck.deals k (Game.deck g) /\
               (length (Hand._cards (Player.hand (Game.player g2)))
                + length (Hand._cards (Dealer.hand (Game.dealer g2)))
                = length (Hand._cards (Player.hand (Game.player g)))
                  + length (Hand._cards (Dealer.hand (Game.dealer g))) + k)%nat).
    { exists (length m1 + length m2)%nat. split.
      - rewrite Hk2, Hk1. apply deals_deals.
      - rewrite Hp2, Hc2, Hc1, Hd1, !length_app. lia. }
    destruct o2 as [[]|e|];
      try (intros H; injection H as <- <-; exact Hstop2).
    destruct (determine_winner_frame g2) as (Hk3 & Hd3 & _ & _ & Hh3).
    cbv zeta in Hk3, Hd3, Hh3.
    intros H. rewrite H in Hk3, Hd3, Hh3. cbn [snd] in Hk3, Hd3, Hh3.
    rewrite Hk3, Hd3, Hh3. exact Hstop2. }
  assert (Hauto : exists k : nat,
             Game.deck (snd (Game.play_auto g)) = Deck.deals k (Game.deck g)).
  { destruct (Z.lt_ge_cases (Player.bankroll (Game.player g)) (Game.bet g))
      as [Hlt|Hge].
    - exists 0%nat. now rewrite (play_auto_refused g Hlt).
    - destruct (start_round_after_deal g Hge) as (e & g' & Hs & Hk & _).
      exists 4%nat. now rewrite (play_auto_of_raise g g' e Hs). }
  split; [exact Hround|]. split; [exact Hauto|].
  intros Hinv. destruct Hround as (k1 & -> & _). destruct Hauto as (k2 & ->).
  split; now apply deals_inv.
Qed.

Lemma rounds_only_deal_witness :
  deck_inv
    (Game.deck
       (snd (Game.play_round
               (Game.mk (Player.mk 990 1000 Conservative
                           (Hand.of_cards [Card.mk TEN SPADES;
                                           Card.mk NINE HEARTS]
                                          false false false) [] 0)
                        (Dealer.mk (Hand.of_cards [Card.mk TEN CLUBS;
                                                   Card.mk SIX CLUBS]
                                                  false false false))
                        (Deck.mk 1 (Deck.fill 1) [])
                        10 1 true false)))).
Proof.
  apply (rounds_only_deal
           (Game.mk (Player.mk 990 1000 Conservative
                       (Hand.of_cards [Card.mk TEN SPADES; Card.mk NINE HEARTS]
                                      false false false) [] 0)
                    (Dealer.mk (Hand.of_cards [Card.mk TEN CLUBS;
                                               Card.mk SIX CLUBS]
                                              false false false))
                    (Deck.mk 1 (Deck.fill 1) [])
                    10 1 true false)).
  reflexivity.
Defined.

(** X25. The dealer's turn, when it ends without an exception, ends on 17 or
    more; a dealer who started below 17 ends on 26 at most, and a dealer who
    started on 17 or more has drawn nothing. *)
Theorem dealer_ends_between_17_and_26 :
  forall (n : nat) (g g' : Game.t) (v : Z),
    Game.dealer_turn n g = (Return tt, g') ->
    Hand.value (Dealer.hand (Game.dealer g)) = Ok v ->
    exists dv : Z,
      Hand.value (Dealer.hand (Game.dealer g')) = Ok dv /\
      17 <= dv /\
      (v < 17 -> dv <= 26) /\
      (17 <= v -> g' = g).
Proof.
  intros n g g' v H Hv.
  destruct (Z.lt_ge_cases v 17) as [Hlt|Hge].
  - destruct (dealer_turn_range n g g' v H Hv Hlt) as (dv & Hdv & Hr).
    exists dv. repeat split; try lia; auto.
  - destruct n as [|n]; [discriminate|].
    rewrite dealer_turn_S, (should_hit_value _ _ Hv) in H.
    destruct (Z.ltb_spec v 17) as [?|_]; [lia|].
    injection H as <-. exists v. repeat split; auto; lia.
Qed.

Lemma dealer_ends_between_17_and_26_witness :
  exists dv : Z,
    Hand.value
      (Dealer.hand
         (Game.dealer
            (snd (Game.dealer_turn 3
                    (Game.mk (Player.init 990 Basic)
                             (Dealer.mk (Hand.of_cards [Card.mk TEN CLUBS;
                                                        Card.mk SIX CLUBS]
                                                       false false false))
                             (Deck.mk 1 [Card.mk TWO SPADES;
                                         Card.mk KING DIAMONDS] [])
                             10 1 true false)))))
    = Ok dv /\ 17 <= dv <= 26.
Proof.
  destruct (dealer_ends_between_17_and_26
              3
              (Game.mk (Player.init 990 Basic)
                       (Dealer.mk (Hand.of_cards [Card.mk TEN CLUBS;
                                                  Card.mk SIX CLUBS]
                                                 false false false))
                       (Deck.mk 1 [Card.mk TWO SPADES; Card.mk KING DIAMONDS] [])
                       10 1 true false)
              _ 16 eq_refl eq_refl) as (dv & Hdv & Hge & Hle & _).
  exists dv. split; [exact Hdv|]. split; [exact Hge|]. apply Hle. lia.
Defined.

Section FreshGame.
Variable rng : list Card.t -> list Card.t.
Hypothesis rng_perm : forall l, Permutation (rng l) l.

Lemma init_shoe (n : Z) (b : bool) :
  1 <= n ->
  exists d,
    Deck.init rng n b = Ok d /\
    Deck.num_decks d = n /\
    Deck._dealt_cards d = [] /\
    length (Deck._cards d) = (Z.to_nat n * 52)%nat.
Proof.
  intros Hn. unfold Deck.init.
  destruct (Z.ltb_spec n 1) as [?|_]; [lia|].
  eexists. split; [reflexivity|].
  destruct b; cbn; repeat split;
    rewrite ?(Permutation_length (rng_perm _)); apply fill_length.
Qed.
End FreshGame.

(** X26. Building and resetting a game.  [Game(player, bet, num_decks)] with
    [num_decks >= 1] gives a full shoe of [52 * num_decks] cards with nothing
    dealt, an empty dealer hand, no round active, and the player passed in
    (or a new one with 1000 and Basic strategy); with fewer decks it raises
    [ValueError].  [reset()] puts a full fresh shoe in place and empties the
    hands, zeroes the current bet, and keeps the bankroll and the base bet;
    on a game whose [num_decks] is below 1 it raises [ValueError] and
    changes nothing. *)
Theorem game_init_and_reset :
  forall rng : list Card.t -> list Card.t,
    (forall l, Permutation (rng l) l) ->
    (forall (player : option Player.t) (bet n : Z),
        1 <= n ->
        exists g : Game.t,
          Game.init rng player bet n = Ok g /\
          Deck.remaining (Game.deck g) = 52 * n /\
          Deck.dealt_count (Game.deck g) = 0 /\
          Hand._cards (Dealer.hand (Game.dealer g)) = [] /\
          Game.round_active g = false /\
          Game.bet g = bet /\
          Game.player g = match player with
                          | Some p => p
                          | None => Player.init 1000 Basic
                          end) /\
    (forall (player : option Player.t) (bet n : Z),
        n < 1 -> Game.init rng player bet n = Err ValueError) /\
    (forall g : Game.t,
        1 <= Game.num_decks g ->
        exists g' : Game.t,
          Game.reset rng g = (Return tt, g') /\
          Deck.remaining (Game.deck g') = 52 * Game.num_decks g /\
          Deck.dealt_count (Game.deck g') = 0 /\
          Hand._cards (Player.hand (Game.player g')) = [] /\
          Hand._cards (Dealer.hand (Game.dealer g')) = [] /\
          Player.bankroll (Game.player g') = Player.bankroll (Game.player g) /\
          Player.current_bet (Game.player g') = 0 /\
          Game.round_active g' = false /\
          Game.bet g' = Game.bet g) /\
    (forall g : Game.t,
        Game.num_decks g < 1 -> Game.reset rng g = (Raise ValueError, g)).
Proof.
  intros rng Hperm. split; [|split; [|split]].
  - intros player bet n Hn. unfold Game.init.
    destruct (init_shoe rng Hperm n true Hn) as (d & -> & _ & Hdealt & Hlen).
    eexists. split; [reflexivity|].
    unfold Deck.remaining, Deck.dealt_count.
    cbn [Game.deck Game.dealer Game.round_active Game.bet Game.player
         Dealer.init Dealer.hand Hand.empty Hand._cards].
    rewrite Hdealt, Hlen. repeat split; cbn [length]; lia.
  - intros player bet n Hn. unfold Game.init, Deck.init.
    destruct (Z.ltb_spec n 1); [reflexivity | lia].
  - intros g Hn. unfold Game.reset.
    destruct (init_shoe rng Hperm (Game.num_decks g) true Hn)
      as (d & -> & _ & Hdealt & Hlen).
    eexists. split; [reflexivity|].
    unfold Deck.remaining, Deck.dealt_count. simp_game.
    rewrite Hdealt, Hlen. repeat split; cbn [length]; lia.
  - intros g Hn. unfold Game.reset, Deck.init.
    destruct (Z.ltb_spec (Game.num_decks g) 1); [reflexivity | lia].
Qed.

Lemma game_init_and_reset_witness :
  exists g : Game.t,
    Game.init (@rev Card.t) None 10 6 = Ok g /\
    Deck.remaining (Game.deck g) = 312.
Proof.
  destruct (game_init_and_reset (@rev Card.t)) as (Hinit & _).
  - intros l. apply Permutation_sym, Permutation_rev.
  - destruct (Hinit None 10 6) as (g & Hg & Hrem & _); [lia|].
    exists g. split; [exact Hg | exact Hrem].
Defined.

(** X27. [play_auto] on a newly built game never completes its first round:
    whenever the player's bankroll covers the bet, the call deducts the bet,
    deals four cards off the full shoe and raises [TypeError], whatever the
    shuffle and whoever plays. *)
Theorem first_round_of_a_new_game_raises :
  forall (rng : list Card.t -> list Card.t) (player : option Player.t)
         (bet n : Z) (g : Game.t),
    (forall l, Permutation (rng l) l) ->
    Game.init rng player bet n = Ok g ->
    bet <= Player.bankroll (Game.player g) ->
    exists g' : Game.t,
      Game.play_auto g = (Raise TypeError, g') /\
      Player.bankroll (Game.player g')
      = Player.bankroll (Game.player g) - bet /\
      Deck.remaining (Game.deck g') = 52 * n - 4 /\
      Deck.dealt_count (Game.deck g') = 4.
Proof.
  intros rng player bet n g Hperm Hinit Hbet.
  assert (Hn : 1 <= n).
  { destruct (Z.lt_ge_cases n 1) as [Hlt|Hge]; [|exact Hge].
    unfold Game.init, Deck.init in Hinit.
    destruct (Z.ltb_spec n 1); [discriminate | lia]. }
  destruct (init_shoe rng Hperm n true Hn) as (d & Hd & Hnum & Hdealt & Hlen).
  unfold Game.init in Hinit. rewrite Hd in Hinit. injection Hinit as <-.
  cbn [Game.player Game.bet Game.deck] in *.
  set (p := match player with Some p => p | None => Player.init 1000 Basic end)
    in *.
  destruct (start_round_after_deal
              (Game.mk p Dealer.init d bet n false false))
    as (e & g' & Hs & Hk & _ & _ & Hbank & _ & _ & He); [exact Hbet|].
  cbn [Game.player Game.bet Game.deck] in *.
  rewrite He in Hs by lia. exists g'.
  split; [now apply play_auto_of_raise|]. split; [exact Hbank|].
  rewrite Hk.
  destruct (deal_multiple_loop_spec 4 d []) as (taken & _ & Hl & Hc & Hdl & Hsnd).
  assert (Hl4 : length taken = 4%nat) by lia.
  rewrite Hl4 in Hsnd. rewrite <- Hsnd.
  unfold Deck.remaining, Deck.dealt_count. rewrite Hdl, Hdealt.
  assert (Hrem : length (Deck._cards d)
                 = (length (Deck._cards (snd (Deck.deal_multiple_loop 4 [] d)))
                    + 4)%nat).
  { rewrite Hc at 1. rewrite length_app, length_rev. lia. }
  cbn [app]. split; lia.
Qed.

Lemma first_round_of_a_new_game_raises_witness :
  exists g g' : Game.t,
    Game.init (@rev Card.t) None 10 1 = Ok g /\
    Game.play_auto g = (Raise TypeError, g') /\
    Player.bankroll (Game.player g') = 990.
Proof.
  destruct (first_round_of_a_new_game_raises
              (@rev Card.t) None 10 1
              (Game.mk (Player.init 1000 Basic) Dealer.init
                       (Deck.mk 1 (rev (Deck.fill 1)) []) 10 1 false false))
    as (g' & Hplay & Hbank & _).
  - intros l. apply Permutation_sym, Permutation_rev.
  - reflexivity.
  - cbn. lia.
  - eexists. exists g'. split; [reflexivity|]. split; [exact Hplay | exact Hbank].
Defined.

(** ** The blackjack payout in floating point *)

Section Payout.
Local Open Scope result_scope.

Lemma round53_small (n : Z) : n < 2 ^ 53 -> Game.round53 n = n.
Proof.
  intros H. unfold Game.round53.
  destruct (Z.ltb_spec n (2 ^ 53)); [reflexivity | lia].
Qed.

(** As long as [5 * bet] fits the 53 bits of a significand the product is
    exact and [int(bet * 2.5)] is [5 * bet / 2] truncated towards zero. *)
Lemma int_times_2_5_exact (bet : Z) :
  5 * Z.abs bet < 2 ^ 53 ->
  Game.int_times_2_5 bet = Ok (Z.quot (5 * bet) 2).
Proof.
  intros H. unfold Game.int_times_2_5.
  assert (H53 : 2 ^ 53 < 2 ^ 1024) by (apply Z.pow_lt_mono_r; lia).
  assert (H1025 : 2 ^ 1024 < 2 ^ 1025) by (apply Z.pow_lt_mono_r; lia).
  rewrite (round53_small (Z.abs bet)) by lia.
  rewrite (round53_small (5 * Z.abs bet)) by exact H.
  destruct (Z.leb_spec (2 ^ 1024) (Z.abs bet)); [lia|].
  destruct (Z.leb_spec (2 ^ 1025) (5 * Z.abs bet)); [lia|].
  f_equal.
  destruct (Z.le_gt_cases 0 bet) as [Hpos|Hneg].
  - rewrite Z.abs_eq by exact Hpos.
    rewrite Z.quot_div_nonneg by lia.
    destruct (Z.eq_dec bet 0) as [->|Hnz]; [reflexivity|].
    rewrite Z.sgn_pos by lia. lia.
  - rewrite Z.abs_neq by lia. rewrite Z.sgn_neg by exact Hneg.
    replace (5 * bet) with (- (5 * - bet)) by lia.
    rewrite Z.quot_opp_l by lia.
    rewrite Z.quot_div_nonneg by lia. lia.
Qed.

(** The first stake at which the rounding shows: the product
    4503599627370497.5 is a tie and goes to the even neighbour. *)
Lemma int_times_2_5_rounds :
  Game.int_times_2_5 1801439850948198 = Ok 4503599627370495 /\
  Game.int_times_2_5 1801439850948199 = Ok 4503599627370498 /\
  Z.quot (5 * 1801439850948199) 2 = 4503599627370497.
Proof. repeat split; vm_compute; reflexivity. Qed.
End Payout.

(** ** Soft hands with more than one Ace *)

(** C5 (the code departs from the claim).  A hand worth 18 in which one Ace
    counts as 11 and another Ace was demoted to 1 (the total is above the
    all-Aces-as-1 total, and the all-Aces-as-11 sum is above 21) is not soft
    for [is_soft], and Basic strategy plays it from the hard rows: it stands
    against every upcard and whatever the flags, where the soft-18 row
    doubles down against 3 to 6 and hits against a 9, a ten-valued card or
    an Ace. *)
Theorem basic_plays_demoted_soft_18_as_hard :
  forall (cs : list Card.t) (sp db su : bool) (dealer_card : Card.t)
         (can_double can_split can_surrender : bool),
    Hand.value (Hand.of_cards cs sp db su) = Ok 18 ->
    hard_total cs < 18 ->
    21 < naive_sum cs ->
    Hand.is_soft (Hand.of_cards cs sp db su) = Ok false /\
    BasicStrategy.decide (Hand.of_cards cs sp db su) (Some dealer_card)
                         can_double can_split can_surrender
    = Ok STAND.
Proof.
  intros cs sp db su dealer_card cd csp csu Hval Hhard Hsum.
  rewrite value_of_cards in Hval. injection Hval as Hval.
  assert (Hle : (naive_sum cs <=? 21) = false) by (apply Z.leb_gt; exact Hsum).
  rewrite is_soft_of_cards, basic_decide_cards, Hle, Hval, andb_false_r.
  split; [reflexivity|].
  assert (Hpair : pair_rank cs = None).
  { destruct cs as [|[r0 s0] [|[r1 s1] [|c2 cs]]]; try reflexivity.
    destruct r0, r1; try reflexivity; exfalso;
      cbn in Hval, Hsum; (discriminate || lia). }
  rewrite Hpair. reflexivity.
Qed.

Lemma basic_plays_demoted_soft_18_as_hard_witness :
  let h := Hand.of_cards [Card.mk ACE SPADES; Card.mk ACE HEARTS;
                          Card.mk SIX DIAMONDS] false false false in
  Hand.value h = Ok 18 /\
  Hand.is_soft h = Ok false /\
  BasicStrategy.decide h (Some (Card.mk FOUR CLUBS)) true true true
  = Ok STAND /\
  BasicStrategy.decide h (Some (Card.mk NINE CLUBS)) true true true
  = Ok STAND /\
  BasicStrategy.decide h (Some (Card.mk KING CLUBS)) true true true
  = Ok STAND /\
  BasicStrategy.decide h (Some (Card.mk ACE CLUBS)) true true true
  = Ok STAND.
Proof.
  intros h.
  assert (Hval : Hand.value h = Ok 18) by reflexivity.
  assert (Hhard : hard_total [Card.mk ACE SPADES; Card.mk ACE HEARTS;
                              Card.mk SIX DIAMONDS] < 18)
    by (vm_compute; reflexivity).
  assert (Hsum : 21 < naive_sum [Card.mk ACE SPADES; Card.mk ACE HEARTS;
                                 Card.mk SIX DIAMONDS])
    by (vm_compute; reflexivity).
  split; [exact Hval|].
  split; [|split; [|split; [|split]]].
  - apply (basic_plays_demoted_soft_18_as_hard
             _ false false false (Card.mk FOUR CLUBS) true true true
             Hval Hhard Hsum).
  - apply (basic_plays_demoted_soft_18_as_hard
             _ false false false (Card.mk FOUR CLUBS) true true true
             Hval Hhard Hsum).
  - apply (basic_plays_demoted_soft_18_as_hard
             _ false false false (Card.mk NINE CLUBS) true true true
             Hval Hhard Hsum).
  - apply (basic_plays_demoted_soft_18_as_hard
             _ false false false (Card.mk KING CLUBS) true true true
             Hval Hhard Hsum).
  - apply (basic_plays_demoted_soft_18_as_hard
             _ false false false (Card.mk ACE CLUBS) true true true
             Hval Hhard Hsum).
Defined.

(** ** Doubling down in a whole round *)

(** C10 (the code departs from the claim).  No round of [play_auto] gets as
    far as the DOUBLE_DOWN branch or the settlement.  Whenever the bankroll
    covers the bet and the shoe holds four cards, [play_auto] raises
    [TypeError] right after the deal and returns no result: the base bet has
    been deducted once and no second time, nothing is credited, the player
    holds the two cards dealt and no third, and the shoe is four cards
    shorter. *)
Theorem play_auto_never_doubles :
  forall (g : Game.t) (rest : list Card.t) (c4 c3 c2 c1 : Card.t),
    Game.bet g <= Player.bankroll (Game.player g) ->
    Deck._cards (Game.deck g) = rest ++ [c4; c3; c2; c1] ->
    exists g' : Game.t,
      Game.play_auto g = (Raise TypeError, g') /\
      Player.bankroll (Game.player g')
      = Player.bankroll (Game.player g) - Game.bet g /\
      Player.current_bet (Game.player g') = 0 /\
      Hand._cards (Player.hand (Game.player g')) = [Some c1; Some c3] /\
      Hand._cards (Dealer.hand (Game.dealer g')) = [Some c2; Some c4] /\
      Deck._cards (Game.deck g') = rest /\
      Game.bet g' = Game.bet g.
Proof.
  intros g rest c4 c3 c2 c1 Hbet Hdeck.
  destruct g as [p dl [n cards dealt] b nd ra io].
  cbn [Game.player Game.bet Game.deck Deck._cards] in *. subst cards.
  assert (Hstart : exists g' : Game.t,
             Game.start_round
               (Game.mk p dl (Deck.mk n (rest ++ [c4; c3; c2; c1]) dealt)
                        b nd ra io)
             = (Raise TypeError, g') /\
             Player.bankroll (Game.player g') = Player.bankroll p - b /\
             Player.current_bet (Game.player g') = 0 /\
             Hand._cards (Player.hand (Game.player g')) = [Some c1; Some c3] /\
             Hand._cards (Dealer.hand (Game.dealer g')) = [Some c2; Some c4] /\
             Deck._cards (Game.deck g') = rest /\
             Game.bet g' = b).
  { replace (rest ++ [c4; c3; c2; c1])
      with ((((rest ++ [c4]) ++ [c3]) ++ [c2]) ++ [c1])
      by (rewrite <- !app_assoc; reflexivity).
    assert (Hlt : (Player.bankroll p <? b) = false) by (apply Z.ltb_ge; lia).
    unfold Game.start_round. run_controller. unfold Player.place_bet.
    simp_game. rewrite Hlt. simp_game. rewrite Hlt. simp_game.
    do 4 (rewrite deal_snoc; simp_game).
    change (Hand.add_card (Hand.add_card Hand.empty (Some c2)) (Some c4))
      with (Hand.of_cards [c2; c4] false false false).
    rewrite is_blackjack_cards. simp_game.
    eexists. split; [reflexivity|]. simp_game. repeat split; auto. }
  destruct Hstart as (g' & Hstart & Hrest). exists g'.
  split; [now apply play_auto_of_raise | exact Hrest].
Qed.

(** A deal on which Basic strategy doubles (5 and 6 against a ten): the
    round raises with 990 left of 1000 and two cards in hand, although the
    strategy asked at that point answers DOUBLE_DOWN and the rest of the
    round, run from there, would double, win and bring the bankroll back to
    1000. *)
Lemma play_auto_never_doubles_witness :
  exists g' : Game.t,
    Game.play_auto
      (Game.mk (Player.init 1000 Basic) Dealer.init
               (Deck.mk 1 [Card.mk NINE DIAMONDS; Card.mk ACE SPADES;
                           Card.mk SIX CLUBS; Card.mk SIX HEARTS;
                           Card.mk TEN CLUBS; Card.mk FIVE SPADES] [])
               10 1 false false)
    = (Raise TypeError, g') /\
    Player.bankroll (Game.player g') = 990 /\
    Hand._cards (Player.hand (Game.player g'))
    = [Some (Card.mk FIVE SPADES); Some (Card.mk SIX HEARTS)] /\
    fst (Game.ask_strategy g') = Return DOUBLE_DOWN /\
    fst (Game.play_round g') = Return win /\
    Player.bankroll (Game.player (snd (Game.play_round g'))) = 1000.
Proof.
  destruct (play_auto_never_doubles
              (Game.mk (Player.init 1000 Basic) Dealer.init
                       (Deck.mk 1 [Card.mk NINE DIAMONDS; Card.mk ACE SPADES;
                                   Card.mk SIX CLUBS; Card.mk SIX HEARTS;
                                   Card.mk TEN CLUBS; Card.mk FIVE SPADES] [])
                       10 1 false false)
              [Card.mk NINE DIAMONDS; Card.mk ACE SPADES]
              (Card.mk SIX CLUBS) (Card.mk SIX HEARTS)
              (Card.mk TEN CLUBS) (Card.mk FIVE SPADES))
    as (g' & Hplay & Hbank & _ & Hhand & _).
  - cbn. lia.
  - reflexivity.
  - exists g'. split; [exact Hplay|]. split; [exact Hbank|].
    split; [exact Hhand|].
    vm_compute in Hplay. injection Hplay as <-.
    repeat split; vm_compute; reflexivity.
Defined.
